(** * FreeFallSimulation: a shallow embedding of [src/FreeFallSimulation.tsx]

    The React component is embedded as a record of its state cells (the
    [useState] hooks and the [intervalRef]) together with one function per
    handler and timer callback.  A timer that is alive is a closure stored in
    the state: it holds the values the callback captured when
    [startSimulation] ran and the callback's own local [time].

    Numbers.  A JavaScript number is an IEEE double.  The component is
    embedded twice, with the same state cells, handlers and events.

    - In the first embedding a number is an exact rational ([Q]), compared
      with [==]; rounding, infinities and signed zero are left out, and
      [NaN] is kept only as the result of [parseFloat].  It carries the
      statements that do not depend on the digits a computation produces:
      pagination, the page cursors, the shape of the exported document, the
      trail, the bounds on what is drawn, the invariants of the state cells.

    - In the second embedding ([Module Dbl]) a number is a binary64 value
      ([spec_float], precision 53, exponents up to 1024): every [+], [-] and
      [*] of the source rounds to the nearest double, ties to even,
      overflows to an infinity and propagates [NaN]; comparisons, [Math.max],
      [Math.min], [parseFloat], [toFixed] and [toString] act on doubles.  It
      carries the statements about what a run computes: the state of each
      tick, the tick at which the driver stops, and the records of the
      history. *)

From Stdlib Require Import ZArith QArith Qround Qabs Qpower List String Ascii.
From Stdlib Require Import DecimalString DecimalN Bool Lia Lqa SpecFloat.
Import ListNotations.

Local Open Scope Z_scope.

(** ** The JavaScript built-ins the component calls *)

Module JS.

(** A value of type [number]: [parseFloat] may return [NaN]. *)
Inductive number : Type :=
| NaN
| Num (q : Q).

(** [x || d] on a number: [NaN] and [0] are falsy. *)
Definition or_default (x : number) (d : Q) : Q :=
  match x with
  | NaN => d
  | Num q => if Qeq_bool q 0 then d else q
  end.

Definition Math_max (a b : Q) : Q := if Qle_bool a b then b else a.
Definition Math_min (a b : Q) : Q := if Qle_bool a b then a else b.
Definition Math_ceil (x : Q) : Z := Qceiling x.

Definition Qlt_bool (a b : Q) : bool := negb (Qle_bool b a).

(** [Array.prototype.slice(start, end)]; [end_ = None] is the call with one
    argument.  Negative indices count from the end of the array. *)
Definition slice {A : Type} (l : list A) (start : Z) (end_ : option Z) : list A :=
  let len := Z.of_nat (List.length l) in
  let k := if start <? 0 then Z.max (len + start) 0 else Z.min start len in
  let relativeEnd := match end_ with None => len | Some e => e end in
  let final := if relativeEnd <? 0 then Z.max (len + relativeEnd) 0
               else Z.min relativeEnd len in
  firstn (Z.to_nat (final - k)) (skipn (Z.to_nat k) l).

Local Open Scope string_scope.

(** [Array.prototype.join(sep)] on an array of strings. *)
Fixpoint join (sep : string) (l : list string) : string :=
  match l with
  | [] => ""
  | [x] => x
  | x :: xs => x ++ sep ++ join sep xs
  end.

Fixpoint drop (n : nat) (s : string) : string :=
  match n, s with
  | O, _ => s
  | S n', String _ s' => drop n' s'
  | S _, EmptyString => EmptyString
  end.

Fixpoint take (n : nat) (s : string) : string :=
  match n, s with
  | S n', String c s' => String c (take n' s')
  | _, _ => EmptyString
  end.

(** [String.prototype.replace(pattern, replacement)] with a string pattern:
    only the first occurrence is replaced. *)
Fixpoint replace (pattern replacement s : string) : string :=
  if prefix pattern s then replacement ++ drop (String.length pattern) s
  else match s with
       | EmptyString => EmptyString
       | String c s' => String c (replace pattern replacement s')
       end.

(** [String.prototype.split(sep)] for a separator of one character. *)
Fixpoint split (sep : ascii) (s : string) : list string :=
  match s with
  | EmptyString => [EmptyString]
  | String c s' =>
      if Ascii.eqb c sep then EmptyString :: split sep s'
      else match split sep s' with
           | [] => [String c EmptyString]
           | x :: xs => String c x :: xs
           end
  end.

(** Decimal digits of a natural number, no leading zero, ["0"] for zero. *)
Definition digits (n : N) : string := NilZero.string_of_uint (N.to_uint n).

Fixpoint zeros (n : nat) : string :=
  match n with
  | O => EmptyString
  | S n' => String "0" (zeros n')
  end.

Definition pow10 (z : Z) : Q := Qpower (10 # 1) z.

(** The nearest integer to a non-negative rational, the larger one on a tie. *)
Definition round_half_up (y : Q) : Z := Qfloor (y + (1 # 2)).

(** The [n] with [10^(n-1) <= x < 10^n], for [x > 0]. *)
Fixpoint scale_down (fuel : nat) (x : Q) (n : Z) : Z :=
  match fuel with
  | O => n
  | S fuel' => if Qle_bool (1 # 1) x then n
               else scale_down fuel' (x * (10 # 1)) (n - 1)
  end.

Definition decimal_exponent (x : Q) : Z :=
  if Qle_bool (1 # 1) x
  then Z.of_nat (String.length (digits (Z.to_N (Qfloor x))))
  else scale_down (S (Pos.to_nat (Pos.size (Qden x)))) (x * (10 # 1)) 0.

(** Remove the trailing zeros of [s], counting them into the exponent. *)
Fixpoint strip_zeros (fuel : nat) (s e : Z) : Z * Z :=
  match fuel with
  | O => (s, e)
  | S fuel' => if ((0 <? s) && (s mod 10 =? 0))%Z
               then strip_zeros fuel' (s / 10) (e + 1)
               else (s, e)
  end.

(** The digits [s] and the exponent [n] of [Number::toString]: the value is
    [s * 10^(n-k)] with [k] the number of digits of [s].  A double prints with
    at most 17 significant digits, and so does the model. *)
Definition significand (x : Q) : Z * Z :=
  let n := decimal_exponent x in
  strip_zeros 18 (round_half_up (x * pow10 (17 - n))) (n - 17).

(** [Number::toString] of a positive value, from its digits and exponent. *)
Definition print_decimal (s e : Z) : string :=
  let m := digits (Z.to_N s) in
  let k := Z.of_nat (String.length m) in
  let n := k + e in
  if ((k <=? n) && (n <=? 21))%Z then m ++ zeros (Z.to_nat (n - k))
  else if ((0 <? n) && (n <=? 21))%Z
       then take (Z.to_nat n) m ++ "." ++ drop (Z.to_nat n) m
  else if ((-6 <? n) && (n <=? 0))%Z then "0." ++ zeros (Z.to_nat (- n)) ++ m
  else
    let ex := n - 1 in
    let sign := if (ex <? 0)%Z then "-" else "+" in
    let mant := if (k =? 1)%Z then m else take 1 m ++ "." ++ drop 1 m in
    mant ++ "e" ++ sign ++ digits (Z.abs_N ex).

Definition toString_Q (x : Q) : string :=
  if Qeq_bool x 0 then "0"
  else
    let sgn := if Qlt_bool x 0 then "-" else "" in
    let (s, e) := significand (Qabs x) in
    sgn ++ print_decimal s e.

(** [Number.prototype.toString()]. *)
Definition toString (x : number) : string :=
  match x with
  | NaN => "NaN"
  | Num q => toString_Q q
  end.

(** [Number.prototype.toFixed(f)]. *)
Definition toFixed (f : nat) (x : Q) : string :=
  let s := if Qlt_bool x 0 then "-" else "" in
  let x := Qabs x in
  if Qle_bool (pow10 21) x then s ++ toString_Q x
  else
    let n := round_half_up (x * pow10 (Z.of_nat f)) in
    let m := digits (Z.to_N n) in
    let m :=
      match f with
      | O => m
      | _ =>
          let k := String.length m in
          let m := if (k <=? f)%nat then zeros (f + 1 - k) ++ m else m in
          let k := if (k <=? f)%nat then (f + 1)%nat else k in
          take (k - f) m ++ "." ++ drop (k - f) m
      end in
    s ++ m.

(** *** [parseFloat] *)

Definition is_digit (c : ascii) : bool :=
  let n := N_of_ascii c in ((48 <=? n) && (n <=? 57))%N.

Definition is_white_space (c : ascii) : bool :=
  let n := N_of_ascii c in
  ((n =? 9) || (n =? 10) || (n =? 11) || (n =? 12) || (n =? 13) || (n =? 32))%N.

Fixpoint trim_start (s : string) : string :=
  match s with
  | String c s' => if is_white_space c then trim_start s' else s
  | EmptyString => s
  end.

(** The longest prefix of digits, and what follows it. *)
Fixpoint span_digits (s : string) : string * string :=
  match s with
  | String c s' =>
      if is_digit c
      then let (d, r) := span_digits s' in (String c d, r)
      else (EmptyString, s)
  | EmptyString => (EmptyString, EmptyString)
  end.

Fixpoint digits_value (acc : N) (s : string) : N :=
  match s with
  | String c s' => digits_value (acc * 10 + (N_of_ascii c - 48))%N s'
  | EmptyString => acc
  end.

(** [ExponentPart]: [e] or [E], an optional sign and at least one digit. *)
Definition exponent_part (s : string) : Z :=
  match s with
  | String c r =>
      if (Ascii.eqb c "e" || Ascii.eqb c "E")%bool then
        let (neg, r) :=
          match r with
          | String "-" r' => (true, r')
          | String "+" r' => (false, r')
          | _ => (false, r)
          end in
        let (d, _) := span_digits r in
        match d with
        | EmptyString => 0%Z
        | _ => let v := Z.of_N (digits_value 0 d) in if neg then (- v)%Z else v
        end
      else 0%Z
  | EmptyString => 0%Z
  end.

(** [parseFloat(s)]: the value of the longest prefix of [s], after leading
    white space, that is a decimal literal; [NaN] when there is none.  The
    literal [Infinity] has no value here and reads as [NaN]. *)
Definition parseFloat (s : string) : number :=
  let s := trim_start s in
  let (neg, s) :=
    match s with
    | String "-" r => (true, r)
    | String "+" r => (false, r)
    | _ => (false, s)
    end in
  let (ip, r1) := span_digits s in
  let (fp, r2) :=
    match r1 with
    | String "." r => span_digits r
    | _ => (EmptyString, r1)
    end in
  match ip, fp with
  | EmptyString, EmptyString => NaN
  | _, _ =>
      let e := (exponent_part r2 - Z.of_nat (String.length fp))%Z in
      let v := (inject_Z (Z.of_N (digits_value 0 (ip ++ fp))) * pow10 e)%Q in
      Num (if neg then Qopp v else v)
  end.

End JS.

(** ** The component's data *)

Module SimulationData.
Record t : Type := mk {
  time : JS.number;
  height : JS.number;
  velocity : JS.number;
  acceleration : JS.number;
  displacement : JS.number;
  mass : JS.number
}.
End SimulationData.

Module SimulationState.
Record t : Type := mk {
  isRunning : bool;
  time : Q;
  currentHeight : Q;
  currentVelocity : Q;
  displacement : Q;
  ballY : Q
}.
End SimulationState.

Inductive Planet : Type := earth | moon | mars | custom.

(** The [gravity] column of the [PLANETS] table. *)
Definition PLANETS_gravity (p : Planet) : Q :=
  match p with
  | earth => 981 # 100
  | moon => 162 # 100
  | mars => 371 # 100
  | custom => 981 # 100
  end.

(** What the callback given to [window.setInterval] in [startSimulation] has
    captured, and its local variable [time]. *)
Record TickClosure : Type := mkTick {
  c_initialVelocity : Q;
  c_initialHeight : Q;
  c_mass : Q;
  c_gravity : Q;
  c_ballRadius : Q;
  c_initialBallY : Q;
  c_time : Q
}.

(** A live [bounceInterval] of [bounceEffect] with its counter. *)
Record BounceClosure : Type := mkBounce {
  b_ballRadius : Q;
  bounceCount : Z
}.

(** The file handed to the browser by [link.click()]. *)
Record Download : Type := mkDownload {
  download : string;
  blobType : string;
  csvContent : string
}.

(** The state cells of [FreeFallSimulation], its timers, and the downloads it
    has triggered so far. *)
Record Component : Type := mkComponent {
  isDataModalOpen : bool;
  isDataTableVisible : bool;
  mainTableCurrentPage : Z;
  modalCurrentPage : Z;
  initialVelocity : Q;
  initialHeight : Q;
  mass : Q;
  planet : Planet;
  customGravity : Q;
  simulationState : SimulationState.t;
  dataHistory : list SimulationData.t;
  trail : list Q;
  intervalRef : option TickClosure;
  bounceIntervals : list BounceClosure;
  downloads : list Download
}.

Definition setIsDataModalOpen (v : bool) (s : Component) : Component :=
  mkComponent v (isDataTableVisible s) (mainTableCurrentPage s)
    (modalCurrentPage s) (initialVelocity s) (initialHeight s) (mass s)
    (planet s) (customGravity s) (simulationState s) (dataHistory s) (trail s)
    (intervalRef s) (bounceIntervals s) (downloads s).

Definition setIsDataTableVisible (v : bool) (s : Component) : Component :=
  mkComponent (isDataModalOpen s) v (mainTableCurrentPage s)
    (modalCurrentPage s) (initialVelocity s) (initialHeight s) (mass s)
    (planet s) (customGravity s) (simulationState s) (dataHistory s) (trail s)
    (intervalRef s) (bounceIntervals s) (downloads s).

Definition setMainTableCurrentPage (v : Z) (s : Component) : Component :=
  mkComponent (isDataModalOpen s) (isDataTableVisible s) v
    (modalCurrentPage s) (initialVelocity s) (initialHeight s) (mass s)
    (planet s) (customGravity s) (simulationState s) (dataHistory s) (trail s)
    (intervalRef s) (bounceIntervals s) (downloads s).

Definition setModalCurrentPage (v : Z) (s : Component) : Component :=
  mkComponent (isDataModalOpen s) (isDataTableVisible s)
    (mainTableCurrentPage s) v (initialVelocity s) (initialHeight s) (mass s)
    (planet s) (customGravity s) (simulationState s) (dataHistory s) (trail s)
    (intervalRef s) (bounceIntervals s) (downloads s).

Definition setInitialVelocity (v : Q) (s : Component) : Component :=
  mkComponent (isDataModalOpen s) (isDataTableVisible s)
    (mainTableCurrentPage s) (modalCurrentPage s) v (initialHeight s) (mass s)
    (planet s) (customGravity s) (simulationState s) (dataHistory s) (trail s)
    (intervalRef s) (bounceIntervals s) (downloads s).

Definition setInitialHeight (v : Q) (s : Component) : Component :=
  mkComponent (isDataModalOpen s) (isDataTableVisible s)
    (mainTableCurrentPage s) (modalCurrentPage s) (initialVelocity s) v (mass s)
    (planet s) (customGravity s) (simulationState s) (dataHistory s) (trail s)
    (intervalRef s) (bounceIntervals s) (downloads s).

Definition setMass (v : Q) (s : Component) : Component :=
  mkComponent (isDataModalOpen s) (isDataTableVisible s)
    (mainTableCurrentPage s) (modalCurrentPage s) (initialVelocity s)
    (initialHeight s) v (planet s) (customGravity s) (simulationState s)
    (dataHistory s) (trail s) (intervalRef s) (bounceIntervals s) (downloads s).

Definition setPlanet (v : Planet) (s : Component) : Component :=
  mkComponent (isDataModalOpen s) (isDataTableVisible s)
    (mainTableCurrentPage s) (modalCurrentPage s) (initialVelocity s)
    (initialHeight s) (mass s) v (customGravity s) (simulationState s)
    (dataHistory s) (trail s) (intervalRef s) (bounceIntervals s) (downloads s).

Definition setCustomGravity (v : Q) (s : Component) : Component :=
  mkComponent (isDataModalOpen s) (isDataTableVisible s)
    (mainTableCurrentPage s) (modalCurrentPage s) (initialVelocity s)
    (initialHeight s) (mass s) (planet s) v (simulationState s)
    (dataHistory s) (trail s) (intervalRef s) (bounceIntervals s) (downloads s).

(** The setters below take the updater function of the source
    ([setTrail(prev => ...)]); a plain value is the constant updater. *)
Definition setSimulationState (f : SimulationState.t -> SimulationState.t)
    (s : Component) : Component :=
  mkComponent (isDataModalOpen s) (isDataTableVisible s)
    (mainTableCurrentPage s) (modalCurrentPage s) (initialVelocity s)
    (initialHeight s) (mass s) (planet s) (customGravity s)
    (f (simulationState s)) (dataHistory s) (trail s) (intervalRef s)
    (bounceIntervals s) (downloads s).

Definition setDataHistory
    (f : list SimulationData.t -> list SimulationData.t) (s : Component)
    : Component :=
  mkComponent (isDataModalOpen s) (isDataTableVisible s)
    (mainTableCurrentPage s) (modalCurrentPage s) (initialVelocity s)
    (initialHeight s) (mass s) (planet s) (customGravity s)
    (simulationState s) (f (dataHistory s)) (trail s) (intervalRef s)
    (bounceIntervals s) (downloads s).

Definition setTrail (f : list Q -> list Q) (s : Component) : Component :=
  mkComponent (isDataModalOpen s) (isDataTableVisible s)
    (mainTableCurrentPage s) (modalCurrentPage s) (initialVelocity s)
    (initialHeight s) (mass s) (planet s) (customGravity s)
    (simulationState s) (dataHistory s) (f (trail s)) (intervalRef s)
    (bounceIntervals s) (downloads s).

Definition set_intervalRef (v : option TickClosure) (s : Component)
    : Component :=
  mkComponent (isDataModalOpen s) (isDataTableVisible s)
    (mainTableCurrentPage s) (modalCurrentPage s) (initialVelocity s)
    (initialHeight s) (mass s) (planet s) (customGravity s)
    (simulationState s) (dataHistory s) (trail s) v (bounceIntervals s)
    (downloads s).

Definition set_bounceIntervals (v : list BounceClosure) (s : Component)
    : Component :=
  mkComponent (isDataModalOpen s) (isDataTableVisible s)
    (mainTableCurrentPage s) (modalCurrentPage s) (initialVelocity s)
    (initialHeight s) (mass s) (planet s) (customGravity s)
    (simulationState s) (dataHistory s) (trail s) (intervalRef s) v
    (downloads s).

Definition set_downloads (v : list Download) (s : Component) : Component :=
  mkComponent (isDataModalOpen s) (isDataTableVisible s)
    (mainTableCurrentPage s) (modalCurrentPage s) (initialVelocity s)
    (initialHeight s) (mass s) (planet s) (customGravity s)
    (simulationState s) (dataHistory s) (trail s) (intervalRef s)
    (bounceIntervals s) v.

(** ** The component's derived values, handlers and timer callbacks *)

Local Open Scope Q_scope.

Definition itemsPerPage : Z := 20.
Definition SCALE : Q := 4 # 1.
Definition CANVAS_WIDTH : Q := 320 # 1.
Definition CANVAS_HEIGHT : Q := 480 # 1.

Definition gravity (s : Component) : Q :=
  match planet s with
  | custom => customGravity s
  | p => PLANETS_gravity p
  end.

Definition ballRadius (s : Component) : Q :=
  JS.Math_min (20 # 1) ((8 # 1) + mass s * (2 # 1)).

Definition array_length {A : Type} (l : list A) : Z := Z.of_nat (List.length l).

(** Pagination calculations for the main table. *)
Definition mainTotalPages (s : Component) : Z :=
  JS.Math_ceil (inject_Z (array_length (dataHistory s)) / inject_Z itemsPerPage).
Definition mainStartIndex (s : Component) : Z :=
  ((mainTableCurrentPage s - 1) * itemsPerPage)%Z.
Definition mainEndIndex (s : Component) : Z :=
  (mainStartIndex s + itemsPerPage)%Z.
Definition mainCurrentData (s : Component) : list SimulationData.t :=
  JS.slice (dataHistory s) (mainStartIndex s) (Some (mainEndIndex s)).

(** Pagination calculations for the modal. *)
Definition modalTotalPages (s : Component) : Z :=
  JS.Math_ceil (inject_Z (array_length (dataHistory s)) / inject_Z itemsPerPage).
Definition modalStartIndex (s : Component) : Z :=
  ((modalCurrentPage s - 1) * itemsPerPage)%Z.
Definition modalEndIndex (s : Component) : Z :=
  (modalStartIndex s + itemsPerPage)%Z.
Definition modalCurrentData (s : Component) : list SimulationData.t :=
  JS.slice (dataHistory s) (modalStartIndex s) (Some (modalEndIndex s)).

Definition calculateInitialBallY (s : Component) : Q :=
  let y := CANVAS_HEIGHT - ballRadius s - (4 # 1) - (initialHeight s * SCALE) in
  JS.Math_max (ballRadius s) y.

Definition stopSimulation (s : Component) : Component :=
  let s := match intervalRef s with
           | Some _ => set_intervalRef None s
           | None => s
           end in
  setSimulationState
    (fun prev =>
       SimulationState.mk false (SimulationState.time prev)
         (SimulationState.currentHeight prev)
         (SimulationState.currentVelocity prev)
         (SimulationState.displacement prev) (SimulationState.ballY prev))
    s.

(** [bounceEffect] starts a timer of its own; [r] is the [ballRadius] it has
    captured. *)
Definition bounceEffect (r : Q) (s : Component) : Component :=
  set_bounceIntervals (bounceIntervals s ++ [mkBounce r 0]) s.

Definition with_ballY (y : Q) (prev : SimulationState.t) : SimulationState.t :=
  SimulationState.mk (SimulationState.isRunning prev)
    (SimulationState.time prev) (SimulationState.currentHeight prev)
    (SimulationState.currentVelocity prev) (SimulationState.displacement prev)
    y.

Fixpoint replace_nth {A : Type} (i : nat) (x : A) (l : list A) : list A :=
  match i, l with
  | O, _ :: l' => x :: l'
  | S i', y :: l' => y :: replace_nth i' x l'
  | _, [] => []
  end.

Fixpoint remove_nth {A : Type} (i : nat) (l : list A) : list A :=
  match i, l with
  | O, _ :: l' => l'
  | S i', y :: l' => y :: remove_nth i' l'
  | _, [] => []
  end.

(** One firing of the [i]-th live [bounceInterval].  React runs the updater
    given to [setSimulationState] when it processes its queue, after the
    callback has returned: the updater reads the [bounceCount] of that
    moment, which [bounceCount++] has already incremented. *)
Definition bounceCallback (i : nat) (s : Component) : Component :=
  match nth_error (bounceIntervals s) i with
  | None => s
  | Some b =>
      let r := b_ballRadius b in
      let bounceCount' := (bounceCount b + 1)%Z in
      let s :=
        setSimulationState
          (with_ballY (if (bounceCount' mod 2 =? 0)%Z
                       then CANVAS_HEIGHT - r - (4 # 1) - (10 # 1)
                       else CANVAS_HEIGHT - r - (4 # 1)))
          s in
      if (6 <=? bounceCount')%Z
      then
        let s := set_bounceIntervals (remove_nth i (bounceIntervals s)) s in
        setSimulationState (with_ballY (CANVAS_HEIGHT - r - (4 # 1))) s
      else
        set_bounceIntervals
          (replace_nth i (mkBounce r bounceCount') (bounceIntervals s)) s
  end.

(** The kinematics computed by one tick at elapsed time [time]. *)
Definition velocity_at (cl : TickClosure) (time : Q) : Q :=
  c_initialVelocity cl + c_gravity cl * time.
Definition displacement_at (cl : TickClosure) (time : Q) : Q :=
  c_initialVelocity cl * time + (1 # 2) * c_gravity cl * time * time.
Definition currentHeight_at (cl : TickClosure) (time : Q) : Q :=
  JS.Math_max 0 (c_initialHeight cl - displacement_at cl time).
Definition actualBallY_at (cl : TickClosure) (time : Q) : Q :=
  let ballY := c_initialBallY cl + displacement_at cl time * SCALE in
  JS.Math_min ballY (CANVAS_HEIGHT - c_ballRadius cl - (4 # 1)).

Definition newData_at (cl : TickClosure) (time : Q) : SimulationData.t :=
  SimulationData.mk
    (JS.parseFloat (JS.toFixed 2 time))
    (JS.parseFloat (JS.toFixed 2 (currentHeight_at cl time)))
    (JS.parseFloat (JS.toFixed 2 (velocity_at cl time)))
    (JS.parseFloat (JS.toFixed 2 (c_gravity cl)))
    (JS.parseFloat (JS.toFixed 2 (displacement_at cl time)))
    (JS.parseFloat (JS.toFixed 1 (c_mass cl))).

(** The body of the callback given to [window.setInterval]. *)
Definition intervalCallback (cl : TickClosure) (s : Component) : Component :=
  let time := c_time cl + (1 # 10) in
  let s :=
    set_intervalRef
      (Some (mkTick (c_initialVelocity cl) (c_initialHeight cl) (c_mass cl)
               (c_gravity cl) (c_ballRadius cl) (c_initialBallY cl) time))
      s in
  let velocity := velocity_at cl time in
  let displacement := displacement_at cl time in
  let currentHeight := currentHeight_at cl time in
  let actualBallY := actualBallY_at cl time in
  let s :=
    setSimulationState
      (fun prev =>
         SimulationState.mk (SimulationState.isRunning prev) time currentHeight
           velocity displacement actualBallY)
      s in
  let s :=
    setTrail
      (fun prev =>
         let newTrail := prev ++ [actualBallY] in
         if (30 <? array_length newTrail)%Z
         then JS.slice newTrail (-30) None
         else newTrail)
      s in
  let newData := newData_at cl time in
  let s := setDataHistory (fun prev => prev ++ [newData]) s in
  if Qle_bool currentHeight (1 # 1000)
  then bounceEffect (c_ballRadius cl) (stopSimulation s)
  else s.

(** The timer fires: the callback runs if the interval is still set. *)
Definition tick (s : Component) : Component :=
  match intervalRef s with
  | Some cl => intervalCallback cl s
  | None => s
  end.

Definition startSimulation (s : Component) : Component :=
  if SimulationState.isRunning (simulationState s) then s
  else
    let initialBallY := calculateInitialBallY s in
    let cl :=
      mkTick (initialVelocity s) (initialHeight s) (mass s) (gravity s)
        (ballRadius s) initialBallY 0 in
    let s :=
      setSimulationState
        (fun _ =>
           SimulationState.mk true 0 (initialHeight s) (initialVelocity s) 0
             initialBallY)
        s in
    let s := setDataHistory (fun _ => []) s in
    let s := setTrail (fun _ => []) s in
    let s := setMainTableCurrentPage 1 s in
    let s := setModalCurrentPage 1 s in
    set_intervalRef (Some cl) s.

Definition restartSimulation (s : Component) : Component :=
  let s := stopSimulation s in
  let s :=
    setSimulationState
      (fun _ =>
         SimulationState.mk false 0 (initialHeight s) (initialVelocity s) 0
           (calculateInitialBallY s))
      s in
  let s := setDataHistory (fun _ => []) s in
  let s := setTrail (fun _ => []) s in
  let s := setMainTableCurrentPage 1 s in
  setModalCurrentPage 1 s.

Local Open Scope string_scope.

Definition headers : list string :=
  ["Zaman (s)"; "Yükseklik (m)"; "Hız (m/s)"; "İvme (m/s²)";
   "Yer Değiştirme (m)"; "Kütle (kg)"].

Definition LF : string := String (ascii_of_nat 10) EmptyString.

Definition csv_field (x : JS.number) : string :=
  JS.replace "." "," (JS.toString x).

Definition csv_row (row : SimulationData.t) : string :=
  JS.join ";"
    [csv_field (SimulationData.time row);
     csv_field (SimulationData.height row);
     csv_field (SimulationData.velocity row);
     csv_field (SimulationData.acceleration row);
     csv_field (SimulationData.displacement row);
     csv_field (SimulationData.mass row)].

Definition downloadCSV (s : Component) : Component :=
  if (array_length (dataHistory s) =? 0)%Z then s
  else
    let csvContent :=
      JS.join LF (JS.join ";" headers :: map csv_row (dataHistory s)) in
    set_downloads
      (downloads s ++
       [mkDownload "serbest_dusme_verileri.csv" "text/csv;charset=utf-8;"
          csvContent])
      s.

Definition toggleDataTable (s : Component) : Component :=
  setIsDataTableVisible (negb (isDataTableVisible s)) s.

Definition handleMainTablePageChange (page : Z) (s : Component) : Component :=
  if ((1 <=? page) && (page <=? mainTotalPages s))%Z
  then setMainTableCurrentPage page s
  else s.

Definition handleModalPageChange (page : Z) (s : Component) : Component :=
  if ((1 <=? page) && (page <=? modalTotalPages s))%Z
  then setModalCurrentPage page s
  else s.

(** What the pagination bars render: the children of the
    [<div className="pagination">], in order.  A button carries the page its
    [onClick] asks for. *)
Inductive PaginationItem : Type :=
| PrevButton (disabled : bool) (target : Z)
| PageButton (page : Z) (active : bool)
| Ellipsis
| NextButton (disabled : bool) (target : Z)
| PageInfo (first last total : Z).

(** [Array.from({ length }, (_, i) => f(i))]. *)
Definition Array_from {A : Type} (length : Z) (f : Z -> A) : list A :=
  map (fun i => f (Z.of_nat i)) (seq 0 (Z.to_nat length)).

Definition maxVisiblePages : Z := 7.

(** The [startPage] and [endPage] both render functions compute;
    [Math.floor(maxVisiblePages / 2)] is [maxVisiblePages / 2] on integers. *)
Definition visiblePages (currentPage totalPages : Z) : Z * Z :=
  let startPage := Z.max 1 (currentPage - maxVisiblePages / 2)%Z in
  let endPage := Z.min totalPages (startPage + maxVisiblePages - 1)%Z in
  let startPage :=
    if (endPage - startPage + 1 <? maxVisiblePages)%Z
    then Z.max 1 (endPage - maxVisiblePages + 1)%Z
    else startPage in
  (startPage, endPage).

Definition renderPagination (currentPage totalPages startIndex endIndex
    length : Z) : option (list PaginationItem) :=
  if (totalPages <=? 1)%Z then None
  else
    let (startPage, endPage) := visiblePages currentPage totalPages in
    Some
      ([PrevButton (currentPage =? 1)%Z (currentPage - 1)%Z]
       ++ (if (1 <? startPage)%Z
           then PageButton 1 false
                :: (if (2 <? startPage)%Z then [Ellipsis] else [])
           else [])
       ++ Array_from (endPage - startPage + 1)%Z
            (fun i =>
               let page := (startPage + i)%Z in
               PageButton page (currentPage =? page)%Z)
       ++ (if (endPage <? totalPages)%Z
           then (if (endPage <? totalPages - 1)%Z then [Ellipsis] else [])
                ++ [PageButton totalPages false]
           else [])
       ++ [NextButton (currentPage =? totalPages)%Z (currentPage + 1)%Z;
           PageInfo (startIndex + 1)%Z (Z.min endIndex length) length])%list.

Definition renderMainTablePagination (s : Component)
    : option (list PaginationItem) :=
  renderPagination (mainTableCurrentPage s) (mainTotalPages s)
    (mainStartIndex s) (mainEndIndex s) (array_length (dataHistory s)).

Definition renderModalPagination (s : Component)
    : option (list PaginationItem) :=
  renderPagination (modalCurrentPage s) (modalTotalPages s)
    (modalStartIndex s) (modalEndIndex s) (array_length (dataHistory s)).

(** The calls [drawTrail] makes: one filled circle per trail entry, with its
    centre height, radius and the alpha of its fill style. *)
Record TrailDot : Type := mkDot {
  dot_y : Q;
  dot_radius : Q;
  dot_alpha : Q
}.

Fixpoint drawTrail_from (index : Z) (length : Z) (trail : list Q)
    : list TrailDot :=
  match trail with
  | [] => []
  | yPos :: rest =>
      let opacity := (inject_Z index / inject_Z length)%Q in
      let radius := ((inject_Z index / inject_Z length) * (4 # 1) + 1)%Q in
      (mkDot yPos radius (opacity * (6 # 10))%Q
       :: drawTrail_from (index + 1)%Z length rest)%list
  end.

Definition drawTrail (trail : list Q) : list TrailDot :=
  drawTrail_from 0 (array_length trail) trail.

(** The [onChange] handlers of the parameter inputs; [value] is
    [e.target.value]. *)
Definition onChangeInitialVelocity (value : string) : Component -> Component :=
  setInitialVelocity (JS.or_default (JS.parseFloat value) 0).
Definition onChangeInitialHeight (value : string) : Component -> Component :=
  setInitialHeight (JS.Math_max 1 (JS.or_default (JS.parseFloat value) 1)).
Definition onChangeMass (value : string) : Component -> Component :=
  setMass (JS.Math_max (1 # 10) (JS.or_default (JS.parseFloat value) (1 # 10))).
Definition onChangeCustomGravity (value : string) : Component -> Component :=
  setCustomGravity
    (JS.Math_max (1 # 10) (JS.or_default (JS.parseFloat value) (1 # 10))).

(** The values of the [useState] calls, before the mount effect. *)
Definition initialState : Component :=
  mkComponent false false 1 1 0 (50 # 1) 1 earth (981 # 100)
    (SimulationState.mk false 0 (50 # 1) 0 0 0) [] [] None [] [].

(** The component after its mount effect, which calls [restartSimulation]. *)
Definition mounted : Component := restartSimulation initialState.

(** Everything that can happen to a mounted component. *)
Inductive Event : Type :=
| StartSimulation
| StopSimulation
| RestartSimulation
| Tick
| BounceTick (i : nat)
| DownloadCSV
| ToggleDataTable
| OpenDataModal
| CloseDataModal
| MainTablePageChange (page : Z)
| ModalPageChange (page : Z)
| ChangeInitialVelocity (value : string)
| ChangeInitialHeight (value : string)
| ChangeMass (value : string)
| ChangePlanet (p : Planet)
| ChangeCustomGravity (value : string).

Definition handle (s : Component) (e : Event) : Component :=
  match e with
  | StartSimulation => startSimulation s
  | StopSimulation => stopSimulation s
  | RestartSimulation => restartSimulation s
  | Tick => tick s
  | BounceTick i => bounceCallback i s
  | DownloadCSV => downloadCSV s
  | ToggleDataTable => toggleDataTable s
  | OpenDataModal => setIsDataModalOpen true s
  | CloseDataModal => setIsDataModalOpen false s
  | MainTablePageChange page => handleMainTablePageChange page s
  | ModalPageChange page => handleModalPageChange page s
  | ChangeInitialVelocity v => onChangeInitialVelocity v s
  | ChangeInitialHeight v => onChangeInitialHeight v s
  | ChangeMass v => onChangeMass v s
  | ChangePlanet p => setPlanet p s
  | ChangeCustomGravity v => onChangeCustomGravity v s
  end.

Definition run (s : Component) (es : list Event) : Component :=
  fold_left handle es s.

(** [n] firings of the tick timer. *)
Fixpoint ticks (n : nat) (s : Component) : Component :=
  match n with
  | O => s
  | S n' => tick (ticks n' s)
  end.

(** ** Specification vocabulary *)

Local Close Scope string_scope.
Local Open Scope list_scope.
Local Open Scope Q_scope.

(** The value of the callback's [time] after [n] executions of
    [time += 0.1]. *)
Fixpoint tick_time (n : nat) : Q :=
  match n with
  | O => 0
  | S n' => tick_time n' + (1 # 10)
  end.

(** The closure [startSimulation] creates in state [s], with its [time] at
    [t]. *)
Definition closure_at (s : Component) (t : Q) : TickClosure :=
  mkTick (initialVelocity s) (initialHeight s) (mass s) (gravity s)
    (ballRadius s) (calculateInitialBallY s) t.

(** The kinematics of the specification, for elapsed time [t]. *)
Definition spec_displacement (v0 g t : Q) : Q := v0 * t + (1 # 2) * g * t ^ 2.
Definition spec_height (v0 h0 g t : Q) : Q :=
  JS.Math_max 0 (h0 - spec_displacement v0 g t).

Definition epsilon : Q := 1 # 1000.

(** The tick at elapsed time [t] does not find the ball on the ground. *)
Definition airborne (v0 h0 g t : Q) : Prop := epsilon < spec_height v0 h0 g t.

Definition elapsed (n : nat) : Q := inject_Z (Z.of_nat n) * (1 # 10).

(** The last [n] elements of a list. *)
Definition lastn {A : Type} (n : nat) (l : list A) : list A :=
  skipn (List.length l - n) l.

(** All ball positions appended to the trail since it was last cleared, along
    a sequence of events: the trail without its bound. *)
Definition appended_by (s : Component) (e : Event) (log : list Q) : list Q :=
  match e with
  | StartSimulation =>
      if SimulationState.isRunning (simulationState s) then log else []
  | RestartSimulation => []
  | Tick =>
      match intervalRef s with
      | Some cl => log ++ [actualBallY_at cl (c_time cl + (1 # 10))]
      | None => log
      end
  | _ => log
  end.

Fixpoint appended (s : Component) (es : list Event) (log : list Q) : list Q :=
  match es with
  | [] => log
  | e :: es' => appended (handle s e) es' (appended_by s e log)
  end.

Definition is_main_change (e : Event) : bool :=
  match e with MainTablePageChange _ => true | _ => false end.
Definition is_modal_change (e : Event) : bool :=
  match e with ModalPageChange _ => true | _ => false end.
Definition is_page_change (e : Event) : bool :=
  is_main_change e || is_modal_change e.

(** Every period of a string turned into a comma. *)
Fixpoint comma_decimal (s : string) : string :=
  match s with
  | EmptyString => EmptyString
  | String c s' =>
      String (if Ascii.eqb c "." then ","%char else c) (comma_decimal s')
  end.

Fixpoint occurs (c : ascii) (s : string) : nat :=
  match s with
  | EmptyString => O
  | String d s' => (if Ascii.eqb d c then 1 else 0) + occurs c s'
  end.

Definition record_fields (row : SimulationData.t) : list JS.number :=
  [SimulationData.time row; SimulationData.height row;
   SimulationData.velocity row; SimulationData.acceleration row;
   SimulationData.displacement row; SimulationData.mass row].

Definition grounded (cl : TickClosure) (t : Q) : bool :=
  Qle_bool (currentHeight_at cl t) epsilon.

Definition running_state (b : bool) (cl : TickClosure) (t : Q)
    : SimulationState.t :=
  SimulationState.mk b t (currentHeight_at cl t) (velocity_at cl t)
    (displacement_at cl t) (actualBallY_at cl t).

(** A bounded check of [airborne], for concrete runs. *)
Definition airborne_until (v0 h0 g : Q) (n : nat) : bool :=
  forallb (fun m => negb (Qle_bool (spec_height v0 h0 g (elapsed m)) epsilon))
    (seq 1 (n - 1)).

(** The two tables as the user sees them: cursor, page count and rows. *)
Definition main_view (s : Component) : Z * Z * list SimulationData.t :=
  (mainTableCurrentPage s, mainTotalPages s, mainCurrentData s).

Definition modal_view (s : Component) : Z * Z * list SimulationData.t :=
  (modalCurrentPage s, modalTotalPages s, modalCurrentData s).

(** What the updater given to [setTrail] computes. *)
Definition trail_update (y : Q) (prev : list Q) : list Q :=
  let newTrail := prev ++ [y] in
  if (30 <? array_length newTrail)%Z
  then JS.slice newTrail (-30) None
  else newTrail.

(** The page of [l] under cursor [c], as both tables compute it. *)
Definition page_at (l : list SimulationData.t) (c : Z)
    : list SimulationData.t :=
  JS.slice l ((c - 1) * itemsPerPage)
    (Some ((c - 1) * itemsPerPage + itemsPerPage))%Z.

Definition all_digits (s : string) : bool :=
  forallb JS.is_digit (list_ascii_of_string s).

Definition starts_with_digit (s : string) : bool :=
  match s with
  | String c _ => JS.is_digit c
  | EmptyString => false
  end.

(** A character that no printed number contains: not a digit and none of
    [. e - + N a]. *)
Definition foreign (c : ascii) : bool :=
  negb (JS.is_digit c) && negb (Ascii.eqb "." c) && negb (Ascii.eqb "e" c)
  && negb (Ascii.eqb "-" c) && negb (Ascii.eqb "+" c)
  && negb (Ascii.eqb "N" c) && negb (Ascii.eqb "a" c).

(** The [ballY] of a ball of radius [r] that lies on the ground. *)
Definition groundY (r : Q) : Q := CANVAS_HEIGHT - r - (4 # 1).

(** [k] firings of the [i]-th bounce timer. *)
Fixpoint bounceTicks (i : nat) (k : nat) (s : Component) : Component :=
  match k with
  | O => s
  | S k' => bounceCallback i (bounceTicks i k' s)
  end.

(** The parameter ranges the inputs clamp to. *)
Definition valid_parameters (s : Component) : Prop :=
  1 <= initialHeight s /\ (1 # 10) <= mass s /\ (1 # 10) <= customGravity s.

(** The driver's flag and its timer agree. *)
Definition driver_consistent (s : Component) : Prop :=
  SimulationState.isRunning (simulationState s) = true <-> intervalRef s <> None.

(** Both cursors are on an existing page, or on page 1 of an empty table. *)
Definition cursors_in_range (s : Component) : Prop :=
  (1 <= mainTableCurrentPage s <= Z.max 1 (mainTotalPages s))%Z /\
  (1 <= modalCurrentPage s <= Z.max 1 (modalTotalPages s))%Z.


(** The page a click on an item asks for, if the item is an enabled button. *)
Definition click_target (item : PaginationItem) : option Z :=
  match item with
  | PrevButton false target => Some target
  | NextButton false target => Some target
  | PageButton page _ => Some page
  | _ => None
  end.

(** The sign and magnitude [toFixed] prints, as a number. *)
Definition rounded (f : nat) (x : Q) : Q :=
  let v := inject_Z (JS.round_half_up (Qabs x * JS.pow10 (Z.of_nat f)))
           / JS.pow10 (Z.of_nat f) in
  if JS.Qlt_bool x 0 then - v else v.

(** [parseFloat] after the white space and the sign. *)
Definition parse_unsigned (neg : bool) (s : string) : JS.number :=
  let (ip, r1) := JS.span_digits s in
  let (fp, r2) :=
    match r1 with
    | String "." r => JS.span_digits r
    | _ => (EmptyString, r1)
    end in
  match ip, fp with
  | EmptyString, EmptyString => JS.NaN
  | _, _ =>
      let e := (JS.exponent_part r2 - Z.of_nat (String.length fp))%Z in
      let v := inject_Z (Z.of_N (JS.digits_value 0 (ip ++ fp)%string))
               * JS.pow10 e in
      JS.Num (if neg then Qopp v else v)
  end.

(** What one firing of a bounce timer leaves untouched. *)
Definition bounce_frame (s s' : Component) : Prop :=
  dataHistory s' = dataHistory s /\ trail s' = trail s /\
  intervalRef s' = intervalRef s /\
  mainTableCurrentPage s' = mainTableCurrentPage s /\
  modalCurrentPage s' = modalCurrentPage s /\
  SimulationState.isRunning (simulationState s') =
    SimulationState.isRunning (simulationState s) /\
  SimulationState.time (simulationState s') =
    SimulationState.time (simulationState s) /\
  SimulationState.currentHeight (simulationState s') =
    SimulationState.currentHeight (simulationState s).


(** The items of a pagination bar, by position. *)
Definition bar_items (currentPage totalPages startIndex endIndex length
    startPage endPage : Z) : list PaginationItem :=
  [PrevButton (currentPage =? 1)%Z (currentPage - 1)%Z]
  ++ (if (1 <? startPage)%Z
      then PageButton 1 false
           :: (if (2 <? startPage)%Z then [Ellipsis] else [])
      else [])
  ++ Array_from (endPage - startPage + 1)%Z
       (fun i => PageButton (startPage + i)%Z
                   (currentPage =? startPage + i)%Z)
  ++ (if (endPage <? totalPages)%Z
      then (if (endPage <? totalPages - 1)%Z then [Ellipsis] else [])
           ++ [PageButton totalPages false]
      else [])
  ++ [NextButton (currentPage =? totalPages)%Z (currentPage + 1)%Z;
      PageInfo (startIndex + 1)%Z (Z.min endIndex length) length].

(** The digits [toFixed] prints after the sign: the integer part and the
    fraction digits. *)
Definition fixed_digits (f : nat) (n : Z) : string :=
  let m := JS.digits (Z.to_N n) in
  if (String.length m <=? f)%nat
  then (JS.zeros (f + 1 - String.length m) ++ m)%string
  else m.

(** The events that edit a parameter. *)
Definition is_parameter_change (e : Event) : bool :=
  match e with
  | ChangeInitialVelocity _ | ChangeInitialHeight _ | ChangeMass _
  | ChangePlanet _ | ChangeCustomGravity _ => true
  | _ => false
  end.

(** Two components that differ at most in their parameters. *)
Definition same_simulation (s1 s2 : Component) : Prop :=
  simulationState s1 = simulationState s2 /\
  dataHistory s1 = dataHistory s2 /\
  trail s1 = trail s2 /\
  intervalRef s1 = intervalRef s2 /\
  bounceIntervals s1 = bounceIntervals s2 /\
  mainTableCurrentPage s1 = mainTableCurrentPage s2 /\
  modalCurrentPage s1 = modalCurrentPage s2.

(** What a numeric input falls back to: [Math.max(lo, parseFloat(v) || lo)]. *)
Definition clamped_input (lo : Q) (value : string) : Q :=
  match JS.parseFloat value with
  | JS.NaN => lo
  | JS.Num q => if Qle_bool lo q then q else lo
  end.

(** ** The component on IEEE doubles *)

Module Dbl.

Local Open Scope string_scope.
Local Open Scope list_scope.
Local Open Scope Z_scope.

(** A JavaScript number: a binary64 value. *)
Definition number : Type := spec_float.
Definition prec : Z := 53.
Definition emax : Z := 1024.

Definition add : number -> number -> number := SFadd prec emax.
Definition sub : number -> number -> number := SFsub prec emax.
Definition mul : number -> number -> number := SFmul prec emax.

(** [a <= b] and [a < b]: false when either side is [NaN]. *)
Definition leb : number -> number -> bool := SFleb.
Definition ltb : number -> number -> bool := SFltb.

Definition with_sign (neg : bool) (x : number) : number :=
  match x with
  | S754_zero _ => S754_zero neg
  | S754_infinity _ => S754_infinity neg
  | S754_finite _ m e => S754_finite neg m e
  | S754_nan => S754_nan
  end.

(** The double nearest to a non-negative rational, ties to even: the
    correctly rounded quotient of its numerator and denominator. *)
Definition of_Q (q : Q) : number :=
  let r := Qred q in
  match Qnum r with
  | Zpos n =>
      SFdiv prec emax (S754_finite false n 0) (S754_finite false (Qden r) 0)
  | _ => S754_zero false
  end.

(** The exact value of a finite double. *)
Definition to_Q (x : number) : Q :=
  match x with
  | S754_finite s m e =>
      let v := (inject_Z (Zpos m) * Qpower (2 # 1) e)%Q in
      if s then Qopp v else v
  | _ => 0%Q
  end.

(** A numeric literal of the source. *)
Definition lit (q : Q) : number := of_Q q.

(** [Math.max] and [Math.min] of two numbers: [NaN] when either is [NaN],
    and [+0] counts as larger than [-0]. *)
Definition Math_max (a b : number) : number :=
  match SFcompare a b with
  | None => S754_nan
  | Some Lt => b
  | Some Gt => a
  | Some Eq =>
      match a, b with
      | S754_zero true, S754_zero s => S754_zero s
      | _, _ => a
      end
  end.

Definition Math_min (a b : number) : number :=
  match SFcompare a b with
  | None => S754_nan
  | Some Lt => a
  | Some Gt => b
  | Some Eq =>
      match a, b with
      | S754_zero false, S754_zero s => S754_zero s
      | _, _ => a
      end
  end.

(** [x || d]: [NaN], [+0] and [-0] are falsy. *)
Definition or_default (x d : number) : number :=
  match x with
  | S754_nan | S754_zero _ => d
  | _ => x
  end.

(** [parseFloat(s)]: after leading white space and a sign, [Infinity], or
    the double nearest to the longest prefix that is a decimal literal;
    [NaN] when there is neither. *)
Definition parseFloat (s : string) : number :=
  let s := JS.trim_start s in
  let (neg, s) :=
    match s with
    | String "-" r => (true, r)
    | String "+" r => (false, r)
    | _ => (false, s)
    end in
  if prefix "Infinity" s then S754_infinity neg
  else
    match parse_unsigned false s with
    | JS.NaN => S754_nan
    | JS.Num q => with_sign neg (of_Q q)
    end.

(** The decimal [c * scale] reads back as [x]: [x] is the double nearest to
    it. *)
Definition reads_back (x : number) (c : Z) (scale : Q) : bool :=
  SFeqb (of_Q (inject_Z c * scale)) x.

(** The digits [s] and exponent of [Number::toString] for a positive finite
    double [x] of value [v] with [10^(n-1) <= v < 10^n]: the fewest digits
    [k] such that some [s * 10^(n-k)] reads back as [x], and among those [s]
    the nearest to [v], the even one on a tie.  Seventeen digits always
    suffice. *)
Fixpoint shortest_from (fuel : nat) (k : Z) (x : number) (v : Q) (n : Z)
    : Z * Z :=
  let scale := JS.pow10 (n - k) in
  let lo := Qfloor (v / scale) in
  let hi := (lo + 1)%Z in
  let dlo := (v - inject_Z lo * scale)%Q in
  let dhi := (inject_Z hi * scale - v)%Q in
  match fuel with
  | O => (JS.round_half_up (v / scale), (n - k)%Z)
  | S fuel' =>
      match reads_back x lo scale, reads_back x hi scale with
      | true, true =>
          if Qeq_bool dlo dhi then ((if Z.even lo then lo else hi), (n - k)%Z)
          else if Qle_bool dlo dhi then (lo, (n - k)%Z) else (hi, (n - k)%Z)
      | true, false => (lo, (n - k)%Z)
      | false, true => (hi, (n - k)%Z)
      | false, false => shortest_from fuel' (k + 1) x v n
      end
  end.

Definition shortest (x : number) : Z * Z :=
  let v := to_Q x in
  let n := JS.decimal_exponent v in
  let (s, e) := shortest_from 16 1 x v n in
  JS.strip_zeros 18 s e.

(** [Number.prototype.toString()]. *)
Definition toString (x : number) : string :=
  match x with
  | S754_nan => "NaN"
  | S754_zero _ => "0"
  | S754_infinity s => if s then "-Infinity" else "Infinity"
  | S754_finite s m e =>
      let (d, ex) := shortest (S754_finite false m e) in
      (if s then "-" else "") ++ JS.print_decimal d ex
  end.

(** [Number.prototype.toFixed(f)]: the exact value of the double, rounded
    to [f] decimals. *)
Definition toFixed (f : nat) (x : number) : string :=
  match x with
  | S754_nan | S754_infinity _ => toString x
  | S754_zero _ => JS.toFixed f 0
  | S754_finite s m e =>
      if Qle_bool (JS.pow10 21) (Qabs (to_Q x))
      then (if s then "-" else "") ++ toString (S754_finite false m e)
      else JS.toFixed f (to_Q x)
  end.

(** *** The component's data, with [number] a double *)

Module SimulationData.
Record t : Type := mk {
  time : number;
  height : number;
  velocity : number;
  acceleration : number;
  displacement : number;
  mass : number
}.
End SimulationData.

Module SimulationState.
Record t : Type := mk {
  isRunning : bool;
  time : number;
  currentHeight : number;
  currentVelocity : number;
  displacement : number;
  ballY : number
}.
End SimulationState.

Definition PLANETS_gravity (p : Planet) : number :=
  match p with
  | earth => lit (981 # 100)
  | moon => lit (162 # 100)
  | mars => lit (371 # 100)
  | custom => lit (981 # 100)
  end.

Record TickClosure : Type := mkTick {
  c_initialVelocity : number;
  c_initialHeight : number;
  c_mass : number;
  c_gravity : number;
  c_ballRadius : number;
  c_initialBallY : number;
  c_time : number
}.

Record BounceClosure : Type := mkBounce {
  b_ballRadius : number;
  bounceCount : Z
}.

Record Component : Type := mkComponent {
  isDataModalOpen : bool;
  isDataTableVisible : bool;
  mainTableCurrentPage : Z;
  modalCurrentPage : Z;
  initialVelocity : number;
  initialHeight : number;
  mass : number;
  planet : Planet;
  customGravity : number;
  simulationState : SimulationState.t;
  dataHistory : list SimulationData.t;
  trail : list number;
  intervalRef : option TickClosure;
  bounceIntervals : list BounceClosure;
  downloads : list Download
}.

Definition setIsDataModalOpen (v : bool) (s : Component) : Component :=
  mkComponent v (isDataTableVisible s) (mainTableCurrentPage s)
    (modalCurrentPage s) (initialVelocity s) (initialHeight s) (mass s)
    (planet s) (customGravity s) (simulationState s) (dataHistory s) (trail s)
    (intervalRef s) (bounceIntervals s) (downloads s).

Definition setIsDataTableVisible (v : bool) (s : Component) : Component :=
  mkComponent (isDataModalOpen s) v (mainTableCurrentPage s)
    (modalCurrentPage s) (initialVelocity s) (initialHeight s) (mass s)
    (planet s) (customGravity s) (simulationState s) (dataHistory s) (trail s)
    (intervalRef s) (bounceIntervals s) (downloads s).

Definition setMainTableCurrentPage (v : Z) (s : Component) : Component :=
  mkComponent (isDataModalOpen s) (isDataTableVisible s) v
    (modalCurrentPage s) (initialVelocity s) (initialHeight s) (mass s)
    (planet s) (customGravity s) (simulationState s) (dataHistory s) (trail s)
    (intervalRef s) (bounceIntervals s) (downloads s).

Definition setModalCurrentPage (v : Z) (s : Component) : Component :=
  mkComponent (isDataModalOpen s) (isDataTableVisible s)
    (mainTableCurrentPage s) v (initialVelocity s) (initialHeight s) (mass s)
    (planet s) (customGravity s) (simulationState s) (dataHistory s) (trail s)
    (intervalRef s) (bounceIntervals s) (downloads s).

Definition setInitialVelocity (v : number) (s : Component) : Component :=
  mkComponent (isDataModalOpen s) (isDataTableVisible s)
    (mainTableCurrentPage s) (modalCurrentPage s) v (initialHeight s) (mass s)
    (planet s) (customGravity s) (simulationState s) (dataHistory s) (trail s)
    (intervalRef s) (bounceIntervals s) (downloads s).

Definition setInitialHeight (v : number) (s : Component) : Component :=
  mkComponent (isDataModalOpen s) (isDataTableVisible s)
    (mainTableCurrentPage s) (modalCurrentPage s) (initialVelocity s) v
    (mass s) (planet s) (customGravity s) (simulationState s) (dataHistory s)
    (trail s) (intervalRef s) (bounceIntervals s) (downloads s).

Definition setMass (v : number) (s : Component) : Component :=
  mkComponent (isDataModalOpen s) (isDataTableVisible s)
    (mainTableCurrentPage s) (modalCurrentPage s) (initialVelocity s)
    (initialHeight s) v (planet s) (customGravity s) (simulationState s)
    (dataHistory s) (trail s) (intervalRef s) (bounceIntervals s)
    (downloads s).

Definition setPlanet (v : Planet) (s : Component) : Component :=
  mkComponent (isDataModalOpen s) (isDataTableVisible s)
    (mainTableCurrentPage s) (modalCurrentPage s) (initialVelocity s)
    (initialHeight s) (mass s) v (customGravity s) (simulationState s)
    (dataHistory s) (trail s) (intervalRef s) (bounceIntervals s)
    (downloads s).

Definition setCustomGravity (v : number) (s : Component) : Component :=
  mkComponent (isDataModalOpen s) (isDataTableVisible s)
    (mainTableCurrentPage s) (modalCurrentPage s) (initialVelocity s)
    (initialHeight s) (mass s) (planet s) v (simulationState s)
    (dataHistory s) (trail s) (intervalRef s) (bounceIntervals s)
    (downloads s).

Definition setSimulationState (f : SimulationState.t -> SimulationState.t)
    (s : Component) : Component :=
  mkComponent (isDataModalOpen s) (isDataTableVisible s)
    (mainTableCurrentPage s) (modalCurrentPage s) (initialVelocity s)
    (initialHeight s) (mass s) (planet s) (customGravity s)
    (f (simulationState s)) (dataHistory s) (trail s) (intervalRef s)
    (bounceIntervals s) (downloads s).

Definition setDataHistory (f : list SimulationData.t -> list SimulationData.t)
    (s : Component) : Component :=
  mkComponent (isDataModalOpen s) (isDataTableVisible s)
    (mainTableCurrentPage s) (modalCurrentPage s) (initialVelocity s)
    (initialHeight s) (mass s) (planet s) (customGravity s)
    (simulationState s) (f (dataHistory s)) (trail s) (intervalRef s)
    (bounceIntervals s) (downloads s).

Definition setTrail (f : list number -> list number)
    (s : Component) : Component :=
  mkComponent (isDataModalOpen s) (isDataTableVisible s)
    (mainTableCurrentPage s) (modalCurrentPage s) (initialVelocity s)
    (initialHeight s) (mass s) (planet s) (customGravity s)
    (simulationState s) (dataHistory s) (f (trail s)) (intervalRef s)
    (bounceIntervals s) (downloads s).

Definition set_intervalRef (v : option TickClosure)
    (s : Component) : Component :=
  mkComponent (isDataModalOpen s) (isDataTableVisible s)
    (mainTableCurrentPage s) (modalCurrentPage s) (initialVelocity s)
    (initialHeight s) (mass s) (planet s) (customGravity s)
    (simulationState s) (dataHistory s) (trail s) v (bounceIntervals s)
    (downloads s).

Definition set_bounceIntervals (v : list BounceClosure)
    (s : Component) : Component :=
  mkComponent (isDataModalOpen s) (isDataTableVisible s)
    (mainTableCurrentPage s) (modalCurrentPage s) (initialVelocity s)
    (initialHeight s) (mass s) (planet s) (customGravity s)
    (simulationState s) (dataHistory s) (trail s) (intervalRef s) v
    (downloads s).

Definition set_downloads (v : list Download) (s : Component) : Component :=
  mkComponent (isDataModalOpen s) (isDataTableVisible s)
    (mainTableCurrentPage s) (modalCurrentPage s) (initialVelocity s)
    (initialHeight s) (mass s) (planet s) (customGravity s)
    (simulationState s) (dataHistory s) (trail s) (intervalRef s)
    (bounceIntervals s) v.

(** *** Derived values, handlers and timer callbacks *)

Definition SCALE : number := lit (4 # 1).
Definition CANVAS_HEIGHT : number := lit (480 # 1).

Definition gravity (s : Component) : number :=
  match planet s with
  | custom => customGravity s
  | p => PLANETS_gravity p
  end.

Definition ballRadius (s : Component) : number :=
  Math_min (lit (20 # 1)) (add (lit (8 # 1)) (mul (mass s) (lit (2 # 1)))).

Definition mainTotalPages (s : Component) : Z :=
  JS.Math_ceil (inject_Z (array_length (dataHistory s)) / inject_Z itemsPerPage).
Definition modalTotalPages (s : Component) : Z :=
  JS.Math_ceil (inject_Z (array_length (dataHistory s)) / inject_Z itemsPerPage).

Definition calculateInitialBallY (s : Component) : number :=
  let y :=
    sub (sub (sub CANVAS_HEIGHT (ballRadius s)) (lit (4 # 1)))
      (mul (initialHeight s) SCALE) in
  Math_max (ballRadius s) y.

Definition stopSimulation (s : Component) : Component :=
  let s := match intervalRef s with
           | Some _ => set_intervalRef None s
           | None => s
           end in
  setSimulationState
    (fun prev =>
       SimulationState.mk false (SimulationState.time prev)
         (SimulationState.currentHeight prev)
         (SimulationState.currentVelocity prev)
         (SimulationState.displacement prev) (SimulationState.ballY prev))
    s.

Definition bounceEffect (r : number) (s : Component) : Component :=
  set_bounceIntervals (bounceIntervals s ++ [mkBounce r 0]) s.

Definition with_ballY (y : number) (prev : SimulationState.t)
    : SimulationState.t :=
  SimulationState.mk (SimulationState.isRunning prev)
    (SimulationState.time prev) (SimulationState.currentHeight prev)
    (SimulationState.currentVelocity prev) (SimulationState.displacement prev)
    y.

(** One firing of the [i]-th live [bounceInterval].  React runs the updater
    given to [setSimulationState] when it processes its queue, after the
    callback has returned: the updater reads the [bounceCount] of that
    moment, which [bounceCount++] has already incremented. *)
Definition bounceCallback (i : nat) (s : Component) : Component :=
  match nth_error (bounceIntervals s) i with
  | None => s
  | Some b =>
      let r := b_ballRadius b in
      let bounceCount' := (bounceCount b + 1)%Z in
      let s :=
        setSimulationState
          (with_ballY
             (if (bounceCount' mod 2 =? 0)%Z
              then sub (sub (sub CANVAS_HEIGHT r) (lit (4 # 1))) (lit (10 # 1))
              else sub (sub CANVAS_HEIGHT r) (lit (4 # 1))))
          s in
      if (6 <=? bounceCount')%Z
      then
        let s := set_bounceIntervals (remove_nth i (bounceIntervals s)) s in
        setSimulationState
          (with_ballY (sub (sub CANVAS_HEIGHT r) (lit (4 # 1)))) s
      else
        set_bounceIntervals
          (replace_nth i (mkBounce r bounceCount') (bounceIntervals s)) s
  end.

(** The kinematics one tick computes when its [time] has become [time];
    every operation rounds to the nearest double. *)
Definition velocity_at (cl : TickClosure) (time : number) : number :=
  add (c_initialVelocity cl) (mul (c_gravity cl) time).
Definition displacement_at (cl : TickClosure) (time : number) : number :=
  add (mul (c_initialVelocity cl) time)
    (mul (mul (mul (lit (1 # 2)) (c_gravity cl)) time) time).
Definition currentHeight_at (cl : TickClosure) (time : number) : number :=
  Math_max (lit 0) (sub (c_initialHeight cl) (displacement_at cl time)).
Definition actualBallY_at (cl : TickClosure) (time : number) : number :=
  let ballY := add (c_initialBallY cl) (mul (displacement_at cl time) SCALE) in
  Math_min ballY (sub (sub CANVAS_HEIGHT (c_ballRadius cl)) (lit (4 # 1))).

Definition newData_at (cl : TickClosure) (time : number) : SimulationData.t :=
  SimulationData.mk
    (parseFloat (toFixed 2 time))
    (parseFloat (toFixed 2 (currentHeight_at cl time)))
    (parseFloat (toFixed 2 (velocity_at cl time)))
    (parseFloat (toFixed 2 (c_gravity cl)))
    (parseFloat (toFixed 2 (displacement_at cl time)))
    (parseFloat (toFixed 1 (c_mass cl))).

(** The body of the callback given to [window.setInterval]. *)
Definition intervalCallback (cl : TickClosure) (s : Component) : Component :=
  let time := add (c_time cl) (lit (1 # 10)) in
  let s :=
    set_intervalRef
      (Some (mkTick (c_initialVelocity cl) (c_initialHeight cl) (c_mass cl)
               (c_gravity cl) (c_ballRadius cl) (c_initialBallY cl) time))
      s in
  let velocity := velocity_at cl time in
  let displacement := displacement_at cl time in
  let currentHeight := currentHeight_at cl time in
  let actualBallY := actualBallY_at cl time in
  let s :=
    setSimulationState
      (fun prev =>
         SimulationState.mk (SimulationState.isRunning prev) time currentHeight
           velocity displacement actualBallY)
      s in
  let s :=
    setTrail
      (fun prev =>
         let newTrail := prev ++ [actualBallY] in
         if (30 <? array_length newTrail)%Z
         then JS.slice newTrail (-30) None
         else newTrail)
      s in
  let newData := newData_at cl time in
  let s := setDataHistory (fun prev => prev ++ [newData]) s in
  if leb currentHeight (lit (1 # 1000))
  then bounceEffect (c_ballRadius cl) (stopSimulation s)
  else s.

Definition tick (s : Component) : Component :=
  match intervalRef s with
  | Some cl => intervalCallback cl s
  | None => s
  end.

Definition startSimulation (s : Component) : Component :=
  if SimulationState.isRunning (simulationState s) then s
  else
    let initialBallY := calculateInitialBallY s in
    let cl :=
      mkTick (initialVelocity s) (initialHeight s) (mass s) (gravity s)
        (ballRadius s) initialBallY (lit 0) in
    let s :=
      setSimulationState
        (fun _ =>
           SimulationState.mk true (lit 0) (initialHeight s)
             (initialVelocity s) (lit 0) initialBallY)
        s in
    let s := setDataHistory (fun _ => []) s in
    let s := setTrail (fun _ => []) s in
    let s := setMainTableCurrentPage 1 s in
    let s := setModalCurrentPage 1 s in
    set_intervalRef (Some cl) s.

Definition restartSimulation (s : Component) : Component :=
  let s := stopSimulation s in
  let s :=
    setSimulationState
      (fun _ =>
         SimulationState.mk false (lit 0) (initialHeight s)
           (initialVelocity s) (lit 0) (calculateInitialBallY s))
      s in
  let s := setDataHistory (fun _ => []) s in
  let s := setTrail (fun _ => []) s in
  let s := setMainTableCurrentPage 1 s in
  setModalCurrentPage 1 s.

Definition csv_field (x : number) : string :=
  JS.replace "." "," (toString x).

Definition csv_row (row : SimulationData.t) : string :=
  JS.join ";"
    [csv_field (SimulationData.time row);
     csv_field (SimulationData.height row);
     csv_field (SimulationData.velocity row);
     csv_field (SimulationData.acceleration row);
     csv_field (SimulationData.displacement row);
     csv_field (SimulationData.mass row)].

Definition downloadCSV (s : Component) : Component :=
  if (array_length (dataHistory s) =? 0)%Z then s
  else
    let csvContent :=
      JS.join LF (JS.join ";" headers :: map csv_row (dataHistory s)) in
    set_downloads
      (downloads s ++
       [mkDownload "serbest_dusme_verileri.csv" "text/csv;charset=utf-8;"
          csvContent])
      s.

Definition toggleDataTable (s : Component) : Component :=
  setIsDataTableVisible (negb (isDataTableVisible s)) s.

Definition handleMainTablePageChange (page : Z) (s : Component) : Component :=
  if ((1 <=? page) && (page <=? mainTotalPages s))%Z
  then setMainTableCurrentPage page s
  else s.

Definition handleModalPageChange (page : Z) (s : Component) : Component :=
  if ((1 <=? page) && (page <=? modalTotalPages s))%Z
  then setModalCurrentPage page s
  else s.

Definition onChangeInitialVelocity (value : string) : Component -> Component :=
  setInitialVelocity (or_default (parseFloat value) (lit 0)).
Definition onChangeInitialHeight (value : string) : Component -> Component :=
  setInitialHeight (Math_max (lit 1) (or_default (parseFloat value) (lit 1))).
Definition onChangeMass (value : string) : Component -> Component :=
  setMass
    (Math_max (lit (1 # 10)) (or_default (parseFloat value) (lit (1 # 10)))).
Definition onChangeCustomGravity (value : string) : Component -> Component :=
  setCustomGravity
    (Math_max (lit (1 # 10)) (or_default (parseFloat value) (lit (1 # 10)))).

Definition initialState : Component :=
  mkComponent false false 1 1 (lit 0) (lit (50 # 1)) (lit 1) earth
    (lit (981 # 100))
    (SimulationState.mk false (lit 0) (lit (50 # 1)) (lit 0) (lit 0) (lit 0))
    [] [] None [] [].

Definition mounted : Component := restartSimulation initialState.

Definition handle (s : Component) (e : Event) : Component :=
  match e with
  | StartSimulation => startSimulation s
  | StopSimulation => stopSimulation s
  | RestartSimulation => restartSimulation s
  | Tick => tick s
  | BounceTick i => bounceCallback i s
  | DownloadCSV => downloadCSV s
  | ToggleDataTable => toggleDataTable s
  | OpenDataModal => setIsDataModalOpen true s
  | CloseDataModal => setIsDataModalOpen false s
  | MainTablePageChange page => handleMainTablePageChange page s
  | ModalPageChange page => handleModalPageChange page s
  | ChangeInitialVelocity v => onChangeInitialVelocity v s
  | ChangeInitialHeight v => onChangeInitialHeight v s
  | ChangeMass v => onChangeMass v s
  | ChangePlanet p => setPlanet p s
  | ChangeCustomGravity v => onChangeCustomGravity v s
  end.

Definition run (s : Component) (es : list Event) : Component :=
  fold_left handle es s.

Fixpoint ticks (n : nat) (s : Component) : Component :=
  match n with
  | O => s
  | S n' => tick (ticks n' s)
  end.

Fixpoint bounceTicks (i : nat) (k : nat) (s : Component) : Component :=
  match k with
  | O => s
  | S k' => bounceCallback i (bounceTicks i k' s)
  end.

(** *** Vocabulary for the statements about a run *)

(** The callback's [time] after [n] executions of [time += 0.1]. *)
Fixpoint tick_time (n : nat) : number :=
  match n with
  | O => lit 0
  | S n' => add (tick_time n') (lit (1 # 10))
  end.

(** The closure [startSimulation] creates in state [s], with its [time] at
    [t]. *)
Definition closure_at (s : Component) (t : number) : TickClosure :=
  mkTick (initialVelocity s) (initialHeight s) (mass s) (gravity s)
    (ballRadius s) (calculateInitialBallY s) t.

Definition epsilon : number := lit (1 # 1000).

(** The stop test of tick [n] of a run started in [s]. *)
Definition grounded (s : Component) (n : nat) : bool :=
  leb (currentHeight_at (closure_at s (lit 0)) (tick_time n)) epsilon.

(** No tick before the [n]-th finds the ball on the ground. *)
Definition airborne_before (s : Component) (n : nat) : bool :=
  forallb (fun m => negb (grounded s m)) (seq 1 (n - 1)).

(** The ball position a bounce firing shows when the ball is on the ground. *)
Definition groundY (r : number) : number :=
  sub (sub CANVAS_HEIGHT r) (lit (4 # 1)).

(** The sign bit of a number; [NaN] has none. *)
Definition sign_bit (x : number) : bool :=
  match x with
  | S754_zero s | S754_infinity s | S754_finite s _ _ => s
  | S754_nan => false
  end.

(** What [toFixed] prints after the sign, for the integer [n] it has rounded
    to: the digits of [n] with the point before the last [f] of them. *)
Definition fixed_string (f : nat) (n : Z) : string :=
  match f with
  | O => JS.digits (Z.to_N n)
  | S _ =>
      let m := fixed_digits f n in
      JS.take (String.length m - f) m ++
      String "." (JS.drop (String.length m - f) m)
  end.

(** A number with a value: zero or finite, not [NaN] or an infinity. *)
Definition is_finite (x : number) : bool :=
  match x with
  | S754_zero _ | S754_finite _ _ _ => true
  | _ => false
  end.

(** A number that is not below zero: [x < 0] is false. *)
Definition not_negative (x : number) : Prop := ltb x (lit 0) = false.

Definition heights_not_negative (s : Component) : Prop :=
  Forall (fun row => not_negative (SimulationData.height row)) (dataHistory s).

Definition running_state (b : bool) (cl : TickClosure) (t : number)
    : SimulationState.t :=
  SimulationState.mk b t (currentHeight_at cl t) (velocity_at cl t)
    (displacement_at cl t) (actualBallY_at cl t).

(** What one firing of a bounce timer leaves untouched. *)
Definition bounce_frame (s s' : Component) : Prop :=
  dataHistory s' = dataHistory s /\ trail s' = trail s /\
  intervalRef s' = intervalRef s /\
  mainTableCurrentPage s' = mainTableCurrentPage s /\
  modalCurrentPage s' = modalCurrentPage s /\
  SimulationState.isRunning (simulationState s') =
    SimulationState.isRunning (simulationState s) /\
  SimulationState.time (simulationState s') =
    SimulationState.time (simulationState s) /\
  SimulationState.currentHeight (simulationState s') =
    SimulationState.currentHeight (simulationState s).

End Dbl.

(** ** Basic facts *)

Lemma Math_max_spec (a b : Q) :
  (a <= b /\ JS.Math_max a b = b) \/ (b < a /\ JS.Math_max a b = a).
Proof.
  unfold JS.Math_max. destruct (Qle_bool a b) eqn:E.
  - left. split; [apply Qle_bool_iff; exact E | reflexivity].
  - right. split; [|reflexivity].
    apply Qnot_le_lt. intro H. apply Qle_bool_iff in H. congruence.
Qed.

Lemma Math_min_spec (a b : Q) :
  (a <= b /\ JS.Math_min a b = a) \/ (b < a /\ JS.Math_min a b = b).
Proof.
  unfold JS.Math_min. destruct (Qle_bool a b) eqn:E.
  - left. split; [apply Qle_bool_iff; exact E | reflexivity].
  - right. split; [|reflexivity].
    apply Qnot_le_lt. intro H. apply Qle_bool_iff in H. congruence.
Qed.

Lemma Math_max_compat (a b b' : Q) :
  b == b' -> JS.Math_max a b == JS.Math_max a b'.
Proof.
  intro H.
  destruct (Math_max_spec a b) as [[H1 ->]|[H1 ->]];
    destruct (Math_max_spec a b') as [[H2 ->]|[H2 ->]]; lra.
Qed.

Lemma tick_time_elapsed (n : nat) : tick_time n == elapsed n.
Proof.
  unfold elapsed. induction n as [|n IH].
  - reflexivity.
  - cbn [tick_time]. rewrite IH, Nat2Z.inj_succ. unfold Z.succ.
    rewrite inject_Z_plus. ring.
Qed.

(** ** One tick of the driver *)

Lemma tick_fields (s : Component) (cl : TickClosure) :
  intervalRef s = Some cl ->
  SimulationState.isRunning (simulationState s) = true ->
  let t := c_time cl + (1 # 10) in
  let g := grounded cl t in
  simulationState (tick s) = running_state (negb g) cl t /\
  dataHistory (tick s) = dataHistory s ++ [newData_at cl t] /\
  intervalRef (tick s) =
    (if g then None
     else Some (mkTick (c_initialVelocity cl) (c_initialHeight cl) (c_mass cl)
                  (c_gravity cl) (c_ballRadius cl) (c_initialBallY cl) t)) /\
  mainTableCurrentPage (tick s) = mainTableCurrentPage s /\
  modalCurrentPage (tick s) = modalCurrentPage s.
Proof.
  intros Hi Hr t g. unfold tick. rewrite Hi. unfold intervalCallback.
  fold t. fold epsilon. fold (grounded cl t). fold g.
  destruct g; cbn -[currentHeight_at velocity_at displacement_at actualBallY_at
                    newData_at]; rewrite ?Hr; repeat split; reflexivity.
Qed.

Lemma tick_idle (s : Component) : intervalRef s = None -> tick s = s.
Proof. intro H. unfold tick. rewrite H. reflexivity. Qed.

Lemma ticks_idle (s : Component) (n : nat) :
  intervalRef s = None -> ticks n s = s.
Proof.
  intro H. induction n as [|n IH]; [reflexivity|].
  cbn [ticks]. rewrite IH. apply tick_idle, H.
Qed.

(** ** A run: [startSimulation] followed by ticks *)

Section Run.

Variable s : Component.
Hypothesis idle : SimulationState.isRunning (simulationState s) = false.

Let cl0 : TickClosure := closure_at s 0.

Lemma start_fields :
  simulationState (startSimulation s) =
    SimulationState.mk true 0 (initialHeight s) (initialVelocity s) 0
      (calculateInitialBallY s) /\
  dataHistory (startSimulation s) = [] /\
  trail (startSimulation s) = [] /\
  mainTableCurrentPage (startSimulation s) = 1%Z /\
  modalCurrentPage (startSimulation s) = 1%Z /\
  intervalRef (startSimulation s) = Some cl0.
Proof.
  unfold startSimulation. rewrite idle. repeat split; reflexivity.
Qed.

(** While no tick has found the ball on the ground the interval stays set,
    and every tick has appended its record. *)
Lemma run_airborne (n : nat) :
  (forall m, (1 <= m <= n)%nat -> grounded cl0 (tick_time m) = false) ->
  intervalRef (ticks n (startSimulation s)) = Some (closure_at s (tick_time n))
  /\ SimulationState.isRunning
       (simulationState (ticks n (startSimulation s))) = true
  /\ dataHistory (ticks n (startSimulation s)) =
       map (fun m => newData_at cl0 (tick_time m)) (seq 1 n).
Proof.
  induction n as [|n IH]; intro Hair.
  - cbn [ticks tick_time seq map].
    destruct start_fields as (Hs & Hd & _ & _ & _ & Hi).
    rewrite Hs, Hd, Hi. repeat split; reflexivity.
  - destruct IH as (Hi & Hr & Hd); [intros m Hm; apply Hair; lia|].
    cbn [ticks].
    destruct (tick_fields _ _ Hi Hr) as (Hs' & Hd' & Hi' & _).
    assert (Hg : grounded (closure_at s (tick_time n)) (tick_time (S n)) = false)
      by (apply (Hair (S n)); lia).
    cbn [c_time closure_at] in Hs', Hd', Hi'. change (tick_time n + (1 # 10))
      with (tick_time (S n)) in Hs', Hd', Hi'.
    rewrite Hg in Hs', Hi'. rewrite Hs', Hd', Hi', Hd.
    repeat split; try reflexivity.
    rewrite seq_S, map_app. reflexivity.
Qed.

(** The state after the [n]-th tick, when the ticks before it have all found
    the ball in the air. *)
Lemma run_tick (n : nat) :
  (forall m, (1 <= m <= n)%nat -> grounded cl0 (tick_time m) = false) ->
  let t := tick_time (S n) in
  let sn := ticks (S n) (startSimulation s) in
  simulationState sn = running_state (negb (grounded cl0 t)) cl0 t /\
  dataHistory sn = map (fun m => newData_at cl0 (tick_time m)) (seq 1 (S n)) /\
  intervalRef sn = (if grounded cl0 t then None else Some (closure_at s t)).
Proof.
  intros Hair t sn. destruct (run_airborne n Hair) as (Hi & Hr & Hd).
  subst sn. cbn [ticks].
  destruct (tick_fields _ _ Hi Hr) as (Hs' & Hd' & Hi' & _).
  cbn [c_time closure_at] in Hs', Hd', Hi'. change (tick_time n + (1 # 10))
    with (tick_time (S n)) in Hs', Hd', Hi'. fold t in Hs', Hd', Hi'.
  rewrite Hs', Hd', Hi', Hd. repeat split; try reflexivity.
  rewrite seq_S, map_app. reflexivity.
Qed.

End Run.

(** ** The kinematics of a run *)

Lemma displacement_at_spec (s : Component) (t0 t t' : Q) :
  t == t' ->
  displacement_at (closure_at s t0) t ==
  spec_displacement (initialVelocity s) (gravity s) t'.
Proof.
  intro H. unfold displacement_at, spec_displacement. cbn [closure_at
    c_initialVelocity c_gravity]. rewrite H. ring.
Qed.

Lemma currentHeight_at_spec (s : Component) (t0 t t' : Q) :
  t == t' ->
  currentHeight_at (closure_at s t0) t ==
  spec_height (initialVelocity s) (initialHeight s) (gravity s) t'.
Proof.
  intro H. unfold currentHeight_at, spec_height. apply Math_max_compat.
  rewrite (displacement_at_spec s t0 t t' H). reflexivity.
Qed.

Lemma grounded_false_iff (s : Component) (n : nat) :
  grounded (closure_at s 0) (tick_time n) = false <->
  airborne (initialVelocity s) (initialHeight s) (gravity s) (elapsed n).
Proof.
  unfold grounded, airborne.
  rewrite <- (currentHeight_at_spec s 0 _ _ (tick_time_elapsed n)).
  split; intro H.
  - apply Qnot_le_lt. intro H'. apply Qle_bool_iff in H'. congruence.
  - destruct (Qle_bool _ epsilon) eqn:E; [|reflexivity].
    apply Qle_bool_iff in E. lra.
Qed.

Lemma airborne_until_correct (v0 h0 g : Q) (n : nat) :
  airborne_until v0 h0 g n = true ->
  forall m, (1 <= m < n)%nat -> airborne v0 h0 g (elapsed m).
Proof.
  unfold airborne_until. rewrite forallb_forall. intros H m Hm.
  specialize (H m). rewrite in_seq in H.
  assert (Hb : negb (Qle_bool (spec_height v0 h0 g (elapsed m)) epsilon) = true)
    by (apply H; lia).
  unfold airborne. apply Qnot_le_lt. intro H'. apply Qle_bool_iff in H'.
  rewrite H' in Hb. discriminate.
Qed.

(** ** Starting *)

(** C10.  [startSimulation] on a component that is not running empties the
    history and the trail and puts both page cursors on 1, in the state the
    first tick will find; on a component that is running it changes
    nothing. *)
Theorem C10_start_clears (s : Component) :
  (SimulationState.isRunning (simulationState s) = false ->
   dataHistory (startSimulation s) = [] /\
   trail (startSimulation s) = [] /\
   mainTableCurrentPage (startSimulation s) = 1%Z /\
   modalCurrentPage (startSimulation s) = 1%Z /\
   SimulationState.isRunning (simulationState (startSimulation s)) = true /\
   List.length (dataHistory (tick (startSimulation s))) = 1%nat /\
   List.length (trail (tick (startSimulation s))) = 1%nat) /\
  (SimulationState.isRunning (simulationState s) = true ->
   startSimulation s = s).
Proof.
  split; intro H.
  - destruct (start_fields s H) as (Hs & Hd & Ht & Hm & Hmo & Hi).
    rewrite Hs, Hd, Ht, Hm, Hmo. repeat split.
    + assert (Hr : SimulationState.isRunning
                     (simulationState (startSimulation s)) = true)
        by (rewrite Hs; reflexivity).
      destruct (tick_fields _ _ Hi Hr) as (_ & Hd' & _).
      rewrite Hd', Hd. reflexivity.
    + unfold tick. rewrite Hi. unfold intervalCallback.
      destruct (Qle_bool _ _); cbn [trail bounceEffect set_bounceIntervals
        stopSimulation intervalRef setDataHistory setTrail setSimulationState
        set_intervalRef]; rewrite Ht; reflexivity.
  - unfold startSimulation. rewrite H. reflexivity.
Qed.

Lemma C10_start_clears_witness :
  let s := ticks 3 (startSimulation mounted) in
  let s' := stopSimulation s in
  (dataHistory (startSimulation s') = [] /\
   trail (startSimulation s') = [] /\
   mainTableCurrentPage (startSimulation s') = 1%Z /\
   modalCurrentPage (startSimulation s') = 1%Z /\
   SimulationState.isRunning (simulationState (startSimulation s')) = true /\
   List.length (dataHistory (tick (startSimulation s'))) = 1%nat /\
   List.length (trail (tick (startSimulation s'))) = 1%nat) /\
  startSimulation s = s.
Proof.
  intros s s'. split.
  - apply (proj1 (C10_start_clears s')). reflexivity.
  - apply (proj2 (C10_start_clears s)). reflexivity.
Defined.

(** ** Export with nothing to export *)

(** C9.  [downloadCSV] on an empty history returns without doing anything:
    the component, its timers and the list of triggered downloads are what
    they were. *)
Theorem C9_export_empty_noop (s : Component) :
  dataHistory s = [] -> downloadCSV s = s.
Proof.
  intro H. unfold downloadCSV, array_length. rewrite H. reflexivity.
Qed.

Lemma C9_export_empty_noop_witness : downloadCSV mounted = mounted.
Proof. apply (C9_export_empty_noop mounted). reflexivity. Defined.

(** ** The page cursors *)

(** C5.  A page-change request for a page outside [1, totalPages] leaves the
    component as it is, and an accepted request leaves the cursor on the
    requested page, inside [1, totalPages]; for the main table and for the
    modal alike. *)
Theorem C5_page_change_guard (s : Component) (page : Z) :
  ((page < 1 \/ mainTotalPages s < page)%Z ->
   handleMainTablePageChange page s = s) /\
  ((1 <= page <= mainTotalPages s)%Z ->
   let s' := handleMainTablePageChange page s in
   mainTableCurrentPage s' = page /\
   (1 <= mainTableCurrentPage s' <= mainTotalPages s')%Z) /\
  ((page < 1 \/ modalTotalPages s < page)%Z ->
   handleModalPageChange page s = s) /\
  ((1 <= page <= modalTotalPages s)%Z ->
   let s' := handleModalPageChange page s in
   modalCurrentPage s' = page /\
   (1 <= modalCurrentPage s' <= modalTotalPages s')%Z).
Proof.
  unfold handleMainTablePageChange, handleModalPageChange.
  repeat split.
  - intro H.
    destruct ((1 <=? page)%Z && (page <=? mainTotalPages s)%Z) eqn:E;
      [|reflexivity].
    apply andb_true_iff in E. destruct E as [E1 E2].
    apply Z.leb_le in E1, E2. lia.
  - assert (E : ((1 <=? page)%Z && (page <=? mainTotalPages s)%Z) = true)
      by (apply andb_true_iff; split; apply Z.leb_le; lia).
    rewrite E. reflexivity.
  - assert (E : ((1 <=? page)%Z && (page <=? mainTotalPages s)%Z) = true)
      by (apply andb_true_iff; split; apply Z.leb_le; lia).
    rewrite E. cbn [mainTableCurrentPage setMainTableCurrentPage]. lia.
  - assert (E : ((1 <=? page)%Z && (page <=? mainTotalPages s)%Z) = true)
      by (apply andb_true_iff; split; apply Z.leb_le; lia).
    rewrite E. cbn [mainTableCurrentPage setMainTableCurrentPage].
    change (mainTotalPages (setMainTableCurrentPage page s))
      with (mainTotalPages s). lia.
  - intro H.
    destruct ((1 <=? page)%Z && (page <=? modalTotalPages s)%Z) eqn:E;
      [|reflexivity].
    apply andb_true_iff in E. destruct E as [E1 E2].
    apply Z.leb_le in E1, E2. lia.
  - assert (E : ((1 <=? page)%Z && (page <=? modalTotalPages s)%Z) = true)
      by (apply andb_true_iff; split; apply Z.leb_le; lia).
    rewrite E. reflexivity.
  - assert (E : ((1 <=? page)%Z && (page <=? modalTotalPages s)%Z) = true)
      by (apply andb_true_iff; split; apply Z.leb_le; lia).
    rewrite E. cbn [modalCurrentPage setModalCurrentPage]. lia.
  - assert (E : ((1 <=? page)%Z && (page <=? modalTotalPages s)%Z) = true)
      by (apply andb_true_iff; split; apply Z.leb_le; lia).
    rewrite E. cbn [modalCurrentPage setModalCurrentPage].
    change (modalTotalPages (setModalCurrentPage page s))
      with (modalTotalPages s). lia.
Qed.

Lemma C5_page_change_guard_witness :
  let s := ticks 32 (startSimulation mounted) in
  handleMainTablePageChange 3 s = s /\
  (mainTableCurrentPage (handleMainTablePageChange 2 s) = 2%Z /\
   (1 <= mainTableCurrentPage (handleMainTablePageChange 2 s)
      <= mainTotalPages (handleMainTablePageChange 2 s))%Z) /\
  handleModalPageChange 0 s = s /\
  (modalCurrentPage (handleModalPageChange 2 s) = 2%Z /\
   (1 <= modalCurrentPage (handleModalPageChange 2 s)
      <= modalTotalPages (handleModalPageChange 2 s))%Z).
Proof.
  intro s. repeat apply conj.
  - apply (proj1 (C5_page_change_guard s 3)). right. vm_compute. reflexivity.
  - apply (proj1 (proj2 (C5_page_change_guard s 2))).
    split; vm_compute; discriminate.
  - apply (proj1 (proj2 (C5_page_change_guard s 2))).
    split; vm_compute; discriminate.
  - apply (proj1 (proj2 (C5_page_change_guard s 2))).
    split; vm_compute; discriminate.
  - apply (proj1 (proj2 (proj2 (C5_page_change_guard s 0)))).
    left. vm_compute. reflexivity.
  - apply (proj2 (proj2 (proj2 (C5_page_change_guard s 2)))).
    split; vm_compute; discriminate.
  - apply (proj2 (proj2 (proj2 (C5_page_change_guard s 2)))).
    split; vm_compute; discriminate.
  - apply (proj2 (proj2 (proj2 (C5_page_change_guard s 2)))).
    split; vm_compute; discriminate.
Defined.

Lemma main_view_ext (s1 s2 : Component) :
  mainTableCurrentPage s1 = mainTableCurrentPage s2 ->
  dataHistory s1 = dataHistory s2 ->
  main_view s1 = main_view s2.
Proof.
  intros Hc Hd.
  unfold main_view, mainTotalPages, mainCurrentData, mainEndIndex,
    mainStartIndex.
  rewrite Hc, Hd. reflexivity.
Qed.

Lemma modal_view_ext (s1 s2 : Component) :
  modalCurrentPage s1 = modalCurrentPage s2 ->
  dataHistory s1 = dataHistory s2 ->
  modal_view s1 = modal_view s2.
Proof.
  intros Hc Hd.
  unfold modal_view, modalTotalPages, modalCurrentData, modalEndIndex,
    modalStartIndex.
  rewrite Hc, Hd. reflexivity.
Qed.

Lemma handleModalPageChange_frame (page : Z) (s : Component) :
  mainTableCurrentPage (handleModalPageChange page s) = mainTableCurrentPage s
  /\ dataHistory (handleModalPageChange page s) = dataHistory s.
Proof.
  unfold handleModalPageChange.
  destruct (_ && _); split; reflexivity.
Qed.

Lemma handleMainTablePageChange_frame (page : Z) (s : Component) :
  modalCurrentPage (handleMainTablePageChange page s) = modalCurrentPage s
  /\ dataHistory (handleMainTablePageChange page s) = dataHistory s.
Proof.
  unfold handleMainTablePageChange.
  destruct (_ && _); split; reflexivity.
Qed.

Lemma handleMainTablePageChange_ext (page : Z) (s1 s2 : Component) :
  mainTableCurrentPage s1 = mainTableCurrentPage s2 ->
  dataHistory s1 = dataHistory s2 ->
  mainTableCurrentPage (handleMainTablePageChange page s1) =
  mainTableCurrentPage (handleMainTablePageChange page s2).
Proof.
  intros Hc Hd. unfold handleMainTablePageChange, mainTotalPages.
  rewrite Hd. destruct (_ && _); [reflexivity | exact Hc].
Qed.

Lemma handleModalPageChange_ext (page : Z) (s1 s2 : Component) :
  modalCurrentPage s1 = modalCurrentPage s2 ->
  dataHistory s1 = dataHistory s2 ->
  modalCurrentPage (handleModalPageChange page s1) =
  modalCurrentPage (handleModalPageChange page s2).
Proof.
  intros Hc Hd. unfold handleModalPageChange, modalTotalPages.
  rewrite Hd. destruct (_ && _); [reflexivity | exact Hc].
Qed.

Lemma page_changes_main (es : list Event) :
  forallb is_page_change es = true ->
  forall s1 s2,
    mainTableCurrentPage s1 = mainTableCurrentPage s2 ->
    dataHistory s1 = dataHistory s2 ->
    mainTableCurrentPage (run s1 es) =
      mainTableCurrentPage (run s2 (filter is_main_change es)) /\
    dataHistory (run s1 es) = dataHistory (run s2 (filter is_main_change es)).
Proof.
  unfold run. induction es as [|e es IH]; intros Hes s1 s2 Hc Hd.
  - split; assumption.
  - cbn [forallb] in Hes. apply andb_true_iff in Hes. destruct Hes as [He Hes].
    destruct e; try discriminate He; cbn [filter is_main_change fold_left handle].
    + apply (IH Hes).
      * apply handleMainTablePageChange_ext; assumption.
      * rewrite (proj2 (handleMainTablePageChange_frame page s1)),
          (proj2 (handleMainTablePageChange_frame page s2)). exact Hd.
    + apply (IH Hes).
      * rewrite (proj1 (handleModalPageChange_frame page s1)). exact Hc.
      * rewrite (proj2 (handleModalPageChange_frame page s1)). exact Hd.
Qed.

Lemma page_changes_modal (es : list Event) :
  forallb is_page_change es = true ->
  forall s1 s2,
    modalCurrentPage s1 = modalCurrentPage s2 ->
    dataHistory s1 = dataHistory s2 ->
    modalCurrentPage (run s1 es) =
      modalCurrentPage (run s2 (filter is_modal_change es)) /\
    dataHistory (run s1 es) = dataHistory (run s2 (filter is_modal_change es)).
Proof.
  unfold run. induction es as [|e es IH]; intros Hes s1 s2 Hc Hd.
  - split; assumption.
  - cbn [forallb] in Hes. apply andb_true_iff in Hes. destruct Hes as [He Hes].
    destruct e; try discriminate He;
      cbn [filter is_modal_change fold_left handle].
    + apply (IH Hes).
      * rewrite (proj1 (handleMainTablePageChange_frame page s1)). exact Hc.
      * rewrite (proj2 (handleMainTablePageChange_frame page s1)). exact Hd.
    + apply (IH Hes).
      * apply handleModalPageChange_ext; assumption.
      * rewrite (proj2 (handleModalPageChange_frame page s1)),
          (proj2 (handleModalPageChange_frame page s2)). exact Hd.
Qed.

(** C6.  A page change of the modal leaves the main table's cursor and rows
    as they are, and a page change of the main table leaves the modal's.  Over
    any sequence of page changes of both kinds, the main table ends on the
    cursor and rows it would have had if the modal's changes had not happened,
    and likewise the modal; the shared history is never touched. *)
Theorem C6_cursors_independent (s : Component) :
  (forall page,
     main_view (handleModalPageChange page s) = main_view s /\
     modal_view (handleMainTablePageChange page s) = modal_view s) /\
  (forall es,
     forallb is_page_change es = true ->
     main_view (run s es) = main_view (run s (filter is_main_change es)) /\
     modal_view (run s es) = modal_view (run s (filter is_modal_change es)) /\
     dataHistory (run s es) = dataHistory s).
Proof.
  split.
  - intro page. split.
    + apply main_view_ext; apply handleModalPageChange_frame.
    + apply modal_view_ext; apply handleMainTablePageChange_frame.
  - intros es Hes.
    destruct (page_changes_main es Hes s s eq_refl eq_refl) as [Hc Hd].
    destruct (page_changes_modal es Hes s s eq_refl eq_refl) as [Hc' Hd'].
    split; [|split].
    + apply main_view_ext; assumption.
    + apply modal_view_ext; assumption.
    + clear - Hes. unfold run. revert s.
      induction es as [|e es IH]; intro s; [reflexivity|].
      cbn [forallb] in Hes. apply andb_true_iff in Hes.
      destruct Hes as [He Hes].
      cbn [fold_left]. rewrite (IH Hes).
      destruct e; try discriminate He; cbn [handle].
      * apply handleMainTablePageChange_frame.
      * apply handleModalPageChange_frame.
Qed.

Lemma C6_cursors_independent_witness :
  let s := ticks 32 (startSimulation mounted) in
  let es := [ModalPageChange 2; MainTablePageChange 2; ModalPageChange 1] in
  main_view (run s es) = main_view (run s (filter is_main_change es)) /\
  modal_view (run s es) = modal_view (run s (filter is_modal_change es)) /\
  dataHistory (run s es) = dataHistory s.
Proof.
  intros s es. apply (proj2 (C6_cursors_independent s) es). reflexivity.
Defined.

(** ** The trail *)

Lemma lastn_length {A : Type} (n : nat) (l : list A) :
  List.length (lastn n l) = Nat.min n (List.length l).
Proof. unfold lastn. rewrite length_skipn. lia. Qed.

Lemma lastn_short {A : Type} (n : nat) (l : list A) :
  (List.length l <= n)%nat -> lastn n l = l.
Proof.
  intro H. unfold lastn. replace (List.length l - n)%nat with 0%nat by lia.
  reflexivity.
Qed.

Lemma lastn_app {A : Type} (n : nat) (l1 l2 : list A) :
  (n <= List.length l2)%nat -> lastn n (l1 ++ l2) = lastn n l2.
Proof.
  intro H. unfold lastn. rewrite length_app, skipn_app.
  replace (List.length l1 + List.length l2 - n - List.length l1)%nat
    with (List.length l2 - n)%nat by lia.
  rewrite skipn_all2 by lia. reflexivity.
Qed.

Lemma lastn_snoc {A : Type} (n : nat) (l : list A) (x : A) :
  lastn (S n) (lastn (S n) l ++ [x]) = lastn (S n) (l ++ [x]).
Proof.
  destruct (Nat.le_gt_cases (List.length l) (S n)) as [H|H].
  - rewrite (lastn_short (S n) l H). reflexivity.
  - set (k := (List.length l - S n)%nat).
    assert (E : l ++ [x] = firstn k l ++ (skipn k l ++ [x]))
      by (rewrite app_assoc, firstn_skipn; reflexivity).
    rewrite E. change (lastn (S n) l) with (skipn k l).
    symmetry. apply lastn_app.
    rewrite length_app, length_skipn. cbn [List.length]. lia.
Qed.

(** [slice(-n)], the call the trail is cut with, keeps the last [n]. *)
Lemma slice_last {A : Type} (n : nat) (l : list A) :
  (0 < n)%nat -> JS.slice l (- Z.of_nat n) None = lastn n l.
Proof.
  intro Hn. unfold JS.slice, lastn.
  assert (E : (- Z.of_nat n <? 0)%Z = true) by (apply Z.ltb_lt; lia).
  rewrite E.
  assert (E' : (Z.of_nat (List.length l) <? 0)%Z = false)
    by (apply Z.ltb_ge; lia).
  rewrite E'. rewrite Z.min_id.
  replace (Z.to_nat (Z.max (Z.of_nat (List.length l) + - Z.of_nat n) 0))
    with (List.length l - n)%nat by lia.
  apply firstn_all2. rewrite length_skipn. lia.
Qed.

Lemma trail_update_lastn (y : Q) (prev : list Q) :
  trail_update y prev = lastn 30 (prev ++ [y]).
Proof.
  unfold trail_update, array_length.
  destruct (30 <? Z.of_nat (List.length (prev ++ [y])))%Z eqn:E.
  - apply (slice_last 30). lia.
  - apply Z.ltb_ge in E. symmetry. apply lastn_short. lia.
Qed.

Lemma trail_update_fifo (y : Q) (prev : list Q) :
  (List.length prev <= 30)%nat ->
  trail_update y prev =
    if (List.length prev <? 30)%nat then prev ++ [y] else tl prev ++ [y].
Proof.
  intro H. rewrite trail_update_lastn.
  destruct (List.length prev <? 30)%nat eqn:E.
  - apply Nat.ltb_lt in E. apply lastn_short. rewrite length_app.
    cbn [List.length]. lia.
  - apply Nat.ltb_ge in E. unfold lastn. rewrite length_app.
    cbn [List.length].
    replace (List.length prev + 1 - 30)%nat with 1%nat by lia.
    destruct prev as [|x prev]; [cbn [List.length] in E; lia|].
    reflexivity.
Qed.

Lemma trail_tick (s : Component) (cl : TickClosure) :
  intervalRef s = Some cl ->
  trail (tick s) =
    trail_update (actualBallY_at cl (c_time cl + (1 # 10))) (trail s).
Proof.
  intro Hi. unfold tick. rewrite Hi. unfold intervalCallback.
  destruct (Qle_bool _ _); reflexivity.
Qed.

Lemma trail_bounceCallback (i : nat) (s : Component) :
  trail (bounceCallback i s) = trail s.
Proof.
  unfold bounceCallback. destruct (nth_error _ i); [|reflexivity].
  destruct (6 <=? _)%Z; reflexivity.
Qed.

Lemma trail_step (s : Component) (e : Event) (log : list Q) :
  trail s = lastn 30 log ->
  trail (handle s e) = lastn 30 (appended_by s e log).
Proof.
  intro H.
  destruct e as [| | | |i| | | | |page|page|v|v|v|p|v];
    cbn [handle appended_by]; try exact H.
  - unfold startSimulation.
    destruct (SimulationState.isRunning (simulationState s));
      [exact H | reflexivity].
  - unfold stopSimulation. destruct (intervalRef s); exact H.
  - reflexivity.
  - destruct (intervalRef s) as [cl|] eqn:Hi.
    + rewrite (trail_tick s cl Hi), trail_update_lastn, H.
      apply (lastn_snoc 29).
    + rewrite (tick_idle s Hi). exact H.
  - rewrite trail_bounceCallback. exact H.
  - unfold downloadCSV. destruct (_ =? _)%Z; exact H.
  - unfold handleMainTablePageChange. destruct (_ && _); exact H.
  - unfold handleModalPageChange. destruct (_ && _); exact H.
Qed.

Lemma trail_run (es : list Event) (s : Component) (log : list Q) :
  trail s = lastn 30 log ->
  trail (run s es) = lastn 30 (appended s es log).
Proof.
  unfold run. revert s log.
  induction es as [|e es IH]; intros s log H; [exact H|].
  cbn [fold_left appended]. apply IH, trail_step, H.
Qed.

(** C7.  After any sequence of events on a mounted component (ticks, starts,
    stops, resets and all the others) the trail has at most 30 entries and is
    the last 30 of the ball positions appended since it was last cleared, in
    the order they were appended.  A tick that finds fewer than 30 entries
    appends its position; one that finds 30 drops the oldest entry and appends
    its position at the end. *)
Theorem C7_trail_bounded_fifo (es : list Event) :
  let s := run mounted es in
  (List.length (trail s) <= 30)%nat /\
  trail s = lastn 30 (appended mounted es []) /\
  (forall cl, intervalRef s = Some cl ->
     let y := actualBallY_at cl (c_time cl + (1 # 10)) in
     trail (tick s) =
       if (List.length (trail s) <? 30)%nat
       then trail s ++ [y]
       else tl (trail s) ++ [y]).
Proof.
  intro s.
  assert (H : trail s = lastn 30 (appended mounted es []))
    by (apply trail_run; reflexivity).
  assert (Hl : (List.length (trail s) <= 30)%nat)
    by (rewrite H, lastn_length; lia).
  split; [exact Hl|]. split; [exact H|].
  intros cl Hi y. rewrite (trail_tick s cl Hi).
  apply trail_update_fifo, Hl.
Qed.

Lemma C7_trail_bounded_fifo_witness :
  let s := run mounted (StartSimulation :: repeat Tick 31) in
  let cl := closure_at mounted (tick_time 31) in
  let y := actualBallY_at cl (c_time cl + (1 # 10)) in
  trail (tick s) =
    if (List.length (trail s) <? 30)%nat
    then trail s ++ [y]
    else tl (trail s) ++ [y].
Proof.
  intros s cl.
  apply (proj2 (proj2 (C7_trail_bounded_fifo (StartSimulation :: repeat Tick 31)))
           cl).
  vm_compute. reflexivity.
Defined.

(** ** Pagination *)

Lemma totalPages_ceil {A : Type} (l : list A) :
  let L := array_length l in
  let P := JS.Math_ceil (inject_Z L / inject_Z itemsPerPage) in
  (itemsPerPage * (P - 1) < L <= itemsPerPage * P)%Z.
Proof.
  intros L P. subst P. unfold JS.Math_ceil, Qceiling, Qfloor, itemsPerPage.
  cbn [inject_Z Qdiv Qinv Qmult Qopp Qnum Qden Pos.mul].
  assert (H := Z.div_mod (- (L * 1)) 20 ltac:(discriminate)).
  assert (H' := Z.mod_pos_bound (- (L * 1)) 20 ltac:(reflexivity)).
  change (Z.pos (1 * 20)) with 20%Z. lia.
Qed.

Lemma slice_nth_error {A : Type} (l : list A) (a b : Z) (i : nat) :
  (0 <= a <= b)%Z ->
  nth_error (JS.slice l a (Some b)) i =
    if (Z.of_nat i <? b - a)%Z then nth_error l (Z.to_nat a + i) else None.
Proof.
  intros [Ha Hab]. unfold JS.slice.
  assert (Ea : (a <? 0)%Z = false) by (apply Z.ltb_ge; lia).
  assert (Eb : (b <? 0)%Z = false) by (apply Z.ltb_ge; lia).
  rewrite Ea, Eb.
  rewrite nth_error_firstn, nth_error_skipn.
  set (len := Z.of_nat (List.length l)).
  destruct (Z.of_nat i <? b - a)%Z eqn:Ei.
  - apply Z.ltb_lt in Ei.
    destruct (i <? Z.to_nat (Z.min b len - Z.min a len))%nat eqn:Ei'.
    + apply Nat.ltb_lt in Ei'. f_equal. lia.
    + apply Nat.ltb_ge in Ei'. symmetry. apply nth_error_None. lia.
  - apply Z.ltb_ge in Ei.
    destruct (i <? Z.to_nat (Z.min b len - Z.min a len))%nat eqn:Ei';
      [|reflexivity].
    apply Nat.ltb_lt in Ei'. lia.
Qed.

Lemma slice_length {A : Type} (l : list A) (a b : Z) :
  (0 <= a <= b)%Z ->
  array_length (JS.slice l a (Some b)) =
    (Z.min b (array_length l) - Z.min a (array_length l))%Z.
Proof.
  intros [Ha Hab]. unfold JS.slice, array_length.
  assert (Ea : (a <? 0)%Z = false) by (apply Z.ltb_ge; lia).
  assert (Eb : (b <? 0)%Z = false) by (apply Z.ltb_ge; lia).
  rewrite Ea, Eb, length_firstn, length_skipn. lia.
Qed.

Lemma page_at_nth_error (l : list SimulationData.t) (c : Z) (i : nat) :
  (1 <= c)%Z ->
  nth_error (page_at l c) i =
    if (i <? 20)%nat
    then nth_error l (Z.to_nat ((c - 1) * 20) + i)
    else None.
Proof.
  intro Hc. unfold page_at, itemsPerPage.
  rewrite slice_nth_error by lia.
  destruct (i <? 20)%nat eqn:E.
  - apply Nat.ltb_lt in E.
    assert (E' : (Z.of_nat i <? (c - 1) * 20 + 20 - (c - 1) * 20)%Z = true)
      by (apply Z.ltb_lt; lia).
    rewrite E'. reflexivity.
  - apply Nat.ltb_ge in E.
    assert (E' : (Z.of_nat i <? (c - 1) * 20 + 20 - (c - 1) * 20)%Z = false)
      by (apply Z.ltb_ge; lia).
    rewrite E'. reflexivity.
Qed.

Lemma page_at_length (l : list SimulationData.t) (c : Z) :
  (1 <= c)%Z ->
  array_length (page_at l c) =
    Z.max 0 (Z.min 20 (array_length l - (c - 1) * 20)).
Proof.
  intro Hc. unfold page_at, itemsPerPage. rewrite slice_length by lia. lia.
Qed.

Lemma last_page_length (l : list SimulationData.t) (c : Z) :
  (1 <= c)%Z ->
  c = JS.Math_ceil (inject_Z (array_length l) / inject_Z itemsPerPage) ->
  array_length (page_at l c) =
    if (array_length l mod 20 =? 0)%Z then 20%Z else (array_length l mod 20)%Z.
Proof.
  intros Hc Hlast. rewrite page_at_length by exact Hc.
  pose proof (totalPages_ceil l) as H. cbv zeta in H. rewrite <- Hlast in H.
  unfold itemsPerPage in H.
  set (L := array_length l) in *.
  assert (Hm := Z.mod_pos_bound L 20 ltac:(reflexivity)).
  assert (Hd := Z.div_mod L 20 ltac:(discriminate)).
  destruct (L mod 20 =? 0)%Z eqn:E.
  - apply Z.eqb_eq in E. lia.
  - apply Z.eqb_neq in E. lia.
Qed.

(** C3.  For a history of [L] records and the page size 20, both tables have
    [totalPages = ceil(L / 20)], the least [P] with [L <= 20 * P].  The rows
    shown for a cursor [c >= 1] are the records at the indices
    [(c-1)*20 <= j < c*20] that exist in the history, in order: row [i] of the
    page is record [(c-1)*20 + i] for [i < 20] and there is no row [i] for
    [i >= 20]; on page 1 the rows start at index 0.  The last page,
    [c = totalPages], has [L mod 20] rows, or 20 when 20 divides [L]. *)
Theorem C3_pagination (s : Component) :
  (1 <= mainTableCurrentPage s)%Z ->
  (1 <= modalCurrentPage s)%Z ->
  let L := array_length (dataHistory s) in
  let last_page_rows := if (L mod 20 =? 0)%Z then 20%Z else (L mod 20)%Z in
  ((20 * (mainTotalPages s - 1) < L <= 20 * mainTotalPages s)%Z /\
   (forall i,
      nth_error (mainCurrentData s) i =
        if (i <? 20)%nat
        then nth_error (dataHistory s)
               (Z.to_nat ((mainTableCurrentPage s - 1) * 20) + i)
        else None) /\
   (mainTableCurrentPage s = 1%Z ->
    mainStartIndex s = 0%Z /\
    mainCurrentData s = firstn 20 (dataHistory s)) /\
   (mainTableCurrentPage s = mainTotalPages s ->
    array_length (mainCurrentData s) = last_page_rows)) /\
  ((20 * (modalTotalPages s - 1) < L <= 20 * modalTotalPages s)%Z /\
   (forall i,
      nth_error (modalCurrentData s) i =
        if (i <? 20)%nat
        then nth_error (dataHistory s)
               (Z.to_nat ((modalCurrentPage s - 1) * 20) + i)
        else None) /\
   (modalCurrentPage s = 1%Z ->
    modalStartIndex s = 0%Z /\
    modalCurrentData s = firstn 20 (dataHistory s)) /\
   (modalCurrentPage s = modalTotalPages s ->
    array_length (modalCurrentData s) = last_page_rows)).
Proof.
  intros Hmain Hmodal L last_page_rows.
  assert (Hfirst : forall l, page_at l 1 = firstn 20 l).
  { intro l. apply nth_error_ext. intro i.
    rewrite page_at_nth_error, nth_error_firstn by lia. reflexivity. }
  split.
  - change (mainCurrentData s)
      with (page_at (dataHistory s) (mainTableCurrentPage s)).
    split; [apply (totalPages_ceil (dataHistory s))|].
    split; [intro i; apply page_at_nth_error, Hmain|].
    split.
    + intro H1. unfold mainStartIndex. rewrite H1. split; [reflexivity|].
      apply Hfirst.
    + intro Hlast. apply last_page_length; assumption.
  - change (modalCurrentData s)
      with (page_at (dataHistory s) (modalCurrentPage s)).
    split; [apply (totalPages_ceil (dataHistory s))|].
    split; [intro i; apply page_at_nth_error, Hmodal|].
    split.
    + intro H1. unfold modalStartIndex. rewrite H1. split; [reflexivity|].
      apply Hfirst.
    + intro Hlast. apply last_page_length; assumption.
Qed.

Lemma C3_pagination_witness :
  let s := handleMainTablePageChange 2 (ticks 32 (startSimulation mounted)) in
  array_length (mainCurrentData s) = 12%Z /\
  mainCurrentData s = skipn 20 (dataHistory s) /\
  modalCurrentData s = firstn 20 (dataHistory s).
Proof.
  intro s.
  assert (Hmain : (1 <= mainTableCurrentPage s)%Z) by (vm_compute; discriminate).
  assert (Hmodal : (1 <= modalCurrentPage s)%Z) by (vm_compute; discriminate).
  destruct (C3_pagination s Hmain Hmodal)
    as ((_ & _ & _ & Hlast) & (_ & _ & Hfirst & _)).
  split; [|split].
  - rewrite Hlast by (vm_compute; reflexivity). vm_compute. reflexivity.
  - vm_compute. reflexivity.
  - apply Hfirst. vm_compute. reflexivity.
Defined.

(** The cursors of a mounted component never go below 1, so the pages with a
    cursor of at least 1 are the pages the user can see. *)
Lemma cursors_step (s : Component) (e : Event) :
  (1 <= mainTableCurrentPage s)%Z /\ (1 <= modalCurrentPage s)%Z ->
  (1 <= mainTableCurrentPage (handle s e))%Z /\
  (1 <= modalCurrentPage (handle s e))%Z.
Proof.
  intros [H1 H2].
  destruct e as [| | | |i| | | | |page|page|v|v|v|p|v]; cbn [handle];
    try (split; assumption).
  - unfold startSimulation.
    destruct (SimulationState.isRunning _); split; try assumption;
      cbn; lia.
  - unfold stopSimulation. destruct (intervalRef s); split; assumption.
  - split; cbn; lia.
  - unfold tick. destruct (intervalRef s) as [cl|]; [|split; assumption].
    unfold intervalCallback. destruct (Qle_bool _ _); split; assumption.
  - unfold bounceCallback. destruct (nth_error _ i); [|split; assumption].
    destruct (6 <=? _)%Z; split; assumption.
  - unfold downloadCSV. destruct (_ =? _)%Z; split; assumption.
  - unfold handleMainTablePageChange.
    destruct (1 <=? page)%Z eqn:E; cbn [andb]; [|split; assumption].
    destruct (page <=? _)%Z; [|split; assumption].
    apply Z.leb_le in E. split; [exact E | exact H2].
  - unfold handleModalPageChange.
    destruct (1 <=? page)%Z eqn:E; cbn [andb]; [|split; assumption].
    destruct (page <=? _)%Z; [|split; assumption].
    apply Z.leb_le in E. split; [exact H1 | exact E].
Qed.

Lemma cursors_positive (es : list Event) :
  (1 <= mainTableCurrentPage (run mounted es))%Z /\
  (1 <= modalCurrentPage (run mounted es))%Z.
Proof.
  unfold run.
  assert (H : (1 <= mainTableCurrentPage mounted)%Z /\
              (1 <= modalCurrentPage mounted)%Z) by (split; cbn; lia).
  revert H. generalize mounted as s.
  induction es as [|e es IH]; intros s H; [exact H|].
  cbn [fold_left]. apply IH, cursors_step, H.
Qed.

(** ** Strings of digits *)

Lemma all_digits_cons (c : ascii) (s : string) :
  all_digits (String c s) = JS.is_digit c && all_digits s.
Proof. reflexivity. Qed.

Lemma all_digits_app (a b : string) :
  all_digits (a ++ b)%string = all_digits a && all_digits b.
Proof.
  induction a as [|c a IH]; [reflexivity|].
  cbn [append]. rewrite !all_digits_cons, IH, andb_assoc. reflexivity.
Qed.

Lemma all_digits_uint (d : Decimal.uint) :
  all_digits (NilEmpty.string_of_uint d) = true.
Proof.
  induction d; cbn [NilEmpty.string_of_uint]; try reflexivity;
    rewrite all_digits_cons, IHd; reflexivity.
Qed.

Lemma all_digits_digits (n : N) : all_digits (JS.digits n) = true.
Proof.
  unfold JS.digits, NilZero.string_of_uint.
  destruct (N.to_uint n); try reflexivity; apply all_digits_uint.
Qed.

Lemma starts_with_digit_digits (n : N) :
  starts_with_digit (JS.digits n) = true.
Proof.
  unfold JS.digits, NilZero.string_of_uint.
  destruct (N.to_uint n); reflexivity.
Qed.

Lemma all_digits_zeros (n : nat) : all_digits (JS.zeros n) = true.
Proof.
  induction n as [|n IH]; [reflexivity|].
  cbn [JS.zeros]. rewrite all_digits_cons, IH. reflexivity.
Qed.

Lemma all_digits_take (n : nat) (s : string) :
  all_digits s = true -> all_digits (JS.take n s) = true.
Proof.
  revert s. induction n as [|n IH]; intros [|c s] H; try reflexivity.
  rewrite all_digits_cons in H. apply andb_true_iff in H. destruct H as [Hc Hs].
  cbn [JS.take]. rewrite all_digits_cons, Hc, (IH s Hs). reflexivity.
Qed.

Lemma all_digits_drop (n : nat) (s : string) :
  all_digits s = true -> all_digits (JS.drop n s) = true.
Proof.
  revert s. induction n as [|n IH]; intros [|c s] H; try assumption.
  rewrite all_digits_cons in H. apply andb_true_iff in H. destruct H as [Hc Hs].
  cbn [JS.drop]. apply IH, Hs.
Qed.

Lemma starts_with_digit_app (a b : string) :
  starts_with_digit a = true -> starts_with_digit (a ++ b)%string = true.
Proof. destruct a; [discriminate | intro H; exact H]. Qed.

Lemma starts_with_digit_take (n : nat) (s : string) :
  starts_with_digit s = true -> starts_with_digit (JS.take (S n) s) = true.
Proof. destruct s; [discriminate | intro H; exact H]. Qed.

Lemma starts_with_digit_zeros (n : nat) (s : string) :
  starts_with_digit s = true ->
  starts_with_digit (JS.zeros n ++ s)%string = true.
Proof. destruct n; [intro H; exact H | reflexivity]. Qed.

Lemma print_decimal_starts_with_digit (s e : Z) :
  starts_with_digit (JS.print_decimal s e) = true.
Proof.
  unfold JS.print_decimal.
  pose proof (starts_with_digit_digits (Z.to_N s)) as Hm.
  set (m := JS.digits (Z.to_N s)) in *.
  set (n := (Z.of_nat (String.length m) + e)%Z).
  destruct ((Z.of_nat (String.length m) <=? n)%Z && (n <=? 21)%Z);
    [apply starts_with_digit_app, Hm|].
  destruct ((0 <? n)%Z && (n <=? 21)%Z) eqn:E.
  - apply andb_true_iff in E. destruct E as [E _]. apply Z.ltb_lt in E.
    apply starts_with_digit_app.
    destruct (Z.to_nat n) as [|k] eqn:Ek; [lia|].
    apply starts_with_digit_take, Hm.
  - destruct ((-6 <? n)%Z && (n <=? 0)%Z); [reflexivity|].
    apply starts_with_digit_app.
    destruct (_ =? 1)%Z; [exact Hm|].
    apply starts_with_digit_app, (starts_with_digit_take 0), Hm.
Qed.

Lemma Qlt_bool_false (x y : Q) : y <= x -> JS.Qlt_bool x y = false.
Proof.
  intro H. unfold JS.Qlt_bool. apply negb_false_iff, Qle_bool_iff, H.
Qed.

Lemma toString_Q_starts_with_digit (x : Q) :
  0 <= x -> starts_with_digit (JS.toString_Q x) = true.
Proof.
  intro H. unfold JS.toString_Q. destruct (Qeq_bool x 0); [reflexivity|].
  rewrite (Qlt_bool_false x 0 H).
  destruct (JS.significand (Qabs x)) as [s e].
  apply print_decimal_starts_with_digit.
Qed.

Lemma toFixed_starts_with_digit (f : nat) (x : Q) :
  0 <= x -> starts_with_digit (JS.toFixed f x) = true.
Proof.
  intro H. unfold JS.toFixed. rewrite (Qlt_bool_false x 0 H).
  destruct (Qle_bool _ _).
  - apply (toString_Q_starts_with_digit (Qabs x)), Qabs_nonneg.
  - cbn [append].
    set (m := JS.digits _).
    pose proof (starts_with_digit_digits
                  (Z.to_N (JS.round_half_up (Qabs x * JS.pow10 (Z.of_nat f)))))
      as Hm. fold m in Hm.
    destruct f as [|f]; [exact Hm|].
    apply starts_with_digit_app.
    destruct (String.length m <=? S f)%nat eqn:E.
    + replace (S f + 1 - S f)%nat with 1%nat by lia.
      apply (starts_with_digit_take 0), starts_with_digit_zeros, Hm.
    + apply Nat.leb_gt in E.
      destruct (String.length m - S f)%nat as [|k] eqn:Ek; [lia|].
      apply starts_with_digit_take, Hm.
Qed.

(** ** [parseFloat] on a string that starts with a digit *)

Lemma is_digit_cases (c : ascii) :
  JS.is_digit c = true ->
  (c = "0" \/ c = "1" \/ c = "2" \/ c = "3" \/ c = "4" \/
   c = "5" \/ c = "6" \/ c = "7" \/ c = "8" \/ c = "9")%char.
Proof.
  destruct c as [[|] [|] [|] [|] [|] [|] [|] [|]]; intro H;
    try discriminate H; intuition.
Qed.

Lemma pow10_pos (e : Z) : 0 < JS.pow10 e.
Proof. apply Qpower_0_lt. reflexivity. Qed.

(** ** What a step does to the history *)

Lemma dataHistory_tick (s : Component) (cl : TickClosure) :
  intervalRef s = Some cl ->
  dataHistory (tick s) =
    dataHistory s ++ [newData_at cl (c_time cl + (1 # 10))].
Proof.
  intro Hi. unfold tick. rewrite Hi. unfold intervalCallback.
  destruct (Qle_bool _ _); reflexivity.
Qed.

Lemma dataHistory_bounceCallback (i : nat) (s : Component) :
  dataHistory (bounceCallback i s) = dataHistory s.
Proof.
  unfold bounceCallback. destruct (nth_error _ i); [|reflexivity].
  destruct (6 <=? _)%Z; reflexivity.
Qed.

(** ** Counting a character, splitting and joining *)

Lemma occurs_app (c : ascii) (a b : string) :
  occurs c (a ++ b)%string = (occurs c a + occurs c b)%nat.
Proof.
  induction a as [|d a IH]; [reflexivity|].
  cbn [append occurs]. rewrite IH. lia.
Qed.

Lemma occurs_all_digits (c : ascii) (s : string) :
  JS.is_digit c = false -> all_digits s = true -> occurs c s = 0%nat.
Proof.
  intros Hc. induction s as [|d s IH]; [reflexivity|].
  rewrite all_digits_cons. intro H. apply andb_true_iff in H.
  destruct H as [Hd Hs]. cbn [occurs]. rewrite (IH Hs).
  destruct (Ascii.eqb_spec d c) as [->|_]; [congruence | reflexivity].
Qed.

Lemma split_length (sep : ascii) (s : string) :
  List.length (JS.split sep s) = S (occurs sep s).
Proof.
  induction s as [|c s IH]; [reflexivity|].
  cbn [JS.split occurs]. destruct (Ascii.eqb c sep).
  - cbn [List.length]. rewrite IH. reflexivity.
  - destruct (JS.split sep s); cbn [List.length] in *; lia.
Qed.

Lemma split_no_sep (sep : ascii) (s : string) :
  occurs sep s = 0%nat -> JS.split sep s = [s].
Proof.
  induction s as [|c s IH]; [reflexivity|].
  cbn [JS.split occurs]. destruct (Ascii.eqb c sep); [discriminate|].
  intro H. rewrite (IH H). reflexivity.
Qed.

Lemma split_app_sep (sep : ascii) (a b : string) :
  occurs sep a = 0%nat ->
  JS.split sep (a ++ String sep b)%string = a :: JS.split sep b.
Proof.
  induction a as [|c a IH].
  - intros _. cbn [append JS.split]. rewrite Ascii.eqb_refl. reflexivity.
  - cbn [append JS.split occurs]. destruct (Ascii.eqb c sep); [discriminate|].
    intro H. rewrite (IH H). reflexivity.
Qed.

Lemma split_join (sep : ascii) (l : list string) :
  l <> [] ->
  Forall (fun x => occurs sep x = 0%nat) l ->
  JS.split sep (JS.join (String sep EmptyString) l) = l.
Proof.
  intros Hne H. induction H as [|x l Hx Hl IH]; [congruence|].
  destruct l as [|y l].
  - cbn [JS.join]. apply split_no_sep, Hx.
  - change (JS.join (String sep EmptyString) (x :: y :: l))
      with (x ++ String sep (JS.join (String sep EmptyString) (y :: l)))%string.
    rewrite (split_app_sep sep x _ Hx), IH by discriminate. reflexivity.
Qed.

Lemma occurs_join (c sep : ascii) (l : list string) :
  Ascii.eqb sep c = false ->
  Forall (fun x => occurs c x = 0%nat) l ->
  occurs c (JS.join (String sep EmptyString) l) = 0%nat.
Proof.
  intros Hsep H. induction H as [|x l Hx Hl IH]; [reflexivity|].
  destruct l as [|y l]; [exact Hx|].
  change (JS.join (String sep EmptyString) (x :: y :: l))
    with (x ++ String sep (JS.join (String sep EmptyString) (y :: l)))%string.
  rewrite occurs_app. cbn [occurs]. rewrite Hx, Hsep, IH. reflexivity.
Qed.

(** ** The period of a printed number *)

Lemma comma_decimal_id (s : string) :
  occurs "." s = 0%nat -> comma_decimal s = s.
Proof.
  induction s as [|c s IH]; [reflexivity|].
  cbn [occurs comma_decimal]. destruct (Ascii.eqb c "."); [discriminate|].
  intro H. rewrite (IH H). reflexivity.
Qed.

Lemma replace_period (s : string) :
  (occurs "." s <= 1)%nat -> JS.replace "." "," s = comma_decimal s.
Proof.
  induction s as [|c s IH]; [reflexivity|].
  cbn [occurs comma_decimal JS.replace prefix].
  destruct (ascii_dec "." c) as [<-|Hne].
  - cbn [Ascii.eqb Bool.eqb append String.length JS.drop]. intro H.
    assert (Hp : prefix EmptyString s = true) by (destruct s; reflexivity).
    rewrite Hp, comma_decimal_id by lia. reflexivity.
  - destruct (Ascii.eqb_spec c ".") as [->|_]; [congruence|].
    intro H. rewrite (IH H). reflexivity.
Qed.

Lemma occurs_period_comma_decimal (s : string) :
  occurs "." (comma_decimal s) = 0%nat.
Proof.
  induction s as [|c s IH]; [reflexivity|].
  cbn [comma_decimal occurs]. rewrite IH.
  destruct (Ascii.eqb_spec c ".") as [->|Hne]; [reflexivity|].
  destruct (Ascii.eqb_spec c ".") as [->|_]; [congruence | reflexivity].
Qed.

Lemma occurs_comma_decimal (c : ascii) (s : string) :
  Ascii.eqb "." c = false -> Ascii.eqb "," c = false ->
  occurs c (comma_decimal s) = occurs c s.
Proof.
  intros H1 H2. induction s as [|d s IH]; [reflexivity|].
  cbn [comma_decimal occurs]. rewrite IH.
  destruct (Ascii.eqb_spec d ".") as [->|Hne]; [|reflexivity].
  rewrite H1, H2. reflexivity.
Qed.

Lemma foreign_spec (c : ascii) :
  foreign c = true ->
  JS.is_digit c = false /\ Ascii.eqb "." c = false /\
  Ascii.eqb "e" c = false /\ Ascii.eqb "-" c = false /\
  Ascii.eqb "+" c = false /\ Ascii.eqb "N" c = false /\
  Ascii.eqb "a" c = false.
Proof.
  unfold foreign. rewrite !andb_true_iff, !negb_true_iff. tauto.
Qed.

Ltac digit_pieces Hc Hm :=
  rewrite ?occurs_app; cbn [occurs append];
  rewrite ?(occurs_all_digits _ _ Hc Hm),
    ?(occurs_all_digits _ _ Hc (all_digits_zeros _)),
    ?(occurs_all_digits _ _ Hc (all_digits_take _ _ Hm)),
    ?(occurs_all_digits _ _ Hc (all_digits_drop _ _ Hm)),
    ?(occurs_all_digits _ _ Hc (all_digits_digits _)).

Lemma print_decimal_period (s e : Z) :
  (occurs "." (JS.print_decimal s e) <= 1)%nat.
Proof.
  unfold JS.print_decimal.
  pose proof (all_digits_digits (Z.to_N s)) as Hm.
  generalize dependent (JS.digits (Z.to_N s)). intros m Hm.
  assert (Hc : JS.is_digit "." = false) by reflexivity.
  set (n := (Z.of_nat (String.length m) + e)%Z).
  destruct ((Z.of_nat (String.length m) <=? n)%Z && (n <=? 21)%Z);
    [digit_pieces Hc Hm; lia|].
  destruct ((0 <? n)%Z && (n <=? 21)%Z); [digit_pieces Hc Hm; cbn; lia|].
  destruct ((-6 <? n)%Z && (n <=? 0)%Z); [digit_pieces Hc Hm; cbn; lia|].
  destruct (Z.of_nat (String.length m) =? 1)%Z; destruct (n - 1 <? 0)%Z;
    digit_pieces Hc Hm; cbn; lia.
Qed.

Lemma print_decimal_foreign (c : ascii) (s e : Z) :
  foreign c = true -> occurs c (JS.print_decimal s e) = 0%nat.
Proof.
  intro Hf. destruct (foreign_spec c Hf) as (Hc & H1 & H2 & H3 & H4 & _).
  unfold JS.print_decimal.
  pose proof (all_digits_digits (Z.to_N s)) as Hm.
  generalize dependent (JS.digits (Z.to_N s)). intros m Hm.
  assert (H0 : Ascii.eqb "0" c = false).
  { destruct (Ascii.eqb_spec "0"%char c) as [<-|_]; [discriminate Hc|].
    reflexivity. }
  set (n := (Z.of_nat (String.length m) + e)%Z).
  destruct ((Z.of_nat (String.length m) <=? n)%Z && (n <=? 21)%Z);
    [digit_pieces Hc Hm; reflexivity|].
  destruct ((0 <? n)%Z && (n <=? 21)%Z);
    [digit_pieces Hc Hm; rewrite H1; reflexivity|].
  destruct ((-6 <? n)%Z && (n <=? 0)%Z);
    [digit_pieces Hc Hm; rewrite H0, H1; reflexivity|].
  destruct (Z.of_nat (String.length m) =? 1)%Z; destruct (n - 1 <? 0)%Z;
    digit_pieces Hc Hm; rewrite ?H1, ?H2, ?H3, ?H4; reflexivity.
Qed.

Lemma toString_period (x : JS.number) : (occurs "." (JS.toString x) <= 1)%nat.
Proof.
  destruct x as [|q]; [cbn; lia|].
  cbn [JS.toString]. unfold JS.toString_Q.
  destruct (Qeq_bool q 0); [cbn; lia|].
  destruct (JS.significand (Qabs q)) as [s e].
  pose proof (print_decimal_period s e) as H.
  destruct (JS.Qlt_bool q 0); rewrite occurs_app; cbn [occurs] in *;
    cbn [Ascii.eqb Bool.eqb]; lia.
Qed.

Lemma toString_foreign (c : ascii) (x : JS.number) :
  foreign c = true -> occurs c (JS.toString x) = 0%nat.
Proof.
  intro Hf. destruct (foreign_spec c Hf) as (Hc & H1 & H2 & H3 & H4 & H5 & H6).
  assert (H0 : Ascii.eqb "0" c = false).
  { destruct (Ascii.eqb_spec "0"%char c) as [<-|_]; [discriminate Hc|].
    reflexivity. }
  destruct x as [|q].
  - cbn [JS.toString occurs]. rewrite H5, H6. reflexivity.
  - cbn [JS.toString]. unfold JS.toString_Q.
    destruct (Qeq_bool q 0); [cbn [occurs]; rewrite H0; reflexivity|].
    destruct (JS.significand (Qabs q)) as [s e].
    pose proof (print_decimal_foreign c s e Hf) as H.
    destruct (JS.Qlt_bool q 0); rewrite occurs_app; cbn [occurs];
      rewrite ?H3, H; reflexivity.
Qed.

(** A CSV field is the printed number with its period, if it has one, turned
    into a comma; it holds no period, no semicolon and no line feed. *)
Lemma csv_field_spec (x : JS.number) :
  csv_field x = comma_decimal (JS.toString x) /\
  occurs "." (csv_field x) = 0%nat /\
  occurs ";" (csv_field x) = 0%nat /\
  occurs "010" (csv_field x) = 0%nat.
Proof.
  unfold csv_field. rewrite (replace_period _ (toString_period x)).
  split; [reflexivity|]. split; [apply occurs_period_comma_decimal|].
  split; rewrite occurs_comma_decimal by reflexivity;
    apply toString_foreign; reflexivity.
Qed.

(** ** The exported document *)

Lemma csv_row_fields (row : SimulationData.t) :
  csv_row row =
    JS.join ";" (map csv_field (record_fields row)) /\
  JS.split ";" (csv_row row) =
    map (fun x => comma_decimal (JS.toString x)) (record_fields row) /\
  Forall (fun f => occurs "." f = 0%nat) (JS.split ";" (csv_row row)) /\
  occurs "010" (csv_row row) = 0%nat.
Proof.
  assert (E : csv_row row = JS.join ";" (map csv_field (record_fields row)))
    by reflexivity.
  assert (Hsplit : JS.split ";" (csv_row row) =
                   map csv_field (record_fields row)).
  { rewrite E. apply (split_join ";"); [discriminate|].
    apply Forall_map, Forall_forall. intros x _. apply csv_field_spec. }
  split; [exact E|]. split; [|split].
  - rewrite Hsplit. apply map_ext. intro x. apply csv_field_spec.
  - rewrite Hsplit. apply Forall_map, Forall_forall. intros x _.
    apply csv_field_spec.
  - rewrite E. apply (occurs_join "010" ";"); [reflexivity|].
    apply Forall_map, Forall_forall. intros x _. apply csv_field_spec.
Qed.

Lemma csv_lines (rows : list SimulationData.t) :
  JS.split "010" (JS.join LF (JS.join ";" headers :: map csv_row rows)) =
  JS.join ";" headers :: map csv_row rows.
Proof.
  apply (split_join "010"); [discriminate|].
  constructor; [vm_compute; reflexivity|].
  apply Forall_map, Forall_forall. intros row _. apply csv_row_fields.
Qed.

(** C4.  [downloadCSV] on a history of [k >= 1] records hands the browser one
    file, [serbest_dusme_verileri.csv], whose content splits at the line feeds
    into exactly [k + 1] lines (4 lines for 3 records).  The first line is the
    header and has the 6 header names between semicolons.  Line [i + 1] is
    record [i] of the history: split at the semicolons it has exactly the 6
    fields time, height, velocity, acceleration, displacement, mass, in this
    order, each the printed number with a comma where the number prints a
    period, and no field holds a period. *)
Theorem C4_export_format (s : Component) :
  dataHistory s <> [] ->
  exists content,
    downloads (downloadCSV s) =
      downloads s ++
      [mkDownload "serbest_dusme_verileri.csv" "text/csv;charset=utf-8;"
         content] /\
    let lines := JS.split "010" content in
    List.length lines = S (List.length (dataHistory s)) /\
    (List.length (dataHistory s) = 3%nat -> List.length lines = 4%nat) /\
    (exists header,
       nth_error lines 0 = Some header /\
       JS.split ";" header = headers /\
       List.length (JS.split ";" header) = 6%nat) /\
    (forall i row,
       nth_error (dataHistory s) i = Some row ->
       exists line,
         nth_error lines (S i) = Some line /\
         JS.split ";" line =
           map (fun x => comma_decimal (JS.toString x))
             [SimulationData.time row; SimulationData.height row;
              SimulationData.velocity row; SimulationData.acceleration row;
              SimulationData.displacement row; SimulationData.mass row] /\
         List.length (JS.split ";" line) = 6%nat /\
         Forall (fun f => occurs "." f = 0%nat) (JS.split ";" line)).
Proof.
  intro Hne.
  exists (JS.join LF (JS.join ";" headers :: map csv_row (dataHistory s))).
  split.
  - unfold downloadCSV, array_length.
    destruct (dataHistory s) as [|r rs]; [congruence|]. reflexivity.
  - cbv zeta. rewrite csv_lines. split; [|split; [|split]].
    + cbn [List.length]. rewrite length_map. reflexivity.
    + intro H3. cbn [List.length]. rewrite length_map, H3. reflexivity.
    + exists (JS.join ";" headers). split; [reflexivity|].
      split; vm_compute; reflexivity.
    + intros i row Hrow. exists (csv_row row). split.
      * cbn [nth_error]. rewrite nth_error_map, Hrow. reflexivity.
      * destruct (csv_row_fields row) as (_ & Hsplit & Hperiod & _).
        split; [exact Hsplit|]. split; [|exact Hperiod].
        rewrite Hsplit. reflexivity.
Qed.

Lemma C4_export_format_witness :
  let s := ticks 3 (startSimulation mounted) in
  exists content,
    downloads (downloadCSV s) =
      downloads s ++
      [mkDownload "serbest_dusme_verileri.csv" "text/csv;charset=utf-8;"
         content] /\
    let lines := JS.split "010" content in
    List.length lines = S (List.length (dataHistory s)) /\
    (List.length (dataHistory s) = 3%nat -> List.length lines = 4%nat) /\
    (exists header,
       nth_error lines 0 = Some header /\
       JS.split ";" header = headers /\
       List.length (JS.split ";" header) = 6%nat) /\
    (forall i row,
       nth_error (dataHistory s) i = Some row ->
       exists line,
         nth_error lines (S i) = Some line /\
         JS.split ";" line =
           map (fun x => comma_decimal (JS.toString x))
             [SimulationData.time row; SimulationData.height row;
              SimulationData.velocity row; SimulationData.acceleration row;
              SimulationData.displacement row; SimulationData.mass row] /\
         List.length (JS.split ";" line) = 6%nat /\
         Forall (fun f => occurs "." f = 0%nat) (JS.split ";" line)).
Proof.
  intro s. apply (C4_export_format s). vm_compute. discriminate.
Defined.

(** ** Pausing and resetting *)

(** X1.  [stopSimulation] clears the interval and the running flag and keeps
    everything else: the history, the trail, the cursors and the displayed
    time, height and velocity stay as the last tick left them.  A timer firing
    after it changes nothing, and stopping twice is stopping once. *)
Theorem stop_freezes (s : Component) :
  intervalRef (stopSimulation s) = None /\
  SimulationState.isRunning (simulationState (stopSimulation s)) = false /\
  dataHistory (stopSimulation s) = dataHistory s /\
  trail (stopSimulation s) = trail s /\
  main_view (stopSimulation s) = main_view s /\
  modal_view (stopSimulation s) = modal_view s /\
  SimulationState.time (simulationState (stopSimulation s)) =
    SimulationState.time (simulationState s) /\
  SimulationState.currentHeight (simulationState (stopSimulation s)) =
    SimulationState.currentHeight (simulationState s) /\
  SimulationState.currentVelocity (simulationState (stopSimulation s)) =
    SimulationState.currentVelocity (simulationState s) /\
  SimulationState.ballY (simulationState (stopSimulation s)) =
    SimulationState.ballY (simulationState s) /\
  (forall n, ticks n (stopSimulation s) = stopSimulation s) /\
  stopSimulation (stopSimulation s) = stopSimulation s.
Proof.
  assert (Hi : intervalRef (stopSimulation s) = None)
    by (unfold stopSimulation; destruct (intervalRef s) eqn:E;
        [reflexivity | exact E]).
  split; [exact Hi|].
  assert (Hidem : stopSimulation (stopSimulation s) = stopSimulation s).
  { unfold stopSimulation at 1. rewrite Hi.
    unfold stopSimulation. destruct (intervalRef s); reflexivity. }
  split; [unfold stopSimulation; destruct (intervalRef s); reflexivity|].
  split; [unfold stopSimulation; destruct (intervalRef s); reflexivity|].
  split; [unfold stopSimulation; destruct (intervalRef s); reflexivity|].
  split; [unfold stopSimulation; destruct (intervalRef s); reflexivity|].
  split; [unfold stopSimulation; destruct (intervalRef s); reflexivity|].
  split; [unfold stopSimulation; destruct (intervalRef s); reflexivity|].
  split; [unfold stopSimulation; destruct (intervalRef s); reflexivity|].
  split; [unfold stopSimulation; destruct (intervalRef s); reflexivity|].
  split; [unfold stopSimulation; destruct (intervalRef s); reflexivity|].
  split; [intro n; apply ticks_idle, Hi | exact Hidem].
Qed.

(** X2.  [restartSimulation] stops the driver and puts the component back at the
    start of a fall from the current parameters: time 0, the initial height
    and velocity, no displacement, the ball at its initial position, an empty
    history and trail, both cursors on page 1.  The parameters stay, and so do
    the bounce timers: a bounce that is under way is not cancelled. *)
Theorem restart_resets (s : Component) :
  let s' := restartSimulation s in
  intervalRef s' = None /\
  simulationState s' =
    SimulationState.mk false 0 (initialHeight s) (initialVelocity s) 0
      (calculateInitialBallY s) /\
  dataHistory s' = [] /\ trail s' = [] /\
  mainTableCurrentPage s' = 1%Z /\ modalCurrentPage s' = 1%Z /\
  (initialVelocity s', initialHeight s', mass s', planet s', customGravity s')
    = (initialVelocity s, initialHeight s, mass s, planet s, customGravity s) /\
  bounceIntervals s' = bounceIntervals s /\
  downloads s' = downloads s /\
  restartSimulation s' = s'.
Proof.
  unfold restartSimulation, stopSimulation.
  destruct (intervalRef s) eqn:E; repeat split; try reflexivity;
    cbn [intervalRef setModalCurrentPage setMainTableCurrentPage setTrail
         setDataHistory setSimulationState set_intervalRef];
    rewrite ?E; reflexivity.
Qed.

(** ** The bounce *)

Lemma nth_error_replace_nth {A : Type} (i : nat) (x y : A) (l : list A) :
  nth_error l i = Some y -> nth_error (replace_nth i x l) i = Some x.
Proof.
  revert l. induction i as [|i IH]; intros [|z l] H; try discriminate.
  - reflexivity.
  - cbn [replace_nth nth_error] in *. apply IH, H.
Qed.

Lemma replace_nth_same {A : Type} (i : nat) (x : A) (l : list A) :
  nth_error l i = Some x -> replace_nth i x l = l.
Proof.
  revert l. induction i as [|i IH]; intros [|z l] H; try discriminate.
  - cbn in H. injection H as ->. reflexivity.
  - cbn [replace_nth nth_error] in *. rewrite (IH l H). reflexivity.
Qed.

Lemma replace_nth_twice {A : Type} (i : nat) (x y : A) (l : list A) :
  replace_nth i x (replace_nth i y l) = replace_nth i x l.
Proof.
  revert l. induction i as [|i IH]; intros [|z l]; try reflexivity.
  cbn [replace_nth]. rewrite IH. reflexivity.
Qed.

Lemma remove_nth_replace_nth {A : Type} (i : nat) (x : A) (l : list A) :
  remove_nth i (replace_nth i x l) = remove_nth i l.
Proof.
  revert l. induction i as [|i IH]; intros [|z l]; try reflexivity.
  cbn [replace_nth remove_nth]. rewrite IH. reflexivity.
Qed.

Lemma bounce_frame_refl (s : Component) : bounce_frame s s.
Proof. repeat split. Qed.

Lemma bounce_frame_trans (s1 s2 s3 : Component) :
  bounce_frame s1 s2 -> bounce_frame s2 s3 -> bounce_frame s1 s3.
Proof.
  unfold bounce_frame.
  intros (A1 & A2 & A3 & A4 & A5 & A6 & A7 & A8)
         (B1 & B2 & B3 & B4 & B5 & B6 & B7 & B8).
  repeat split; etransitivity; eassumption.
Qed.

Lemma bounceCallback_frame (i : nat) (s : Component) :
  bounce_frame s (bounceCallback i s).
Proof.
  unfold bounceCallback. destruct (nth_error _ i); [|apply bounce_frame_refl].
  destruct (6 <=? _)%Z; repeat split.
Qed.

Lemma bounceCallback_step (i : nat) (s : Component) (r : Q) (c : Z) :
  nth_error (bounceIntervals s) i = Some (mkBounce r c) ->
  (c + 1 < 6)%Z ->
  bounceIntervals (bounceCallback i s) =
    replace_nth i (mkBounce r (c + 1)) (bounceIntervals s) /\
  SimulationState.ballY (simulationState (bounceCallback i s)) =
    if ((c + 1) mod 2 =? 0)%Z then groundY r - (10 # 1) else groundY r.
Proof.
  intros Hn Hc. unfold bounceCallback. rewrite Hn.
  cbn [b_ballRadius bounceCount].
  assert (E : (6 <=? c + 1)%Z = false) by (apply Z.leb_gt; exact Hc).
  rewrite E. split; [reflexivity|].
  cbn [simulationState set_bounceIntervals setSimulationState with_ballY
       SimulationState.ballY]. reflexivity.
Qed.

Lemma bounceCallback_last (i : nat) (s : Component) (r : Q) (c : Z) :
  nth_error (bounceIntervals s) i = Some (mkBounce r c) ->
  (6 <= c + 1)%Z ->
  bounceIntervals (bounceCallback i s) = remove_nth i (bounceIntervals s) /\
  SimulationState.ballY (simulationState (bounceCallback i s)) = groundY r.
Proof.
  intros Hn Hc. unfold bounceCallback. rewrite Hn.
  cbn [b_ballRadius bounceCount].
  assert (E : (6 <=? c + 1)%Z = true) by (apply Z.leb_le; exact Hc).
  rewrite E. split; reflexivity.
Qed.

Lemma bounceTicks_progress (i : nat) (s : Component) (r : Q) (k : nat) :
  nth_error (bounceIntervals s) i = Some (mkBounce r 0) ->
  (k <= 5)%nat ->
  bounceIntervals (bounceTicks i k s) =
    replace_nth i (mkBounce r (Z.of_nat k)) (bounceIntervals s) /\
  ((1 <= k)%nat ->
   SimulationState.ballY (simulationState (bounceTicks i k s)) =
     if Nat.even k then groundY r - (10 # 1) else groundY r).
Proof.
  intros Hn. induction k as [|k IH]; intro Hk.
  - split; [|lia]. cbn [bounceTicks Z.of_nat]. symmetry.
    apply replace_nth_same, Hn.
  - destruct IH as [IHb _]; [lia|]. cbn [bounceTicks].
    assert (Hk' : nth_error (bounceIntervals (bounceTicks i k s)) i =
                  Some (mkBounce r (Z.of_nat k)))
      by (rewrite IHb; apply (nth_error_replace_nth i _ _ _ Hn)).
    destruct (bounceCallback_step i _ r (Z.of_nat k) Hk' ltac:(lia))
      as [Hb Hy].
    split.
    + rewrite Hb, IHb, replace_nth_twice. do 2 f_equal. lia.
    + intros _. rewrite Hy.
      assert (E : ((Z.of_nat k + 1) mod 2 =? 0)%Z = Nat.even (S k))
        by (do 5 (destruct k as [|k]; [reflexivity|]); lia).
      rewrite E. reflexivity.
Qed.

Lemma bounceTicks_six (i : nat) (s : Component) (r : Q) :
  nth_error (bounceIntervals s) i = Some (mkBounce r 0) ->
  (forall k, (1 <= k <= 5)%nat ->
     bounceIntervals (bounceTicks i k s) =
       replace_nth i (mkBounce r (Z.of_nat k)) (bounceIntervals s) /\
     SimulationState.ballY (simulationState (bounceTicks i k s)) =
       if Nat.even k then groundY r - (10 # 1) else groundY r) /\
  bounceIntervals (bounceTicks i 6 s) = remove_nth i (bounceIntervals s) /\
  SimulationState.ballY (simulationState (bounceTicks i 6 s)) = groundY r /\
  (forall k, bounce_frame s (bounceTicks i k s)).
Proof.
  intro Hn. split; [|split; [|split]].
  - intros k Hk. destruct (bounceTicks_progress i s r k Hn) as [Hb Hy]; [lia|].
    split; [exact Hb | apply Hy; lia].
  - destruct (bounceTicks_progress i s r 5 Hn) as [Hb _]; [lia|].
    change (bounceTicks i 6 s) with (bounceCallback i (bounceTicks i 5 s)).
    assert (H5 : nth_error (bounceIntervals (bounceTicks i 5 s)) i =
                 Some (mkBounce r 5))
      by (rewrite Hb; apply (nth_error_replace_nth i _ _ _ Hn)).
    destruct (bounceCallback_last i _ r 5 H5 ltac:(lia)) as [Hb' _].
    rewrite Hb', Hb. apply remove_nth_replace_nth.
  - destruct (bounceTicks_progress i s r 5 Hn) as [Hb _]; [lia|].
    change (bounceTicks i 6 s) with (bounceCallback i (bounceTicks i 5 s)).
    assert (H5 : nth_error (bounceIntervals (bounceTicks i 5 s)) i =
                 Some (mkBounce r 5))
      by (rewrite Hb; apply (nth_error_replace_nth i _ _ _ Hn)).
    apply (bounceCallback_last i _ r 5 H5). lia.
  - induction k as [|k IH]; [apply bounce_frame_refl|].
    cbn [bounceTicks]. eapply bounce_frame_trans; [exact IH|].
    apply bounceCallback_frame.
Qed.

(** X3.  A fresh bounce timer fires six times.  The first five firings keep
    it alive and count up, each leaving the ball either on the ground or 10
    units above it; the sixth removes the timer and leaves the ball exactly on
    the ground.  The other bounce timers, the history, the trail, the driver
    and the cursors are not touched. *)
Theorem bounce_six_firings (i : nat) (s : Component) (r : Q) :
  nth_error (bounceIntervals s) i = Some (mkBounce r 0) ->
  (forall k, (1 <= k <= 5)%nat ->
     bounceIntervals (bounceTicks i k s) =
       replace_nth i (mkBounce r (Z.of_nat k)) (bounceIntervals s) /\
     (SimulationState.ballY (simulationState (bounceTicks i k s)) =
        groundY r - (10 # 1) \/
      SimulationState.ballY (simulationState (bounceTicks i k s)) =
        groundY r)) /\
  bounceIntervals (bounceTicks i 6 s) = remove_nth i (bounceIntervals s) /\
  SimulationState.ballY (simulationState (bounceTicks i 6 s)) = groundY r /\
  (forall k, bounce_frame s (bounceTicks i k s)).
Proof.
  intro Hn. destruct (bounceTicks_six i s r Hn) as (H5 & Hb & Hy & Hf).
  split; [|split; [exact Hb | split; [exact Hy | exact Hf]]].
  intros k Hk. destruct (H5 k Hk) as [Hbk Hyk]. split; [exact Hbk|].
  rewrite Hyk. destruct (Nat.even k); [left | right]; reflexivity.
Qed.

Lemma bounce_six_firings_witness :
  let s := ticks 32 (startSimulation mounted) in
  bounceIntervals (bounceTicks 0 6 s) = [] /\
  SimulationState.ballY (simulationState (bounceTicks 0 6 s)) =
    groundY (ballRadius mounted).
Proof.
  intro s.
  assert (H : nth_error (bounceIntervals s) 0 =
              Some (mkBounce (ballRadius mounted) 0))
    by (vm_compute; reflexivity).
  destruct (bounce_six_firings 0 s (ballRadius mounted) H)
    as (_ & Hb & Hy & _).
  split; [rewrite Hb; vm_compute; reflexivity | exact Hy].
Defined.

(** ** The ball on the canvas *)

Lemma tick_time_nonneg (n : nat) : 0 <= tick_time n.
Proof.
  induction n as [|n IH]; [apply Qle_refl|]. cbn [tick_time]. lra.
Qed.

Lemma ballRadius_le (s : Component) : ballRadius s <= 20 # 1.
Proof.
  unfold ballRadius.
  destruct (Math_min_spec (20 # 1) ((8 # 1) + mass s * (2 # 1)))
    as [[H ->]|[H ->]]; lra.
Qed.

Lemma calculateInitialBallY_spec (s : Component) :
  let r := ballRadius s in
  let y := groundY r - initialHeight s * SCALE in
  (r <= y /\ calculateInitialBallY s = y) \/
  (y < r /\ calculateInitialBallY s = r).
Proof.
  intros r y. unfold calculateInitialBallY.
  change (CANVAS_HEIGHT - ballRadius s - (4 # 1) - initialHeight s * SCALE)
    with y. fold r.
  destruct (Math_max_spec r y) as [[H ->]|[H ->]]; [left | right];
    split; try assumption; reflexivity.
Qed.

Lemma displacement_at_nonneg (cl : TickClosure) (t : Q) :
  0 <= c_initialVelocity cl -> 0 <= c_gravity cl -> 0 <= t ->
  0 <= displacement_at cl t.
Proof.
  intros Hv Hg Ht. unfold displacement_at.
  assert (H1 : 0 <= c_initialVelocity cl * t) by (apply Qmult_le_0_compat; assumption).
  assert (H2 : 0 <= c_gravity cl * t) by (apply Qmult_le_0_compat; assumption).
  assert (H3 : 0 <= (c_gravity cl * t) * t) by (apply Qmult_le_0_compat; assumption).
  setoid_replace ((1 # 2) * c_gravity cl * t * t)
    with ((1 # 2) * ((c_gravity cl * t) * t)) by ring.
  lra.
Qed.

(** With a fall that does not start upwards, the ball is drawn between the
    top of the canvas and the ground. *)
Lemma actualBallY_at_bounds (s : Component) (t0 t : Q) :
  0 <= initialVelocity s -> 0 <= gravity s -> 0 <= t ->
  ballRadius s <= actualBallY_at (closure_at s t0) t <= groundY (ballRadius s).
Proof.
  intros Hv Hg Ht.
  pose proof (displacement_at_nonneg (closure_at s t0) t Hv Hg Ht) as Hd.
  pose proof (ballRadius_le s) as Hr.
  unfold actualBallY_at. cbn [closure_at c_initialBallY c_ballRadius].
  fold (groundY (ballRadius s)).
  set (d := displacement_at (closure_at s t0) t) in *.
  assert (Hy : ballRadius s <= calculateInitialBallY s).
  { destruct (calculateInitialBallY_spec s) as [[H ->]|[H ->]];
      [exact H | apply Qle_refl]. }
  assert (Hgr : ballRadius s <= groundY (ballRadius s)).
  { unfold groundY, CANVAS_HEIGHT. lra. }
  unfold SCALE.
  destruct (Math_min_spec (calculateInitialBallY s + d * (4 # 1))
              (groundY (ballRadius s))) as [[H ->]|[H ->]]; lra.
Qed.

Lemma trail_start_ticks (s : Component) (n : nat) :
  SimulationState.isRunning (simulationState s) = false ->
  (forall m, (1 <= m < n)%nat ->
     grounded (closure_at s 0) (tick_time m) = false) ->
  trail (ticks n (startSimulation s)) =
    lastn 30 (map (fun m => actualBallY_at (closure_at s 0) (tick_time m))
                (seq 1 n)).
Proof.
  intro idle. induction n as [|n IH]; intro Hair.
  - apply (start_fields s idle).
  - cbn [ticks].
    destruct (run_airborne s idle n) as (Hi & _);
      [intros m Hm; apply Hair; lia|].
    rewrite (trail_tick _ _ Hi), trail_update_lastn, IH
      by (intros m Hm; apply Hair; lia).
    rewrite seq_S, map_app. cbn [map c_time closure_at Nat.add].
    apply (lastn_snoc 29).
Qed.

Lemma Forall_lastn {A : Type} (P : A -> Prop) (n : nat) (l : list A) :
  Forall P l -> Forall P (lastn n l).
Proof.
  intro H. unfold lastn. rewrite <- (firstn_skipn (List.length l - n) l) in H.
  apply Forall_app in H. apply H.
Qed.

(** X5.  In a run that does not start upwards ([v0 >= 0], [g >= 0]) from a height
    [h0 >= 0], the ball and every dot of its trail are drawn inside the
    canvas, between one radius
    below the top edge and the ground line, after every tick. *)
Theorem ball_stays_on_canvas (s : Component) (n : nat) :
  SimulationState.isRunning (simulationState s) = false ->
  0 <= initialVelocity s -> 0 <= gravity s -> 0 <= initialHeight s ->
  (forall m, (1 <= m < n)%nat ->
     airborne (initialVelocity s) (initialHeight s) (gravity s) (elapsed m)) ->
  let s' := ticks n (startSimulation s) in
  let inside y := ballRadius s <= y <= groundY (ballRadius s) in
  inside (SimulationState.ballY (simulationState s')) /\
  Forall inside (trail s') /\
  groundY (ballRadius s) + ballRadius s < CANVAS_HEIGHT.
Proof.
  intros idle Hv Hg Hh0 Hair s' inside.
  assert (Hgr : forall m, (1 <= m < n)%nat ->
                  grounded (closure_at s 0) (tick_time m) = false)
    by (intros m Hm; apply grounded_false_iff, Hair, Hm).
  split; [|split].
  - subst s'. destruct n as [|n].
    + cbn [ticks]. destruct (start_fields s idle) as (Hs & _). rewrite Hs.
      cbn [SimulationState.ballY]. unfold inside.
      pose proof (ballRadius_le s) as Hr.
      destruct (calculateInitialBallY_spec s) as [[H ->]|[H ->]];
        cbv zeta in H; unfold groundY, CANVAS_HEIGHT, SCALE in *.
      * lra.
      * lra.
    + destruct (run_tick s idle n) as (Hs & _);
        [intros m Hm; apply Hgr; lia|].
      rewrite Hs. cbn [running_state SimulationState.ballY].
      apply actualBallY_at_bounds; try assumption. apply tick_time_nonneg.
  - subst s'. rewrite (trail_start_ticks s n idle Hgr).
    apply Forall_lastn, Forall_map, Forall_forall. intros m _.
    apply actualBallY_at_bounds; try assumption. apply tick_time_nonneg.
  - unfold groundY, CANVAS_HEIGHT. lra.
Qed.

Lemma ball_stays_on_canvas_witness :
  let s' := ticks 32 (startSimulation mounted) in
  let inside y := ballRadius mounted <= y <= groundY (ballRadius mounted) in
  inside (SimulationState.ballY (simulationState s')) /\
  Forall inside (trail s') /\
  groundY (ballRadius mounted) + ballRadius mounted < CANVAS_HEIGHT.
Proof.
  apply (ball_stays_on_canvas mounted 32).
  - reflexivity.
  - vm_compute. discriminate.
  - vm_compute. discriminate.
  - vm_compute. discriminate.
  - apply airborne_until_correct. vm_compute. reflexivity.
Defined.

(** ** Invariants of a mounted component *)

Lemma run_invariant (P : Component -> Prop) :
  P mounted ->
  (forall s e, P s -> P (handle s e)) ->
  forall es, P (run mounted es).
Proof.
  intros H0 Hstep es. unfold run. revert H0. generalize mounted as s.
  induction es as [|e es IH]; intros s H; [exact H|].
  cbn [fold_left]. apply IH, Hstep, H.
Qed.

Lemma Math_max_ge_l (a b : Q) : a <= JS.Math_max a b.
Proof. destruct (Math_max_spec a b) as [[H ->]|[H ->]]; lra. Qed.

Lemma parameters_frame (s s' : Component) :
  initialHeight s' = initialHeight s -> mass s' = mass s ->
  customGravity s' = customGravity s ->
  valid_parameters s -> valid_parameters s'.
Proof. unfold valid_parameters. intros -> -> ->. exact (fun H => H). Qed.

Lemma valid_parameters_step (s : Component) (e : Event) :
  valid_parameters s -> valid_parameters (handle s e).
Proof.
  intro H.
  destruct e as [| | | |i| | | | |page|page|v|v|v|p|v]; cbn [handle];
    try exact H.
  - unfold startSimulation. destruct (SimulationState.isRunning _); exact H.
  - unfold stopSimulation. destruct (intervalRef s); exact H.
  - unfold restartSimulation, stopSimulation. destruct (intervalRef s); exact H.
  - unfold tick. destruct (intervalRef s); [|exact H].
    unfold intervalCallback. destruct (Qle_bool _ _); [|exact H].
    unfold bounceEffect, stopSimulation.
    cbn [intervalRef setDataHistory setTrail setSimulationState
         set_intervalRef]. exact H.
  - unfold bounceCallback. destruct (nth_error _ i); [|exact H].
    destruct (6 <=? _)%Z; exact H.
  - unfold downloadCSV. destruct (_ =? _)%Z; exact H.
  - unfold handleMainTablePageChange. destruct (_ && _); exact H.
  - unfold handleModalPageChange. destruct (_ && _); exact H.
  - destruct H as (H1 & H2 & H3). repeat split; try assumption.
    apply Math_max_ge_l.
  - destruct H as (H1 & H2 & H3). repeat split; try assumption.
    apply Math_max_ge_l.
  - destruct H as (H1 & H2 & H3). repeat split; try assumption.
    apply Math_max_ge_l.
Qed.

(** X7.  Whatever the user types and clicks, the parameters of a mounted component
    stay in their ranges: the initial height is at least 1, the mass at least
    0.1, the gravity in force (the planet's, or the custom one) at least 0.1,
    and the ball radius between 8.2 and 20. *)
Theorem parameters_stay_valid (es : list Event) :
  let s := run mounted es in
  1 <= initialHeight s /\ (1 # 10) <= mass s /\ (1 # 10) <= gravity s /\
  (82 # 10) <= ballRadius s <= (20 # 1).
Proof.
  intro s.
  assert (H : valid_parameters s).
  { apply run_invariant; [|apply valid_parameters_step].
    repeat split; vm_compute; discriminate. }
  destruct H as (H1 & H2 & H3).
  split; [exact H1|]. split; [exact H2|]. split.
  - unfold gravity. destruct (planet s); cbn [PLANETS_gravity]; lra.
  - split; [|apply ballRadius_le]. unfold ballRadius.
    destruct (Math_min_spec (20 # 1) ((8 # 1) + mass s * (2 # 1)))
      as [[H ->]|[H ->]]; lra.
Qed.

Lemma driver_consistent_step (s : Component) (e : Event) :
  driver_consistent s -> driver_consistent (handle s e).
Proof.
  unfold driver_consistent. intro H.
  destruct e as [| | | |i| | | | |page|page|v|v|v|p|v]; cbn [handle];
    try exact H.
  - unfold startSimulation.
    destruct (SimulationState.isRunning (simulationState s)) eqn:E;
      [rewrite E; exact H|].
    cbn. split; [discriminate | reflexivity].
  - unfold stopSimulation. destruct (intervalRef s) eqn:E; cbn; rewrite ?E;
      split; [discriminate | congruence | discriminate | congruence].
  - unfold restartSimulation, stopSimulation.
    destruct (intervalRef s) eqn:E; cbn; rewrite ?E;
      split; [discriminate | congruence | discriminate | congruence].
  - destruct (intervalRef s) as [cl|] eqn:Hi;
      [|rewrite (tick_idle s Hi), Hi; exact H].
    assert (Hr : SimulationState.isRunning (simulationState s) = true)
      by (apply H; discriminate).
    destruct (tick_fields s cl Hi Hr) as (Hs & _ & Hi' & _).
    rewrite Hs, Hi'. cbn [running_state SimulationState.isRunning].
    destruct (grounded cl _); cbn [negb];
      split; [discriminate | congruence | discriminate | reflexivity].
  - destruct (bounceCallback_frame i s) as (_ & _ & F3 & _ & _ & F6 & _).
    rewrite F3, F6. exact H.
  - unfold downloadCSV. destruct (_ =? _)%Z; exact H.
  - unfold handleMainTablePageChange. destruct (_ && _); exact H.
  - unfold handleModalPageChange. destruct (_ && _); exact H.
Qed.

(** X8.  On a mounted component the running flag and the tick timer always agree:
    [isRunning] holds exactly when an interval is set.  So the guard of
    [startSimulation] never lets a second interval start beside a live one,
    and a component that shows "stopped" has no tick pending. *)
Theorem driver_flag_matches_timer (es : list Event) :
  SimulationState.isRunning (simulationState (run mounted es)) = true <->
  intervalRef (run mounted es) <> None.
Proof.
  apply (run_invariant driver_consistent); [|apply driver_consistent_step].
  split; [discriminate | intro H; exfalso; apply H; reflexivity].
Qed.

Lemma totalPages_mono {A : Type} (l l' : list A) :
  (array_length l <= array_length l')%Z ->
  (JS.Math_ceil (inject_Z (array_length l) / inject_Z itemsPerPage)
   <= JS.Math_ceil (inject_Z (array_length l') / inject_Z itemsPerPage))%Z.
Proof.
  intro H. pose proof (totalPages_ceil l) as H1.
  pose proof (totalPages_ceil l') as H2. cbv zeta in H1, H2.
  unfold itemsPerPage in *. lia.
Qed.

Lemma totalPages_nil :
  JS.Math_ceil (inject_Z (array_length (@nil SimulationData.t))
                / inject_Z itemsPerPage) = 0%Z.
Proof. reflexivity. Qed.

Lemma cursors_in_range_ext (s s' : Component) :
  mainTableCurrentPage s' = mainTableCurrentPage s ->
  modalCurrentPage s' = modalCurrentPage s ->
  (array_length (dataHistory s) <= array_length (dataHistory s'))%Z ->
  cursors_in_range s -> cursors_in_range s'.
Proof.
  unfold cursors_in_range, mainTotalPages, modalTotalPages.
  intros -> -> Hlen.
  pose proof (totalPages_mono (dataHistory s) (dataHistory s') Hlen). lia.
Qed.

Lemma cursors_in_range_step (s : Component) (e : Event) :
  cursors_in_range s -> cursors_in_range (handle s e).
Proof.
  intro H.
  assert (Hreset : forall s', mainTableCurrentPage s' = 1%Z ->
                     modalCurrentPage s' = 1%Z -> cursors_in_range s').
  { intros s' H1 H2. unfold cursors_in_range. rewrite H1, H2. lia. }
  assert (Hframe : forall s', mainTableCurrentPage s' = mainTableCurrentPage s ->
                     modalCurrentPage s' = modalCurrentPage s ->
                     dataHistory s' = dataHistory s -> cursors_in_range s').
  { intros s' H1 H2 H3. apply (cursors_in_range_ext s s' H1 H2); [|exact H].
    rewrite H3. lia. }
  destruct e as [| | | |i| | | | |page|page|v|v|v|p|v]; cbn [handle];
    try (apply Hframe; reflexivity).
  - unfold startSimulation.
    destruct (SimulationState.isRunning (simulationState s)); [exact H|].
    apply Hreset; reflexivity.
  - unfold stopSimulation. destruct (intervalRef s); apply Hframe; reflexivity.
  - apply Hreset; reflexivity.
  - destruct (intervalRef s) as [cl|] eqn:Hi; [|rewrite (tick_idle s Hi); exact H].
    apply (cursors_in_range_ext s); [| | |exact H].
    + unfold tick. rewrite Hi. unfold intervalCallback.
      destruct (Qle_bool _ _); reflexivity.
    + unfold tick. rewrite Hi. unfold intervalCallback.
      destruct (Qle_bool _ _); reflexivity.
    + rewrite (dataHistory_tick s cl Hi). unfold array_length.
      rewrite length_app. lia.
  - destruct (bounceCallback_frame i s) as (F1 & _ & _ & F4 & F5 & _).
    apply Hframe; assumption.
  - unfold downloadCSV. destruct (_ =? _)%Z; [exact H|].
    apply Hframe; reflexivity.
  - unfold handleMainTablePageChange.
    destruct ((1 <=? page)%Z && (page <=? mainTotalPages s)%Z) eqn:E;
      [|exact H].
    apply andb_true_iff in E. destruct E as [E1 E2].
    apply Z.leb_le in E1, E2. destruct H as [_ H2].
    split; [|exact H2].
    cbn [mainTableCurrentPage setMainTableCurrentPage].
    change (mainTotalPages (setMainTableCurrentPage page s))
      with (mainTotalPages s). lia.
  - unfold handleModalPageChange.
    destruct ((1 <=? page)%Z && (page <=? modalTotalPages s)%Z) eqn:E;
      [|exact H].
    apply andb_true_iff in E. destruct E as [E1 E2].
    apply Z.leb_le in E1, E2. destruct H as [H1 _].
    split; [exact H1|].
    cbn [modalCurrentPage setModalCurrentPage].
    change (modalTotalPages (setModalCurrentPage page s))
      with (modalTotalPages s). lia.
Qed.

(** X9.  On a mounted component both cursors always point at a page that exists:
    between 1 and [totalPages], or at page 1 while the history is empty.  A
    table therefore never shows an empty page of a non-empty history. *)
Theorem cursors_stay_in_range (es : list Event) :
  let s := run mounted es in
  (1 <= mainTableCurrentPage s <= Z.max 1 (mainTotalPages s))%Z /\
  (1 <= modalCurrentPage s <= Z.max 1 (modalTotalPages s))%Z /\
  (dataHistory s <> [] -> mainCurrentData s <> [] /\ modalCurrentData s <> []).
Proof.
  intro s.
  assert (H : cursors_in_range s).
  { apply run_invariant; [|apply cursors_in_range_step].
    unfold cursors_in_range. vm_compute. intuition discriminate. }
  destruct H as [H1 H2]. split; [exact H1|]. split; [exact H2|].
  intro Hne.
  assert (HL : (0 < array_length (dataHistory s))%Z).
  { unfold array_length. destruct (dataHistory s); [congruence|].
    cbn [List.length]. lia. }
  pose proof (totalPages_ceil (dataHistory s)) as Hc. cbv zeta in Hc.
  fold (mainTotalPages s) in Hc. unfold itemsPerPage in Hc.
  split.
  - intro E.
    assert (Hlen : array_length (mainCurrentData s) = 0%Z)
      by (rewrite E; reflexivity).
    change (mainCurrentData s)
      with (page_at (dataHistory s) (mainTableCurrentPage s)) in Hlen.
    rewrite page_at_length in Hlen by lia. lia.
  - intro E.
    assert (Hlen : array_length (modalCurrentData s) = 0%Z)
      by (rewrite E; reflexivity).
    change (modalCurrentData s)
      with (page_at (dataHistory s) (modalCurrentPage s)) in Hlen.
    rewrite page_at_length in Hlen by lia.
    change (modalTotalPages s) with (mainTotalPages s) in H2. lia.
Qed.

Lemma cursors_stay_in_range_witness :
  let s := run mounted (StartSimulation :: repeat Tick 25
                        ++ [MainTablePageChange 2]) in
  mainCurrentData s <> [] /\ modalCurrentData s <> [].
Proof.
  intro s.
  apply (proj2 (proj2 (cursors_stay_in_range
    (StartSimulation :: repeat Tick 25 ++ [MainTablePageChange 2])))).
  vm_compute. discriminate.
Defined.

(** ** The pagination bar *)

Lemma visiblePages_spec (currentPage totalPages : Z) :
  (1 <= currentPage <= totalPages)%Z ->
  let (startPage, endPage) := visiblePages currentPage totalPages in
  (1 <= startPage <= currentPage)%Z /\
  (currentPage <= endPage <= totalPages)%Z /\
  (endPage - startPage + 1 = Z.min maxVisiblePages totalPages)%Z.
Proof.
  intro H. unfold visiblePages, maxVisiblePages.
  change (7 / 2)%Z with 3%Z.
  destruct (Z.min totalPages (Z.max 1 (currentPage - 3) + 7 - 1)
            - Z.max 1 (currentPage - 3) + 1 <? 7)%Z eqn:E.
  - apply Z.ltb_lt in E. lia.
  - apply Z.ltb_ge in E. lia.
Qed.

Lemma In_Array_from {A : Type} (n : Z) (f : Z -> A) (x : A) :
  In x (Array_from n f) <-> exists i, (0 <= i < n)%Z /\ x = f i.
Proof.
  unfold Array_from. rewrite in_map_iff. split.
  - intros (i & <- & Hi). apply in_seq in Hi. exists (Z.of_nat i).
    split; [lia | reflexivity].
  - intros (i & Hi & ->). exists (Z.to_nat i). split.
    + rewrite Z2Nat.id by lia. reflexivity.
    + apply in_seq. lia.
Qed.






Lemma renderPagination_items (currentPage totalPages startIndex endIndex
    length : Z) :
  renderPagination currentPage totalPages startIndex endIndex length =
    if (totalPages <=? 1)%Z then None
    else Some (bar_items currentPage totalPages startIndex endIndex length
                 (fst (visiblePages currentPage totalPages))
                 (snd (visiblePages currentPage totalPages))).
Proof.
  unfold renderPagination. destruct (totalPages <=? 1)%Z; [reflexivity|].
  destruct (visiblePages currentPage totalPages) as [startPage endPage].
  reflexivity.
Qed.

Lemma bar_items_targets (currentPage totalPages startIndex endIndex length
    startPage endPage : Z) (item : PaginationItem) (target : Z) :
  (1 <= currentPage <= totalPages)%Z ->
  (1 <= startPage)%Z -> (endPage <= totalPages)%Z ->
  In item (bar_items currentPage totalPages startIndex endIndex length
             startPage endPage) ->
  click_target item = Some target ->
  (1 <= target <= totalPages)%Z.
Proof.
  intros Hc Hs He Hin Ht. unfold bar_items in Hin.
  repeat (apply in_app_or in Hin; destruct Hin as [Hin|Hin]).
  - destruct Hin as [<-|[]]. cbn [click_target] in Ht.
    destruct (currentPage =? 1)%Z eqn:E; [discriminate|].
    apply Z.eqb_neq in E. injection Ht as <-. lia.
  - destruct (1 <? startPage)%Z; [|destruct Hin].
    destruct Hin as [<-|Hin].
    + injection Ht as <-. lia.
    + destruct (2 <? startPage)%Z; [|destruct Hin].
      destruct Hin as [<-|[]]. discriminate.
  - apply In_Array_from in Hin. destruct Hin as (i & Hi & ->).
    injection Ht as <-. lia.
  - destruct (endPage <? totalPages)%Z; [|destruct Hin].
    apply in_app_or in Hin. destruct Hin as [Hin|[<-|[]]].
    + destruct (endPage <? totalPages - 1)%Z; [|destruct Hin].
      destruct Hin as [<-|[]]. discriminate.
    + injection Ht as <-. lia.
  - destruct Hin as [<-|[<-|[]]]; [|discriminate].
    cbn [click_target] in Ht.
    destruct (currentPage =? totalPages)%Z eqn:E; [discriminate|].
    apply Z.eqb_neq in E. injection Ht as <-. lia.
Qed.

(** X11.  Every button a pagination bar offers works.  With the cursor on an
    existing page, a click on any enabled button of the bar (previous, next,
    a page number, the first-page or last-page shortcut) asks for a page in
    [1, totalPages], and the handler puts the cursor on exactly that page; for
    the main table's bar and for the modal's. *)
Theorem pagination_buttons_work (s : Component) :
  (1 <= mainTableCurrentPage s <= mainTotalPages s)%Z ->
  (1 <= modalCurrentPage s <= modalTotalPages s)%Z ->
  (forall items item target,
     renderMainTablePagination s = Some items ->
     In item items -> click_target item = Some target ->
     (1 <= target <= mainTotalPages s)%Z /\
     mainTableCurrentPage (handleMainTablePageChange target s) = target) /\
  (forall items item target,
     renderModalPagination s = Some items ->
     In item items -> click_target item = Some target ->
     (1 <= target <= modalTotalPages s)%Z /\
     modalCurrentPage (handleModalPageChange target s) = target).
Proof.
  intros Hmain Hmodal. split.
  - intros items item target Hr Hin Ht.
    unfold renderMainTablePagination in Hr.
    rewrite renderPagination_items in Hr.
    destruct (mainTotalPages s <=? 1)%Z; [discriminate|].
    pose proof (visiblePages_spec _ _ Hmain) as Hv.
    destruct (visiblePages (mainTableCurrentPage s) (mainTotalPages s))
      as [startPage endPage].
    cbn [fst snd] in Hr. injection Hr as <-.
    assert (Hrange : (1 <= target <= mainTotalPages s)%Z)
      by (apply (bar_items_targets _ _ _ _ _ startPage endPage item target
                   Hmain ltac:(lia) ltac:(lia) Hin Ht)).
    split; [exact Hrange|].
    unfold handleMainTablePageChange.
    assert (E : ((1 <=? target)%Z && (target <=? mainTotalPages s)%Z) = true)
      by (apply andb_true_iff; split; apply Z.leb_le; lia).
    rewrite E. reflexivity.
  - intros items item target Hr Hin Ht.
    unfold renderModalPagination in Hr.
    rewrite renderPagination_items in Hr.
    destruct (modalTotalPages s <=? 1)%Z; [discriminate|].
    pose proof (visiblePages_spec _ _ Hmodal) as Hv.
    destruct (visiblePages (modalCurrentPage s) (modalTotalPages s))
      as [startPage endPage].
    cbn [fst snd] in Hr. injection Hr as <-.
    assert (Hrange : (1 <= target <= modalTotalPages s)%Z)
      by (apply (bar_items_targets _ _ _ _ _ startPage endPage item target
                   Hmodal ltac:(lia) ltac:(lia) Hin Ht)).
    split; [exact Hrange|].
    unfold handleModalPageChange.
    assert (E : ((1 <=? target)%Z && (target <=? modalTotalPages s)%Z) = true)
      by (apply andb_true_iff; split; apply Z.leb_le; lia).
    rewrite E. reflexivity.
Qed.

Lemma pagination_buttons_work_witness :
  let s := run mounted (StartSimulation :: repeat Tick 32) in
  (1 <= 2 <= mainTotalPages s)%Z /\
  mainTableCurrentPage (handleMainTablePageChange 2 s) = 2%Z.
Proof.
  intro s.
  assert (Hmain : (1 <= mainTableCurrentPage s <= mainTotalPages s)%Z)
    by (vm_compute; intuition discriminate).
  assert (Hmodal : (1 <= modalCurrentPage s <= modalTotalPages s)%Z)
    by (vm_compute; intuition discriminate).
  assert (Hr : renderMainTablePagination s =
               Some [PrevButton true 0; PageButton 1 true; PageButton 2 false;
                     NextButton false 2; PageInfo 1 20 32])
    by (vm_compute; reflexivity).
  apply (proj1 (pagination_buttons_work s Hmain Hmodal) _
           (NextButton false 2) 2%Z Hr).
  - right. right. right. left. reflexivity.
  - reflexivity.
Defined.





(** X13.  The window of page numbers both bars show: with the cursor on an existing
    page it lies inside [1, totalPages], contains the current page, and has
    exactly 7 pages, or all of them when there are fewer than 7. *)
Theorem pagination_window (currentPage totalPages : Z) :
  (1 <= currentPage <= totalPages)%Z ->
  let startPage := fst (visiblePages currentPage totalPages) in
  let endPage := snd (visiblePages currentPage totalPages) in
  (1 <= startPage <= currentPage)%Z /\
  (currentPage <= endPage <= totalPages)%Z /\
  (endPage - startPage + 1 = Z.min 7 totalPages)%Z.
Proof.
  intro H. pose proof (visiblePages_spec _ _ H) as Hv.
  destruct (visiblePages currentPage totalPages) as [startPage endPage].
  exact Hv.
Qed.

Lemma pagination_window_witness :
  let startPage := fst (visiblePages 10 10) in
  let endPage := snd (visiblePages 10 10) in
  (1 <= startPage <= 10)%Z /\ (10 <= endPage <= 10)%Z /\
  (endPage - startPage + 1 = Z.min 7 10)%Z.
Proof. apply (pagination_window 10 10). lia. Defined.

Lemma In_bar_items_PageInfo (currentPage totalPages startIndex endIndex length
    startPage endPage f l t : Z) :
  In (PageInfo f l t)
     (bar_items currentPage totalPages startIndex endIndex length startPage
        endPage) ->
  f = (startIndex + 1)%Z /\ l = Z.min endIndex length /\ t = length.
Proof.
  intro Hin. unfold bar_items in Hin.
  repeat (apply in_app_or in Hin; destruct Hin as [Hin|Hin]).
  - destruct Hin as [Hin|[]]. discriminate.
  - destruct (1 <? startPage)%Z; [|destruct Hin].
    destruct Hin as [Hin|Hin]; [discriminate|].
    destruct (2 <? startPage)%Z; [|destruct Hin].
    destruct Hin as [Hin|[]]. discriminate.
  - apply In_Array_from in Hin. destruct Hin as (i & _ & Hin). discriminate.
  - destruct (endPage <? totalPages)%Z; [|destruct Hin].
    apply in_app_or in Hin. destruct Hin as [Hin|[Hin|[]]]; [|discriminate].
    destruct (endPage <? totalPages - 1)%Z; [|destruct Hin].
    destruct Hin as [Hin|[]]. discriminate.
  - destruct Hin as [Hin|[Hin|[]]]; [discriminate|].
    injection Hin as <- <- <-. repeat split.
Qed.

(** X14.  The label "first-last / total" of a pagination bar counts the rows on
    display: with the cursor on an existing page, [total] is the number of
    records, [first] is the number of the first record of the page,
    [(cursor - 1) * 20 + 1], and [last - first + 1] is the number of rows the
    table shows; for the main table's bar and for the modal's. *)
Theorem page_info_counts_rows (s : Component) :
  (1 <= mainTableCurrentPage s <= mainTotalPages s)%Z ->
  (1 <= modalCurrentPage s <= modalTotalPages s)%Z ->
  (forall items f l t,
     renderMainTablePagination s = Some items ->
     In (PageInfo f l t) items ->
     t = array_length (dataHistory s) /\
     f = ((mainTableCurrentPage s - 1) * 20 + 1)%Z /\
     (l - f + 1)%Z = array_length (mainCurrentData s) /\
     (1 <= f <= l)%Z /\ (l <= t)%Z) /\
  (forall items f l t,
     renderModalPagination s = Some items ->
     In (PageInfo f l t) items ->
     t = array_length (dataHistory s) /\
     f = ((modalCurrentPage s - 1) * 20 + 1)%Z /\
     (l - f + 1)%Z = array_length (modalCurrentData s) /\
     (1 <= f <= l)%Z /\ (l <= t)%Z).
Proof.
  intros Hmain Hmodal.
  pose proof (totalPages_ceil (dataHistory s)) as Hc. cbv zeta in Hc.
  fold (mainTotalPages s) in Hc. unfold itemsPerPage in Hc.
  split.
  - intros items f l t Hr Hin. unfold renderMainTablePagination in Hr.
    rewrite renderPagination_items in Hr.
    destruct (mainTotalPages s <=? 1)%Z; [discriminate|].
    injection Hr as <-. apply In_bar_items_PageInfo in Hin.
    destruct Hin as (-> & -> & ->).
    change (mainCurrentData s)
      with (page_at (dataHistory s) (mainTableCurrentPage s)).
    rewrite page_at_length by lia.
    unfold mainEndIndex, mainStartIndex, itemsPerPage. lia.
  - intros items f l t Hr Hin. unfold renderModalPagination in Hr.
    rewrite renderPagination_items in Hr.
    destruct (modalTotalPages s <=? 1)%Z; [discriminate|].
    injection Hr as <-. apply In_bar_items_PageInfo in Hin.
    destruct Hin as (-> & -> & ->).
    change (modalCurrentData s)
      with (page_at (dataHistory s) (modalCurrentPage s)).
    rewrite page_at_length by lia.
    change (modalTotalPages s) with (mainTotalPages s) in Hmodal.
    unfold modalEndIndex, modalStartIndex, itemsPerPage. lia.
Qed.

Lemma page_info_counts_rows_witness :
  let s := run mounted (StartSimulation :: repeat Tick 32
                        ++ [MainTablePageChange 2]) in
  32%Z = array_length (dataHistory s) /\
  21%Z = ((mainTableCurrentPage s - 1) * 20 + 1)%Z /\
  (32 - 21 + 1)%Z = array_length (mainCurrentData s) /\
  (1 <= 21 <= 32)%Z /\ (32 <= 32)%Z.
Proof.
  intro s.
  assert (Hmain : (1 <= mainTableCurrentPage s <= mainTotalPages s)%Z)
    by (vm_compute; intuition discriminate).
  assert (Hmodal : (1 <= modalCurrentPage s <= modalTotalPages s)%Z)
    by (vm_compute; intuition discriminate).
  assert (Hr : renderMainTablePagination s =
               Some [PrevButton false 1; PageButton 1 false; PageButton 2 true;
                     NextButton true 3; PageInfo 21 32 32])
    by (vm_compute; reflexivity).
  apply (proj1 (page_info_counts_rows s Hmain Hmodal) _ 21%Z 32%Z 32%Z Hr).
  right. right. right. right. left. reflexivity.
Defined.

(** ** Reading back what [toFixed] prints *)

Lemma span_digits_app (a r : string) :
  all_digits a = true -> starts_with_digit r = false ->
  JS.span_digits (a ++ r)%string = (a, r).
Proof.
  intros Ha Hr. induction a as [|c a IH].
  - cbn [append]. destruct r as [|d r]; [reflexivity|].
    cbn [starts_with_digit] in Hr. cbn [JS.span_digits]. rewrite Hr.
    reflexivity.
  - rewrite all_digits_cons in Ha. apply andb_true_iff in Ha.
    destruct Ha as [Hc Ha]. cbn [append JS.span_digits].
    rewrite Hc, (IH Ha). reflexivity.
Qed.

Lemma digits_value_app (acc : N) (a b : string) :
  JS.digits_value acc (a ++ b)%string =
  JS.digits_value (JS.digits_value acc a) b.
Proof.
  revert acc. induction a as [|c a IH]; intro acc; [reflexivity|].
  cbn [append JS.digits_value]. apply IH.
Qed.

Lemma digits_value_zeros (k : nat) : JS.digits_value 0 (JS.zeros k) = 0%N.
Proof. induction k as [|k IH]; [reflexivity | exact IH]. Qed.

Lemma digits_value_uint_acc (d : Decimal.uint) (p : positive) :
  JS.digits_value (Npos p) (NilEmpty.string_of_uint d) =
  Npos (Pos.of_uint_acc d p).
Proof.
  revert p. induction d; intro p;
    cbn [NilEmpty.string_of_uint JS.digits_value Pos.of_uint_acc];
    try reflexivity;
    match goal with
    | |- JS.digits_value ?a _ = N.pos (Pos.of_uint_acc _ ?q) =>
        replace a with (Npos q) by (vm_compute (N_of_ascii _); lia)
    end; apply IHd.
Qed.

Lemma digits_value_uint (d : Decimal.uint) :
  JS.digits_value 0 (NilEmpty.string_of_uint d) = Pos.of_uint d.
Proof.
  induction d; cbn [NilEmpty.string_of_uint JS.digits_value Pos.of_uint];
    try reflexivity; try exact IHd;
    match goal with
    | |- JS.digits_value ?a _ = N.pos (Pos.of_uint_acc _ ?q) =>
        change a with (Npos q)
    end; apply digits_value_uint_acc.
Qed.

Lemma digits_value_digits (n : N) : JS.digits_value 0 (JS.digits n) = n.
Proof.
  unfold JS.digits, NilZero.string_of_uint.
  rewrite <- (DecimalN.Unsigned.of_to n) at 2. unfold N.of_uint.
  destruct (N.to_uint n); [reflexivity | apply digits_value_uint ..].
Qed.

Lemma take_drop (k : nat) (s : string) :
  (JS.take k s ++ JS.drop k s)%string = s.
Proof.
  revert s. induction k as [|k IH]; intros [|c s]; try reflexivity.
  cbn [JS.take JS.drop append]. rewrite IH. reflexivity.
Qed.

Lemma length_drop (k : nat) (s : string) :
  String.length (JS.drop k s) = (String.length s - k)%nat.
Proof.
  revert s. induction k as [|k IH]; intros [|c s];
    cbn [JS.drop String.length]; try lia. apply IH.
Qed.

Lemma length_append (a b : string) :
  String.length (a ++ b)%string = (String.length a + String.length b)%nat.
Proof.
  induction a as [|c a IH]; [reflexivity|].
  cbn [append String.length]. rewrite IH. reflexivity.
Qed.

Lemma length_zeros (k : nat) : String.length (JS.zeros k) = k.
Proof. induction k as [|k IH]; [reflexivity|]. cbn. rewrite IH. reflexivity. Qed.

Lemma span_digits_all (a : string) :
  all_digits a = true -> JS.span_digits a = (a, EmptyString).
Proof.
  intro Ha. induction a as [|c a IH]; [reflexivity|].
  rewrite all_digits_cons in Ha. apply andb_true_iff in Ha.
  destruct Ha as [Hc Ha]. cbn [JS.span_digits]. rewrite Hc, (IH Ha).
  reflexivity.
Qed.

Lemma parse_unsigned_fixed (neg : bool) (ip fp : string) :
  all_digits ip = true -> ip <> EmptyString -> all_digits fp = true ->
  parse_unsigned neg (ip ++ String "." fp)%string =
  let v := inject_Z (Z.of_N (JS.digits_value 0 (ip ++ fp)%string))
           * JS.pow10 (0 - Z.of_nat (String.length fp)) in
  JS.Num (if neg then - v else v).
Proof.
  intros Hip Hne Hfp. unfold parse_unsigned.
  rewrite (span_digits_app ip (String "." fp) Hip eq_refl).
  rewrite (span_digits_all fp Hfp).
  destruct ip as [|c ip]; [congruence|]. reflexivity.
Qed.

Lemma parse_unsigned_integer (neg : bool) (ip : string) :
  all_digits ip = true -> ip <> EmptyString ->
  parse_unsigned neg ip =
  let v := inject_Z (Z.of_N (JS.digits_value 0 ip)) * JS.pow10 0 in
  JS.Num (if neg then - v else v).
Proof.
  intros Hip Hne. unfold parse_unsigned.
  rewrite (span_digits_all ip Hip).
  destruct ip as [|c ip]; [congruence|].
  cbn [JS.exponent_part String.length Z.of_nat Z.sub Z.opp].
  assert (E : (String c ip ++ "")%string = String c ip).
  { clear. generalize (String c ip) as s. intro s.
    induction s as [|d s IH]; [reflexivity|]. cbn [append]. rewrite IH.
    reflexivity. }
  rewrite E. reflexivity.
Qed.

Lemma round_half_up_nonneg (y : Q) : 0 <= y -> (0 <= JS.round_half_up y)%Z.
Proof.
  intro H. unfold JS.round_half_up.
  change 0%Z with (Qfloor 0). apply Qfloor_resp_le. lra.
Qed.

Lemma fixed_digits_spec (f : nat) (n : Z) :
  (0 <= n)%Z ->
  all_digits (fixed_digits f n) = true /\
  (f < String.length (fixed_digits f n))%nat /\
  JS.digits_value 0 (fixed_digits f n) = Z.to_N n.
Proof.
  intro Hn. unfold fixed_digits.
  pose proof (all_digits_digits (Z.to_N n)) as Hm.
  pose proof (digits_value_digits (Z.to_N n)) as Hv.
  destruct (String.length (JS.digits (Z.to_N n)) <=? f)%nat eqn:E.
  - apply Nat.leb_le in E. split; [|split].
    + rewrite all_digits_app, all_digits_zeros, Hm. reflexivity.
    + rewrite length_append, length_zeros. lia.
    + rewrite digits_value_app, digits_value_zeros. exact Hv.
  - apply Nat.leb_gt in E. split; [exact Hm|]. split; [exact E | exact Hv].
Qed.

Lemma toFixed_small (f : nat) (x : Q) :
  Qabs x < JS.pow10 21 ->
  JS.toFixed f x =
  ((if JS.Qlt_bool x 0 then "-" else "") ++
   match f with
   | O => JS.digits (Z.to_N (JS.round_half_up (Qabs x * JS.pow10 0)))
   | S _ =>
       let m := fixed_digits f
                  (JS.round_half_up (Qabs x * JS.pow10 (Z.of_nat f))) in
       JS.take (String.length m - f) m ++
       String "." (JS.drop (String.length m - f) m)
   end)%string.
Proof.
  intro H. unfold JS.toFixed.
  assert (E : Qle_bool (JS.pow10 21) (Qabs x) = false).
  { destruct (Qle_bool (JS.pow10 21) (Qabs x)) eqn:E; [|reflexivity].
    apply Qle_bool_iff in E. lra. }
  rewrite E. f_equal. destruct f as [|f]; [reflexivity|].
  unfold fixed_digits.
  set (m := JS.digits _).
  destruct (String.length m <=? S f)%nat eqn:Ek.
  - rewrite length_append, length_zeros. apply Nat.leb_le in Ek.
    replace (S f + 1 - String.length m + String.length m)%nat
      with (S f + 1)%nat by lia. reflexivity.
  - reflexivity.
Qed.

Lemma pow10_opp (f : nat) :
  JS.pow10 (0 - Z.of_nat f) == / JS.pow10 (Z.of_nat f).
Proof. unfold JS.pow10. rewrite Z.sub_0_l. apply Qpower_opp. Qed.

(** ** Parameters and the running simulation *)

Lemma same_simulation_tick (s1 s2 : Component) :
  same_simulation s1 s2 -> same_simulation (tick s1) (tick s2).
Proof.
  intros (H1 & H2 & H3 & H4 & H5 & H6 & H7).
  destruct (intervalRef s2) as [cl|] eqn:E2.
  2: { rewrite (tick_idle s2 E2), (tick_idle s1) by congruence.
       repeat split; congruence. }
  unfold tick. rewrite H4, E2. unfold intervalCallback.
  destruct (Qle_bool _ _); unfold same_simulation, bounceEffect, stopSimulation;
    cbn [intervalRef simulationState dataHistory trail bounceIntervals
         mainTableCurrentPage modalCurrentPage setDataHistory setTrail
         setSimulationState set_intervalRef set_bounceIntervals];
    rewrite H1, H2, H3, H5, H6, H7; repeat split.
Qed.

(** X17.  Editing a parameter does not touch a simulation that is running: the
    interval callback works on the values it captured at the start.  After
    any number of ticks the displayed state, the history, the trail and the
    timers are the same with and without the edit. *)
Theorem parameter_edits_spare_the_run (s : Component) (e : Event) (n : nat) :
  is_parameter_change e = true ->
  simulationState (ticks n (handle s e)) = simulationState (ticks n s) /\
  dataHistory (ticks n (handle s e)) = dataHistory (ticks n s) /\
  trail (ticks n (handle s e)) = trail (ticks n s) /\
  intervalRef (ticks n (handle s e)) = intervalRef (ticks n s) /\
  bounceIntervals (ticks n (handle s e)) = bounceIntervals (ticks n s).
Proof.
  intro He.
  assert (H : same_simulation (ticks n (handle s e)) (ticks n s)).
  { induction n as [|n IH].
    - destruct e; try discriminate He; repeat split.
    - cbn [ticks]. apply same_simulation_tick, IH. }
  destruct H as (H1 & H2 & H3 & H4 & H5 & _).
  repeat split; assumption.
Qed.

Lemma parameter_edits_spare_the_run_witness :
  let s := ticks 3 (startSimulation mounted) in
  let e := ChangeInitialHeight "7"%string in
  simulationState (ticks 5 (handle s e)) = simulationState (ticks 5 s) /\
  dataHistory (ticks 5 (handle s e)) = dataHistory (ticks 5 s) /\
  trail (ticks 5 (handle s e)) = trail (ticks 5 s) /\
  intervalRef (ticks 5 (handle s e)) = intervalRef (ticks 5 s) /\
  bounceIntervals (ticks 5 (handle s e)) = bounceIntervals (ticks 5 s).
Proof.
  intros s e. apply (parameter_edits_spare_the_run s e 5). reflexivity.
Defined.

Lemma clamp_spec (lo : Q) (value : string) :
  0 < lo ->
  JS.Math_max lo (JS.or_default (JS.parseFloat value) lo) =
  clamped_input lo value.
Proof.
  intro Hlo. unfold clamped_input, JS.or_default, JS.Math_max.
  destruct (JS.parseFloat value) as [|q].
  - assert (E : Qle_bool lo lo = true) by (apply Qle_bool_iff, Qle_refl).
    rewrite E. reflexivity.
  - destruct (Qeq_bool q 0) eqn:E0.
    + apply Qeq_bool_eq in E0.
      assert (E : Qle_bool lo lo = true) by (apply Qle_bool_iff, Qle_refl).
      rewrite E.
      destruct (Qle_bool lo q) eqn:E1; [|reflexivity].
      apply Qle_bool_iff in E1. lra.
    + destruct (Qle_bool lo q); reflexivity.
Qed.

(** X18.  What the parameter inputs accept.  The height, mass and custom-gravity
    inputs store the number typed when it is at least the minimum (1, 0.1 and
    0.1) and the minimum otherwise: for a smaller number, for zero, and for
    text that [parseFloat] cannot read.  The velocity input stores any number
    typed, negative ones too, and 0 for unreadable text.  No input touches
    anything but its own parameter. *)
Theorem inputs_clamp (value : string) (s : Component) :
  initialHeight (onChangeInitialHeight value s) = clamped_input 1 value /\
  mass (onChangeMass value s) = clamped_input (1 # 10) value /\
  customGravity (onChangeCustomGravity value s) =
    clamped_input (1 # 10) value /\
  initialVelocity (onChangeInitialVelocity value s) =
    match JS.parseFloat value with
    | JS.NaN => 0
    | JS.Num q => if Qeq_bool q 0 then 0 else q
    end /\
  same_simulation (onChangeInitialHeight value s) s /\
  same_simulation (onChangeMass value s) s /\
  same_simulation (onChangeCustomGravity value s) s /\
  same_simulation (onChangeInitialVelocity value s) s.
Proof.
  unfold onChangeInitialHeight, onChangeMass, onChangeCustomGravity,
    onChangeInitialVelocity.
  cbn [initialHeight mass customGravity initialVelocity setInitialHeight
       setMass setCustomGravity setInitialVelocity].
  rewrite (clamp_spec 1 value ltac:(reflexivity)).
  rewrite (clamp_spec (1 # 10) value ltac:(reflexivity)).
  repeat split.
Qed.

(** ** The history is append-only *)

(** X19.  No event rewrites a record.  Every event leaves the history as it is,
    appends one record at its end, or empties it; only a tick appends and
    only [startSimulation] and [restartSimulation] empty it. *)
Theorem history_append_only (s : Component) (e : Event) :
  (dataHistory (handle s e) = dataHistory s) \/
  (e = Tick /\ exists row, dataHistory (handle s e) = dataHistory s ++ [row]) \/
  ((e = StartSimulation \/ e = RestartSimulation) /\
   dataHistory (handle s e) = []).
Proof.
  destruct e as [| | | |i| | | | |page|page|v|v|v|p|v]; cbn [handle];
    try (left; reflexivity).
  - unfold startSimulation.
    destruct (SimulationState.isRunning (simulationState s));
      [left; reflexivity|].
    right. right. split; [left; reflexivity | reflexivity].
  - left. unfold stopSimulation. destruct (intervalRef s); reflexivity.
  - right. right. split; [right; reflexivity | reflexivity].
  - destruct (intervalRef s) as [cl|] eqn:Hi.
    + right. left. split; [reflexivity|].
      exists (newData_at cl (c_time cl + (1 # 10))).
      apply dataHistory_tick, Hi.
    + left. rewrite (tick_idle s Hi). reflexivity.
  - left. apply dataHistory_bounceCallback.
  - left. unfold downloadCSV. destruct (_ =? _)%Z; reflexivity.
  - left. unfold handleMainTablePageChange. destruct (_ && _); reflexivity.
  - left. unfold handleModalPageChange. destruct (_ && _); reflexivity.
Qed.

(** ** The trail as it is drawn *)

Lemma drawTrail_from_nth (index length : Z) (trail : list Q) (i : nat) :
  nth_error (drawTrail_from index length trail) i =
  option_map
    (fun yPos =>
       let k := (index + Z.of_nat i)%Z in
       mkDot yPos ((inject_Z k / inject_Z length) * (4 # 1) + 1)
         ((inject_Z k / inject_Z length) * (6 # 10)))
    (nth_error trail i).
Proof.
  revert index i. induction trail as [|y trail IH]; intros index i.
  - destruct i; reflexivity.
  - destruct i as [|i].
    + cbn [drawTrail_from nth_error option_map Z.of_nat].
      rewrite Z.add_0_r. reflexivity.
    + cbn [drawTrail_from nth_error]. rewrite IH. cbv zeta.
      replace (index + 1 + Z.of_nat i)%Z with (index + Z.of_nat (S i))%Z
        by lia.
      reflexivity.
Qed.

(** X20.  [drawTrail] draws one dot per trail entry, at the entry's height.  Dot
    [i] of [n] has alpha [0.6 * i / n] and radius [1 + 4 * i / n]: the dots
    get more opaque and larger towards the newest one, the alpha stays below
    0.6 and the radius below 5, and the oldest dot has alpha 0, so it is
    not visible. *)
Theorem drawTrail_fades (trail : list Q) (i : nat) (y : Q) :
  nth_error trail i = Some y ->
  let n := inject_Z (array_length trail) in
  exists dot,
    nth_error (drawTrail trail) i = Some dot /\
    List.length (drawTrail trail) = List.length trail /\
    dot_y dot = y /\
    dot_alpha dot == (6 # 10) * inject_Z (Z.of_nat i) / n /\
    dot_radius dot == 1 + (4 # 1) * inject_Z (Z.of_nat i) / n /\
    0 <= dot_alpha dot /\ dot_alpha dot < 6 # 10 /\
    1 <= dot_radius dot /\ dot_radius dot < 5 # 1 /\
    (i = 0%nat -> dot_alpha dot == 0).
Proof.
  intros Hy n. unfold drawTrail.
  assert (Hi : (i < List.length trail)%nat)
    by (apply nth_error_Some; rewrite Hy; discriminate).
  assert (Hlen : forall index length l,
            List.length (drawTrail_from index length l) = List.length l).
  { intros index length l. revert index.
    induction l as [|z l IH]; intro index; [reflexivity|].
    cbn [drawTrail_from List.length]. rewrite IH. reflexivity. }
  eexists. split.
  - rewrite drawTrail_from_nth, Hy. cbn [option_map]. reflexivity.
  - cbv zeta. rewrite Z.add_0_l.
    cbn [dot_y dot_alpha dot_radius].
    set (a := inject_Z (Z.of_nat i)).
    assert (Hn : 0 < n).
    { unfold n, array_length. change 0 with (inject_Z 0).
      rewrite <- Zlt_Qlt. lia. }
    assert (Ha0 : 0 <= a)
      by (unfold a; change 0 with (inject_Z 0); rewrite <- Zle_Qle; lia).
    assert (Han : a < n)
      by (unfold a, n, array_length; rewrite <- Zlt_Qlt; lia).
    assert (Hq0 : 0 <= a / n).
    { apply Qle_shift_div_l; [exact Hn|]. lra. }
    assert (Hq1 : a / n < 1).
    { apply Qlt_shift_div_r; [exact Hn|]. lra. }
    fold n.
    assert (Hnz : ~ n == 0) by (intro E; rewrite E in Hn; apply (Qlt_irrefl 0 Hn)).
    split; [apply Hlen|]. split; [reflexivity|].
    split; [field; exact Hnz|]. split; [field; exact Hnz|].
    split; [lra|]. split; [lra|]. split; [lra|]. split; [lra|].
    intros ->. unfold a. cbn [Z.of_nat inject_Z]. unfold Qdiv. ring.
Qed.

Lemma drawTrail_fades_witness :
  let trail := [266 # 1; 267 # 1; 270 # 1] in
  let n := inject_Z (array_length trail) in
  exists dot,
    nth_error (drawTrail trail) 2 = Some dot /\
    List.length (drawTrail trail) = List.length trail /\
    dot_y dot = 270 # 1 /\
    dot_alpha dot == (6 # 10) * inject_Z (Z.of_nat 2) / n /\
    dot_radius dot == 1 + (4 # 1) * inject_Z (Z.of_nat 2) / n /\
    0 <= dot_alpha dot /\ dot_alpha dot < 6 # 10 /\
    1 <= dot_radius dot /\ dot_radius dot < 5 # 1 /\
    (2%nat = 0%nat -> dot_alpha dot == 0).
Proof.
  intro trail. apply (drawTrail_fades trail 2 (270 # 1)). reflexivity.
Defined.

(** ** Doubles: signs and printed digits *)

Lemma lit_0 : Dbl.lit 0 = S754_zero false.
Proof. reflexivity. Qed.

Lemma sign_bit_Math_max_0 (x : Dbl.number) :
  Dbl.sign_bit (Dbl.Math_max (Dbl.lit 0) x) = false.
Proof.
  rewrite lit_0. destruct x as [[|]|[|]| |[|] m e]; reflexivity.
Qed.

Lemma sign_bit_with_sign (x : Dbl.number) :
  Dbl.sign_bit (Dbl.with_sign false x) = false.
Proof. destruct x; reflexivity. Qed.

Lemma sign_bit_not_negative (x : Dbl.number) :
  Dbl.sign_bit x = false -> Dbl.not_negative x.
Proof.
  unfold Dbl.not_negative. rewrite lit_0.
  destruct x as [[|]|[|]| |[|] m e]; intro H; try discriminate H; reflexivity.
Qed.

Lemma to_Q_nonneg (x : Dbl.number) : Dbl.sign_bit x = false -> 0 <= Dbl.to_Q x.
Proof.
  destruct x as [s|s| |s m e]; cbn [Dbl.sign_bit Dbl.to_Q]; intro H;
    try apply Qle_refl.
  rewrite H. apply Qmult_le_0_compat; [discriminate|].
  apply Qlt_le_weak, Qpower_0_lt. reflexivity.
Qed.

Lemma dbl_toString_starts (m : positive) (e : Z) :
  starts_with_digit (Dbl.toString (S754_finite false m e)) = true.
Proof.
  unfold Dbl.toString. destruct (Dbl.shortest _) as [d ex].
  apply print_decimal_starts_with_digit.
Qed.

(** What [toFixed] prints for a number without sign bit: ["NaN"],
    ["Infinity"], or a string that starts with a digit. *)
Lemma dbl_toFixed_cases (f : nat) (x : Dbl.number) :
  Dbl.sign_bit x = false ->
  x = S754_nan \/ x = S754_infinity false \/
  starts_with_digit (Dbl.toFixed f x) = true.
Proof.
  intro H. destruct x as [s|s| |s m e]; cbn [Dbl.sign_bit] in H.
  - right. right. cbn [Dbl.toFixed]. apply toFixed_starts_with_digit, Qle_refl.
  - right. left. rewrite H. reflexivity.
  - left. reflexivity.
  - right. right. subst s. unfold Dbl.toFixed. destruct (Qle_bool _ _).
    + apply dbl_toString_starts.
    + apply toFixed_starts_with_digit, (to_Q_nonneg (S754_finite false m e)).
      reflexivity.
Qed.

Lemma dbl_parseFloat_digit (s : string) :
  starts_with_digit s = true ->
  Dbl.parseFloat s =
    match parse_unsigned false s with
    | JS.NaN => S754_nan
    | JS.Num q => Dbl.with_sign false (Dbl.of_Q q)
    end.
Proof.
  destruct s as [|c s]; [discriminate|]. cbn [starts_with_digit]. intro Hc.
  destruct (is_digit_cases c Hc)
    as [->|[->|[->|[->|[->|[->|[->|[->|[->| ->]]]]]]]]]; reflexivity.
Qed.

(** Reading back what [toFixed] printed for a number without sign bit gives
    a number without sign bit. *)
Lemma sign_bit_parseFloat_toFixed (f : nat) (x : Dbl.number) :
  Dbl.sign_bit x = false ->
  Dbl.sign_bit (Dbl.parseFloat (Dbl.toFixed f x)) = false.
Proof.
  intro H. destruct (dbl_toFixed_cases f x H) as [-> | [-> | Hd]];
    [reflexivity | reflexivity |].
  rewrite (dbl_parseFloat_digit _ Hd).
  destruct (parse_unsigned false _); [reflexivity | apply sign_bit_with_sign].
Qed.

Lemma dbl_height_not_negative (cl : Dbl.TickClosure) (t : Dbl.number) :
  Dbl.not_negative (Dbl.SimulationData.height (Dbl.newData_at cl t)).
Proof.
  cbn [Dbl.newData_at Dbl.SimulationData.height].
  apply sign_bit_not_negative, sign_bit_parseFloat_toFixed.
  apply sign_bit_Math_max_0.
Qed.

(** ** Doubles: one tick of the driver *)

Lemma dbl_tick_fields (s : Dbl.Component) (cl : Dbl.TickClosure) :
  Dbl.intervalRef s = Some cl ->
  Dbl.SimulationState.isRunning (Dbl.simulationState s) = true ->
  let t := Dbl.add (Dbl.c_time cl) (Dbl.lit (1 # 10)) in
  let g := Dbl.leb (Dbl.currentHeight_at cl t) Dbl.epsilon in
  Dbl.simulationState (Dbl.tick s) = Dbl.running_state (negb g) cl t /\
  Dbl.dataHistory (Dbl.tick s) = Dbl.dataHistory s ++ [Dbl.newData_at cl t] /\
  Dbl.intervalRef (Dbl.tick s) =
    (if g then None
     else Some (Dbl.mkTick (Dbl.c_initialVelocity cl) (Dbl.c_initialHeight cl)
                  (Dbl.c_mass cl) (Dbl.c_gravity cl) (Dbl.c_ballRadius cl)
                  (Dbl.c_initialBallY cl) t)) /\
  Dbl.bounceIntervals (Dbl.tick s) =
    (if g then Dbl.bounceIntervals s ++ [Dbl.mkBounce (Dbl.c_ballRadius cl) 0]
     else Dbl.bounceIntervals s).
Proof.
  intros Hi Hr t g. unfold Dbl.tick. rewrite Hi. unfold Dbl.intervalCallback.
  fold t. fold Dbl.epsilon. fold g.
  destruct g;
    cbn [Dbl.bounceEffect Dbl.stopSimulation Dbl.setSimulationState
         Dbl.setDataHistory Dbl.setTrail Dbl.set_intervalRef
         Dbl.set_bounceIntervals Dbl.simulationState Dbl.dataHistory
         Dbl.intervalRef Dbl.bounceIntervals Dbl.running_state negb
         Dbl.SimulationState.isRunning Dbl.SimulationState.time
         Dbl.SimulationState.currentHeight
         Dbl.SimulationState.currentVelocity
         Dbl.SimulationState.displacement Dbl.SimulationState.ballY];
    rewrite ?Hr; repeat split; reflexivity.
Qed.

Lemma dbl_tick_idle (s : Dbl.Component) :
  Dbl.intervalRef s = None -> Dbl.tick s = s.
Proof. intro H. unfold Dbl.tick. rewrite H. reflexivity. Qed.

Lemma dbl_ticks_idle (s : Dbl.Component) (n : nat) :
  Dbl.intervalRef s = None -> Dbl.ticks n s = s.
Proof.
  intro H. induction n as [|n IH]; [reflexivity|].
  cbn [Dbl.ticks]. rewrite IH. apply dbl_tick_idle, H.
Qed.

Lemma dbl_ticks_add (n k : nat) (s : Dbl.Component) :
  Dbl.ticks (n + k) s = Dbl.ticks k (Dbl.ticks n s).
Proof.
  induction k as [|k IH].
  - rewrite Nat.add_0_r. reflexivity.
  - rewrite Nat.add_succ_r. cbn [Dbl.ticks]. rewrite IH. reflexivity.
Qed.

Lemma dbl_airborne_before_correct (s : Dbl.Component) (n : nat) :
  Dbl.airborne_before s n = true ->
  forall m, (1 <= m < n)%nat -> Dbl.grounded s m = false.
Proof.
  unfold Dbl.airborne_before. rewrite forallb_forall. intros H m Hm.
  apply negb_true_iff, H, in_seq. lia.
Qed.

(** ** Doubles: a run *)

Section DblRun.

Variable s : Dbl.Component.
Hypothesis idle :
  Dbl.SimulationState.isRunning (Dbl.simulationState s) = false.

Let cl0 : Dbl.TickClosure := Dbl.closure_at s (Dbl.lit 0).

Lemma dbl_start_fields :
  Dbl.simulationState (Dbl.startSimulation s) =
    Dbl.SimulationState.mk true (Dbl.lit 0) (Dbl.initialHeight s)
      (Dbl.initialVelocity s) (Dbl.lit 0) (Dbl.calculateInitialBallY s) /\
  Dbl.dataHistory (Dbl.startSimulation s) = [] /\
  Dbl.trail (Dbl.startSimulation s) = [] /\
  Dbl.intervalRef (Dbl.startSimulation s) = Some cl0 /\
  Dbl.bounceIntervals (Dbl.startSimulation s) = Dbl.bounceIntervals s.
Proof.
  unfold Dbl.startSimulation. rewrite idle. repeat split; reflexivity.
Qed.

(** While no tick has found the ball on the ground the interval stays set,
    every tick has appended its record and no bounce has started. *)
Lemma dbl_run_airborne (n : nat) :
  (forall m, (1 <= m <= n)%nat -> Dbl.grounded s m = false) ->
  Dbl.intervalRef (Dbl.ticks n (Dbl.startSimulation s)) =
    Some (Dbl.closure_at s (Dbl.tick_time n)) /\
  Dbl.SimulationState.isRunning
    (Dbl.simulationState (Dbl.ticks n (Dbl.startSimulation s))) = true /\
  Dbl.dataHistory (Dbl.ticks n (Dbl.startSimulation s)) =
    map (fun m => Dbl.newData_at cl0 (Dbl.tick_time m)) (seq 1 n) /\
  Dbl.bounceIntervals (Dbl.ticks n (Dbl.startSimulation s)) =
    Dbl.bounceIntervals s.
Proof.
  induction n as [|n IH]; intro Hair.
  - cbn [Dbl.ticks Dbl.tick_time seq map].
    destruct dbl_start_fields as (Hs & Hd & _ & Hi & Hb).
    rewrite Hs, Hd, Hi, Hb. repeat split; reflexivity.
  - destruct IH as (Hi & Hr & Hd & Hb); [intros m Hm; apply Hair; lia|].
    cbn [Dbl.ticks].
    destruct (dbl_tick_fields _ _ Hi Hr) as (Hs' & Hd' & Hi' & Hb').
    assert (Hg : Dbl.grounded s (S n) = false) by (apply Hair; lia).
    cbn [Dbl.c_time Dbl.closure_at] in Hs', Hd', Hi', Hb'.
    change (Dbl.add (Dbl.tick_time n) (Dbl.lit (1 # 10)))
      with (Dbl.tick_time (S n)) in Hs', Hd', Hi', Hb'.
    change (Dbl.leb _ Dbl.epsilon) with (Dbl.grounded s (S n))
      in Hs', Hi', Hb'.
    rewrite Hg in Hs', Hi', Hb'. rewrite Hs', Hd', Hi', Hb', Hd, Hb.
    repeat split; try reflexivity.
    rewrite seq_S, map_app. reflexivity.
Qed.

(** The state after the [n]-th tick, when the ticks before it have all found
    the ball in the air. *)
Lemma dbl_run_tick (n : nat) :
  (forall m, (1 <= m <= n)%nat -> Dbl.grounded s m = false) ->
  let t := Dbl.tick_time (S n) in
  let g := Dbl.grounded s (S n) in
  let sn := Dbl.ticks (S n) (Dbl.startSimulation s) in
  Dbl.simulationState sn = Dbl.running_state (negb g) cl0 t /\
  Dbl.dataHistory sn =
    map (fun m => Dbl.newData_at cl0 (Dbl.tick_time m)) (seq 1 (S n)) /\
  Dbl.intervalRef sn = (if g then None else Some (Dbl.closure_at s t)) /\
  Dbl.bounceIntervals sn =
    (if g then Dbl.bounceIntervals s ++ [Dbl.mkBounce (Dbl.ballRadius s) 0]
     else Dbl.bounceIntervals s).
Proof.
  intros Hair t g sn.
  destruct (dbl_run_airborne n Hair) as (Hi & Hr & Hd & Hb).
  subst sn. cbn [Dbl.ticks].
  destruct (dbl_tick_fields _ _ Hi Hr) as (Hs' & Hd' & Hi' & Hb').
  cbn [Dbl.c_time Dbl.closure_at Dbl.c_ballRadius] in Hs', Hd', Hi', Hb'.
  change (Dbl.add (Dbl.tick_time n) (Dbl.lit (1 # 10)))
    with (Dbl.tick_time (S n)) in Hs', Hd', Hi', Hb'.
  change (Dbl.leb _ Dbl.epsilon) with (Dbl.grounded s (S n)) in Hs', Hi', Hb'.
  fold t in Hs', Hd', Hi', Hb'. fold g in Hs', Hi', Hb'.
  rewrite Hs', Hd', Hi', Hb', Hd, Hb. repeat split; try reflexivity.
  rewrite seq_S, map_app. reflexivity.
Qed.

End DblRun.

(** ** Doubles: the kinematics of a tick *)




(** ** Doubles: the history of a mounted component *)

Lemma dbl_dataHistory_tick (s : Dbl.Component) (cl : Dbl.TickClosure) :
  Dbl.intervalRef s = Some cl ->
  Dbl.dataHistory (Dbl.tick s) =
    Dbl.dataHistory s ++
    [Dbl.newData_at cl (Dbl.add (Dbl.c_time cl) (Dbl.lit (1 # 10)))].
Proof.
  intro Hi. unfold Dbl.tick. rewrite Hi. unfold Dbl.intervalCallback.
  destruct (Dbl.leb _ _); reflexivity.
Qed.

Lemma dbl_dataHistory_bounceCallback (i : nat) (s : Dbl.Component) :
  Dbl.dataHistory (Dbl.bounceCallback i s) = Dbl.dataHistory s.
Proof.
  unfold Dbl.bounceCallback. destruct (nth_error _ i); [|reflexivity].
  destruct (6 <=? _)%Z; reflexivity.
Qed.

Lemma dbl_heights_step (s : Dbl.Component) (e : Event) :
  Dbl.heights_not_negative s -> Dbl.heights_not_negative (Dbl.handle s e).
Proof.
  unfold Dbl.heights_not_negative. intro H.
  destruct e as [| | | |i| | | | |page|page|v|v|v|p|v]; cbn [Dbl.handle];
    try exact H.
  - unfold Dbl.startSimulation.
    destruct (Dbl.SimulationState.isRunning (Dbl.simulationState s));
      [exact H | constructor].
  - unfold Dbl.stopSimulation. destruct (Dbl.intervalRef s); exact H.
  - constructor.
  - destruct (Dbl.intervalRef s) as [cl|] eqn:Hi.
    + rewrite (dbl_dataHistory_tick s cl Hi). apply Forall_app.
      split; [exact H|].
      constructor; [apply dbl_height_not_negative | constructor].
    + rewrite (dbl_tick_idle s Hi). exact H.
  - rewrite dbl_dataHistory_bounceCallback. exact H.
  - unfold Dbl.downloadCSV. destruct (_ =? _)%Z; exact H.
  - unfold Dbl.handleMainTablePageChange. destruct (_ && _); exact H.
  - unfold Dbl.handleModalPageChange. destruct (_ && _); exact H.
Qed.

Lemma dbl_heights_run (es : list Event) (s : Dbl.Component) :
  Dbl.heights_not_negative s -> Dbl.heights_not_negative (Dbl.run s es).
Proof.
  unfold Dbl.run. revert s.
  induction es as [|e es IH]; intros s H; [exact H|].
  cbn [fold_left]. apply IH, dbl_heights_step, H.
Qed.

(** ** Doubles: stopping at the ground *)

(** C2.  In a run, let the ticks before the [n]-th all have computed a height
    above epsilon = 0.001 and the [n]-th a height of at most epsilon, the
    heights and the comparison being those of the code, on doubles.  Then
    the driver is live up to that tick and stopped by it: before it the
    interval is set and [isRunning] holds, after it the interval is cleared
    and [isRunning] is false, the history has the [n] records of the ticks
    executed, and later firings of the timer change nothing.  And whatever
    happens to a mounted component, no record of its history has a height
    below zero. *)
Theorem C2_stops_at_first_grounded_tick :
  (forall (s : Dbl.Component) (n : nat),
     Dbl.SimulationState.isRunning (Dbl.simulationState s) = false ->
     (1 <= n)%nat ->
     (forall m, (1 <= m < n)%nat -> Dbl.grounded s m = false) ->
     Dbl.grounded s n = true ->
     let after m := Dbl.ticks m (Dbl.startSimulation s) in
     let height m :=
       Dbl.SimulationState.currentHeight (Dbl.simulationState (after m)) in
     (forall m, (m < n)%nat ->
        Dbl.intervalRef (after m) <> None /\
        Dbl.SimulationState.isRunning (Dbl.simulationState (after m)) = true) /\
     (forall m, (1 <= m < n)%nat -> Dbl.leb (height m) Dbl.epsilon = false) /\
     Dbl.leb (height n) Dbl.epsilon = true /\
     Dbl.intervalRef (after n) = None /\
     Dbl.SimulationState.isRunning (Dbl.simulationState (after n)) = false /\
     List.length (Dbl.dataHistory (after n)) = n /\
     (forall k, after (n + k)%nat = after n)) /\
  (forall (es : list Event) (row : Dbl.SimulationData.t),
     In row (Dbl.dataHistory (Dbl.run Dbl.mounted es)) ->
     Dbl.ltb (Dbl.SimulationData.height row) (Dbl.lit 0) = false).
Proof.
  split.
  - intros s n idle Hn Hair Hground after height.
    assert (Hg : forall j, (j < n)%nat -> forall m, (1 <= m <= j)%nat ->
                   Dbl.grounded s m = false).
    { intros j Hj m Hm. apply Hair. lia. }
    assert (Hh : forall m, (1 <= m <= n)%nat ->
                   Dbl.leb (height m) Dbl.epsilon = Dbl.grounded s m).
    { intros [|m] Hm; [lia|]. subst height after. cbn beta.
      destruct (dbl_run_tick s idle m) as (Hs & _);
        [intros j Hj; apply Hair; lia|].
      rewrite Hs. reflexivity. }
    split; [|split; [|split]].
    + intros m Hm.
      destruct (dbl_run_airborne s idle m (Hg m Hm)) as (Hi & Hr & _).
      subst after. cbn beta. rewrite Hi, Hr.
      split; [discriminate | reflexivity].
    + intros m Hm. rewrite Hh by lia. apply Hair, Hm.
    + rewrite Hh by lia. exact Hground.
    + destruct n as [|n]; [lia|].
      destruct (dbl_run_tick s idle n (Hg n (Nat.lt_succ_diag_r n)))
        as (Hs & Hd & Hi & _).
      rewrite Hground in Hs, Hi. subst after. cbn beta.
      split; [exact Hi|]. split; [rewrite Hs; reflexivity|].
      split; [rewrite Hd, length_map, length_seq; reflexivity|].
      intro k. rewrite dbl_ticks_add. apply dbl_ticks_idle, Hi.
  - intros es row Hin.
    assert (H : Dbl.heights_not_negative (Dbl.run Dbl.mounted es))
      by (apply dbl_heights_run; constructor).
    unfold Dbl.heights_not_negative in H. rewrite Forall_forall in H.
    apply H, Hin.
Qed.

Lemma C2_stops_at_first_grounded_tick_witness :
  let s :=
    Dbl.run Dbl.mounted
      [ChangeInitialHeight "1"; ChangePlanet custom;
       ChangeCustomGravity "5.55"] in
  let after m := Dbl.ticks m (Dbl.startSimulation s) in
  let height m :=
    Dbl.SimulationState.currentHeight (Dbl.simulationState (after m)) in
  (forall m, (m < 7)%nat ->
     Dbl.intervalRef (after m) <> None /\
     Dbl.SimulationState.isRunning (Dbl.simulationState (after m)) = true) /\
  (forall m, (1 <= m < 7)%nat -> Dbl.leb (height m) Dbl.epsilon = false) /\
  Dbl.leb (height 7%nat) Dbl.epsilon = true /\
  Dbl.intervalRef (after 7%nat) = None /\
  Dbl.SimulationState.isRunning (Dbl.simulationState (after 7%nat)) = false /\
  List.length (Dbl.dataHistory (after 7%nat)) = 7%nat /\
  (forall k, after (7 + k)%nat = after 7%nat).
Proof.
  intro s. apply (proj1 C2_stops_at_first_grounded_tick s 7%nat).
  - reflexivity.
  - lia.
  - apply dbl_airborne_before_correct. vm_compute. reflexivity.
  - vm_compute. reflexivity.
Defined.

(** ** Doubles: the history during a run and after a reset *)

(** C8.  After [k] ticks of a run, no tick before the [k]-th having found the
    ball on the ground (by the code's own test, on doubles), the history
    holds exactly [k] records: the record of tick 1, then that of tick 2, and
    so on, each tick having appended its own at the end.  After
    [restartSimulation], in whatever state it is called, the history is
    empty. *)
Theorem C8_history_length_and_reset :
  (forall (s : Dbl.Component) (k : nat),
     Dbl.SimulationState.isRunning (Dbl.simulationState s) = false ->
     (forall m, (1 <= m < k)%nat -> Dbl.grounded s m = false) ->
     let after m := Dbl.ticks m (Dbl.startSimulation s) in
     let record m :=
       Dbl.newData_at (Dbl.closure_at s (Dbl.lit 0)) (Dbl.tick_time m) in
     List.length (Dbl.dataHistory (after k)) = k /\
     Dbl.dataHistory (after k) = map record (seq 1 k) /\
     (forall j, (j < k)%nat ->
        Dbl.dataHistory (after (S j)) =
        Dbl.dataHistory (after j) ++ [record (S j)])) /\
  (forall s : Dbl.Component,
     List.length (Dbl.dataHistory (Dbl.restartSimulation s)) = 0%nat).
Proof.
  split; [|intro s; reflexivity].
  intros s k idle Hair after record.
  assert (Hd : forall j, (j <= k)%nat ->
                 Dbl.dataHistory (after j) = map record (seq 1 j)).
  { intros [|j] Hj.
    - subst after. cbn [Dbl.ticks]. apply (dbl_start_fields s idle).
    - apply (dbl_run_tick s idle j). intros m Hm. apply Hair. lia. }
  split; [|split].
  - rewrite (Hd k (le_n k)), length_map, length_seq. reflexivity.
  - apply Hd, le_n.
  - intros j Hj. rewrite (Hd (S j)), (Hd j) by lia.
    rewrite seq_S, map_app. reflexivity.
Qed.

Lemma C8_history_length_and_reset_witness :
  let s :=
    Dbl.run Dbl.mounted
      [ChangeInitialHeight "1.0000000000000001"; ChangePlanet custom;
       ChangeCustomGravity "22.2"] in
  let after m := Dbl.ticks m (Dbl.startSimulation s) in
  let record m :=
    Dbl.newData_at (Dbl.closure_at s (Dbl.lit 0)) (Dbl.tick_time m) in
  (List.length (Dbl.dataHistory (after 3%nat)) = 3%nat /\
   Dbl.dataHistory (after 3%nat) = map record (seq 1 3) /\
   (forall j, (j < 3)%nat ->
      Dbl.dataHistory (after (S j)) =
      Dbl.dataHistory (after j) ++ [record (S j)])) /\
  Dbl.SimulationState.isRunning (Dbl.simulationState (after 2%nat)) = true /\
  List.length (Dbl.dataHistory (after 2%nat)) = 2%nat /\
  List.length (Dbl.dataHistory (Dbl.restartSimulation (after 2%nat))) = 0%nat.
Proof.
  intros s after record. split; [|split; [|split]].
  - apply (proj1 C8_history_length_and_reset s 3%nat).
    + reflexivity.
    + apply dbl_airborne_before_correct. vm_compute. reflexivity.
  - vm_compute. reflexivity.
  - vm_compute. reflexivity.
  - apply (proj2 C8_history_length_and_reset (after 2%nat)).
Defined.

(** ** Doubles: landing and the bounce *)

Lemma dbl_bounce_frame_refl (s : Dbl.Component) : Dbl.bounce_frame s s.
Proof. repeat split. Qed.

Lemma dbl_bounce_frame_trans (s1 s2 s3 : Dbl.Component) :
  Dbl.bounce_frame s1 s2 -> Dbl.bounce_frame s2 s3 -> Dbl.bounce_frame s1 s3.
Proof.
  unfold Dbl.bounce_frame.
  intros (A1 & A2 & A3 & A4 & A5 & A6 & A7 & A8)
         (B1 & B2 & B3 & B4 & B5 & B6 & B7 & B8).
  repeat split; etransitivity; eassumption.
Qed.

Lemma dbl_bounceCallback_frame (i : nat) (s : Dbl.Component) :
  Dbl.bounce_frame s (Dbl.bounceCallback i s).
Proof.
  unfold Dbl.bounceCallback.
  destruct (nth_error _ i); [|apply dbl_bounce_frame_refl].
  destruct (6 <=? _)%Z; repeat split.
Qed.

(** A firing that is not the last: the counter goes up and the ball is shown
    where the incremented counter says. *)
Lemma dbl_bounceCallback_step (i : nat) (s : Dbl.Component) (r : Dbl.number)
    (c : Z) :
  nth_error (Dbl.bounceIntervals s) i = Some (Dbl.mkBounce r c) ->
  (c + 1 < 6)%Z ->
  Dbl.bounceIntervals (Dbl.bounceCallback i s) =
    replace_nth i (Dbl.mkBounce r (c + 1)) (Dbl.bounceIntervals s) /\
  Dbl.SimulationState.ballY (Dbl.simulationState (Dbl.bounceCallback i s)) =
    if ((c + 1) mod 2 =? 0)%Z
    then Dbl.sub (Dbl.groundY r) (Dbl.lit (10 # 1))
    else Dbl.groundY r.
Proof.
  intros Hn Hc. unfold Dbl.bounceCallback. rewrite Hn.
  cbn [Dbl.b_ballRadius Dbl.bounceCount].
  assert (E : (6 <=? c + 1)%Z = false) by (apply Z.leb_gt; exact Hc).
  rewrite E. split; reflexivity.
Qed.

Lemma dbl_bounceCallback_last (i : nat) (s : Dbl.Component) (r : Dbl.number)
    (c : Z) :
  nth_error (Dbl.bounceIntervals s) i = Some (Dbl.mkBounce r c) ->
  (6 <= c + 1)%Z ->
  Dbl.bounceIntervals (Dbl.bounceCallback i s) =
    remove_nth i (Dbl.bounceIntervals s) /\
  Dbl.SimulationState.ballY (Dbl.simulationState (Dbl.bounceCallback i s)) =
    Dbl.groundY r.
Proof.
  intros Hn Hc. unfold Dbl.bounceCallback. rewrite Hn.
  cbn [Dbl.b_ballRadius Dbl.bounceCount].
  assert (E : (6 <=? c + 1)%Z = true) by (apply Z.leb_le; exact Hc).
  rewrite E. split; reflexivity.
Qed.

Lemma dbl_bounceTicks_progress (i : nat) (s : Dbl.Component) (r : Dbl.number)
    (k : nat) :
  nth_error (Dbl.bounceIntervals s) i = Some (Dbl.mkBounce r 0) ->
  (k <= 5)%nat ->
  Dbl.bounceIntervals (Dbl.bounceTicks i k s) =
    replace_nth i (Dbl.mkBounce r (Z.of_nat k)) (Dbl.bounceIntervals s) /\
  ((1 <= k)%nat ->
   Dbl.SimulationState.ballY (Dbl.simulationState (Dbl.bounceTicks i k s)) =
     if Nat.even k
     then Dbl.sub (Dbl.groundY r) (Dbl.lit (10 # 1))
     else Dbl.groundY r).
Proof.
  intros Hn. induction k as [|k IH]; intro Hk.
  - split; [|lia]. cbn [Dbl.bounceTicks Z.of_nat]. symmetry.
    apply replace_nth_same, Hn.
  - destruct IH as [IHb _]; [lia|]. cbn [Dbl.bounceTicks].
    assert (Hk' : nth_error (Dbl.bounceIntervals (Dbl.bounceTicks i k s)) i =
                  Some (Dbl.mkBounce r (Z.of_nat k)))
      by (rewrite IHb; apply (nth_error_replace_nth i _ _ _ Hn)).
    destruct (dbl_bounceCallback_step i _ r (Z.of_nat k) Hk' ltac:(lia))
      as [Hb Hy].
    split.
    + rewrite Hb, IHb, replace_nth_twice. do 2 f_equal. lia.
    + intros _. rewrite Hy.
      assert (E : ((Z.of_nat k + 1) mod 2 =? 0)%Z = Nat.even (S k))
        by (do 5 (destruct k as [|k]; [reflexivity|]); lia).
      rewrite E. reflexivity.
Qed.

Lemma dbl_bounceTicks_six (i : nat) (s : Dbl.Component) (r : Dbl.number) :
  nth_error (Dbl.bounceIntervals s) i = Some (Dbl.mkBounce r 0) ->
  (forall k, (1 <= k <= 5)%nat ->
     Dbl.bounceIntervals (Dbl.bounceTicks i k s) =
       replace_nth i (Dbl.mkBounce r (Z.of_nat k)) (Dbl.bounceIntervals s) /\
     Dbl.SimulationState.ballY (Dbl.simulationState (Dbl.bounceTicks i k s)) =
       if Nat.even k
       then Dbl.sub (Dbl.groundY r) (Dbl.lit (10 # 1))
       else Dbl.groundY r) /\
  Dbl.bounceIntervals (Dbl.bounceTicks i 6 s) =
    remove_nth i (Dbl.bounceIntervals s) /\
  Dbl.SimulationState.ballY (Dbl.simulationState (Dbl.bounceTicks i 6 s)) =
    Dbl.groundY r /\
  (forall k, Dbl.bounce_frame s (Dbl.bounceTicks i k s)).
Proof.
  intro Hn.
  assert (H5 : nth_error (Dbl.bounceIntervals (Dbl.bounceTicks i 5 s)) i =
               Some (Dbl.mkBounce r 5)).
  { destruct (dbl_bounceTicks_progress i s r 5 Hn) as [Hb _]; [lia|].
    rewrite Hb. apply (nth_error_replace_nth i _ _ _ Hn). }
  split; [|split; [|split]].
  - intros k Hk.
    destruct (dbl_bounceTicks_progress i s r k Hn) as [Hb Hy]; [lia|].
    split; [exact Hb | apply Hy; lia].
  - destruct (dbl_bounceTicks_progress i s r 5 Hn) as [Hb _]; [lia|].
    change (Dbl.bounceTicks i 6 s)
      with (Dbl.bounceCallback i (Dbl.bounceTicks i 5 s)).
    destruct (dbl_bounceCallback_last i _ r 5 H5 ltac:(lia)) as [Hb' _].
    rewrite Hb', Hb. apply remove_nth_replace_nth.
  - change (Dbl.bounceTicks i 6 s)
      with (Dbl.bounceCallback i (Dbl.bounceTicks i 5 s)).
    apply (dbl_bounceCallback_last i _ r 5 H5). lia.
  - induction k as [|k IH]; [apply dbl_bounce_frame_refl|].
    cbn [Dbl.bounceTicks]. eapply dbl_bounce_frame_trans; [exact IH|].
    apply dbl_bounceCallback_frame.
Qed.

(** X4.  The tick that finds the ball on the ground, by the code's own test
    on doubles, starts one bounce with the run's ball radius; six firings of
    that bounce later the ball lies exactly on the ground line, the bounce
    timer is gone, the driver is stopped and the history is what the run
    recorded. *)
Theorem landing_then_bounce (s : Dbl.Component) (n : nat) :
  Dbl.SimulationState.isRunning (Dbl.simulationState s) = false ->
  (1 <= n)%nat ->
  (forall m, (1 <= m < n)%nat -> Dbl.grounded s m = false) ->
  Dbl.grounded s n = true ->
  let landed := Dbl.ticks n (Dbl.startSimulation s) in
  let i := List.length (Dbl.bounceIntervals s) in
  let rest := Dbl.bounceTicks i 6 landed in
  Dbl.bounceIntervals landed =
    Dbl.bounceIntervals s ++ [Dbl.mkBounce (Dbl.ballRadius s) 0] /\
  Dbl.bounceIntervals rest = Dbl.bounceIntervals s /\
  Dbl.SimulationState.ballY (Dbl.simulationState rest) =
    Dbl.groundY (Dbl.ballRadius s) /\
  Dbl.SimulationState.isRunning (Dbl.simulationState rest) = false /\
  Dbl.intervalRef rest = None /\
  List.length (Dbl.dataHistory rest) = n.
Proof.
  intros idle Hn Hair Hground landed i rest.
  destruct n as [|n]; [lia|].
  assert (Hg : forall m, (1 <= m <= n)%nat -> Dbl.grounded s m = false)
    by (intros m Hm; apply Hair; lia).
  destruct (dbl_run_tick s idle n Hg) as (Hs & Hd & Hi & Hb).
  rewrite Hground in Hs, Hi, Hb. fold landed in Hs, Hd, Hi, Hb.
  assert (Hnth : nth_error (Dbl.bounceIntervals landed) i =
                 Some (Dbl.mkBounce (Dbl.ballRadius s) 0)).
  { subst i. rewrite Hb, nth_error_app2, Nat.sub_diag by lia. reflexivity. }
  destruct (dbl_bounceTicks_six _ landed _ Hnth) as (H5 & Hb6 & Hy6 & Hframe).
  destruct (Hframe 6%nat) as (F1 & _ & F3 & _ & _ & F6 & _).
  fold rest in Hb6, Hy6, F1, F3, F6.
  split; [exact Hb|]. split.
  - rewrite Hb6, Hb. subst i. clear.
    induction (Dbl.bounceIntervals s) as [|b l IH]; [reflexivity|].
    cbn [List.length app remove_nth]. rewrite IH. reflexivity.
  - split; [exact Hy6|]. split; [rewrite F6, Hs; reflexivity|].
    split; [rewrite F3; exact Hi|].
    rewrite F1, Hd, length_map, length_seq. reflexivity.
Qed.

Lemma landing_then_bounce_witness :
  let s :=
    Dbl.run Dbl.mounted
      [ChangeInitialHeight "1"; ChangePlanet custom;
       ChangeCustomGravity "5.55"] in
  let landed := Dbl.ticks 7 (Dbl.startSimulation s) in
  let i := List.length (Dbl.bounceIntervals s) in
  let rest := Dbl.bounceTicks i 6 landed in
  Dbl.bounceIntervals landed =
    Dbl.bounceIntervals s ++ [Dbl.mkBounce (Dbl.ballRadius s) 0] /\
  Dbl.bounceIntervals rest = Dbl.bounceIntervals s /\
  Dbl.SimulationState.ballY (Dbl.simulationState rest) =
    Dbl.groundY (Dbl.ballRadius s) /\
  Dbl.SimulationState.isRunning (Dbl.simulationState rest) = false /\
  Dbl.intervalRef rest = None /\
  List.length (Dbl.dataHistory rest) = 7%nat.
Proof.
  intro s. apply (landing_then_bounce s 7).
  - reflexivity.
  - lia.
  - apply dbl_airborne_before_correct. vm_compute. reflexivity.
  - vm_compute. reflexivity.
Defined.

(** ** Doubles: reading back what [toFixed] prints *)

Lemma of_Q_compat (q q' : Q) : q == q' -> Dbl.of_Q q = Dbl.of_Q q'.
Proof.
  intro H. unfold Dbl.of_Q. rewrite (Qred_complete _ _ H). reflexivity.
Qed.

Lemma dbl_parseFloat_minus_digit (s : string) :
  starts_with_digit s = true ->
  Dbl.parseFloat (String "-" s) =
    match parse_unsigned false s with
    | JS.NaN => S754_nan
    | JS.Num q => Dbl.with_sign true (Dbl.of_Q q)
    end.
Proof.
  destruct s as [|c s]; [discriminate|]. cbn [starts_with_digit]. intro Hc.
  destruct (is_digit_cases c Hc)
    as [->|[->|[->|[->|[->|[->|[->|[->|[->| ->]]]]]]]]]; reflexivity.
Qed.

(** The digits [toFixed] prints after the sign start with a digit and read
    back as [n / 10^f]. *)
Lemma parse_unsigned_fixed_string (f : nat) (n : Z) :
  (0 <= n)%Z ->
  starts_with_digit (Dbl.fixed_string f n) = true /\
  exists q, parse_unsigned false (Dbl.fixed_string f n) = JS.Num q /\
            q == inject_Z n / JS.pow10 (Z.of_nat f).
Proof.
  intros Hn.
  assert (Hval : inject_Z (Z.of_N (Z.to_N n)) * JS.pow10 (0 - Z.of_nat f)
                 == inject_Z n / JS.pow10 (Z.of_nat f)).
  { rewrite Z2N.id by exact Hn. rewrite pow10_opp. reflexivity. }
  unfold Dbl.fixed_string. destruct f as [|f].
  - split; [apply starts_with_digit_digits|].
    rewrite parse_unsigned_integer;
      [|apply all_digits_digits
       |intro E; pose proof (starts_with_digit_digits (Z.to_N n)) as Hd;
        rewrite E in Hd; discriminate].
    cbv zeta. eexists. split; [reflexivity|].
    rewrite digits_value_digits. exact Hval.
  - cbv zeta. destruct (fixed_digits_spec (S f) n Hn) as (Hd & Hlen & Hv).
    set (m := fixed_digits (S f) n) in *.
    assert (Hne : exists c r, JS.take (String.length m - S f) m = String c r
                              /\ JS.is_digit c = true).
    { destruct m as [|c m]; [cbn in Hlen; lia|].
      rewrite all_digits_cons in Hd. apply andb_true_iff in Hd.
      cbn [String.length] in *.
      destruct (S (String.length m) - S f)%nat eqn:E; [lia|].
      cbn [JS.take]. eexists _, _. split; [reflexivity | apply Hd]. }
    destruct Hne as (c & r & Htake & Hc).
    split; [rewrite Htake; exact Hc|].
    rewrite parse_unsigned_fixed.
    + cbv zeta. eexists. split; [reflexivity|].
      rewrite take_drop, Hv, length_drop.
      replace (String.length m - (String.length m - S f))%nat
        with (S f) by lia.
      exact Hval.
    + apply all_digits_take, Hd.
    + rewrite Htake. discriminate.
    + apply all_digits_drop, Hd.
Qed.

Lemma toFixed_fixed_string (f : nat) (q : Q) :
  Qabs q < JS.pow10 21 ->
  JS.toFixed f q =
    if JS.Qlt_bool q 0
    then String "-"
           (Dbl.fixed_string f
              (JS.round_half_up (Qabs q * JS.pow10 (Z.of_nat f))))
    else Dbl.fixed_string f
           (JS.round_half_up (Qabs q * JS.pow10 (Z.of_nat f))).
Proof.
  intro H. rewrite (toFixed_small f q H).
  destruct (JS.Qlt_bool q 0); destruct f; reflexivity.
Qed.

Lemma Qabs_rounded (f : nat) (x : Q) :
  Qabs (rounded f x) ==
  inject_Z (JS.round_half_up (Qabs x * JS.pow10 (Z.of_nat f)))
  / JS.pow10 (Z.of_nat f).
Proof.
  unfold rounded.
  set (n := JS.round_half_up (Qabs x * JS.pow10 (Z.of_nat f))).
  assert (Hn : (0 <= n)%Z).
  { apply round_half_up_nonneg, Qmult_le_0_compat;
      [apply Qabs_nonneg | apply Qlt_le_weak, pow10_pos]. }
  assert (H : 0 <= inject_Z n / JS.pow10 (Z.of_nat f)).
  { apply Qle_shift_div_l; [apply pow10_pos|]. rewrite Qmult_0_l.
    change 0 with (inject_Z 0). rewrite <- Zle_Qle. exact Hn. }
  destruct (JS.Qlt_bool x 0).
  - rewrite Qabs_opp. apply Qabs_pos, H.
  - apply Qabs_pos, H.
Qed.

Lemma dbl_parseFloat_toFixed_Q (f : nat) (q : Q) :
  Qabs q < JS.pow10 21 ->
  Dbl.parseFloat (JS.toFixed f q) =
    Dbl.with_sign (JS.Qlt_bool q 0) (Dbl.of_Q (Qabs (rounded f q))).
Proof.
  intro H. rewrite (toFixed_fixed_string f q H).
  set (n := JS.round_half_up (Qabs q * JS.pow10 (Z.of_nat f))).
  assert (Hn : (0 <= n)%Z).
  { apply round_half_up_nonneg, Qmult_le_0_compat;
      [apply Qabs_nonneg | apply Qlt_le_weak, pow10_pos]. }
  destruct (parse_unsigned_fixed_string f n Hn) as (Hd & v & Hv & Ev).
  assert (Eq : Dbl.of_Q v = Dbl.of_Q (Qabs (rounded f q))).
  { apply of_Q_compat. rewrite Ev, Qabs_rounded. reflexivity. }
  destruct (JS.Qlt_bool q 0).
  - rewrite (dbl_parseFloat_minus_digit _ Hd), Hv, Eq. reflexivity.
  - rewrite (dbl_parseFloat_digit _ Hd), Hv, Eq. reflexivity.
Qed.

(** X15.  Reading back what [toFixed] prints.  For a double [x] that is
    finite, of magnitude below [10^21], and [f <= 100] digits,
    [parseFloat(x.toFixed(f))] is the double nearest to the decimal that
    [toFixed] prints: the exact value of [x] rounded to [f] decimals, half
    away from zero, with the sign of [x] (a negative [x] that rounds to zero
    reads back as [-0]). *)
Theorem parseFloat_toFixed_nearest (f : nat) (x : Dbl.number) :
  (f <= 100)%nat ->
  Dbl.is_finite x = true ->
  Qabs (Dbl.to_Q x) < JS.pow10 21 ->
  Dbl.parseFloat (Dbl.toFixed f x) =
    Dbl.with_sign (JS.Qlt_bool (Dbl.to_Q x) 0)
      (Dbl.of_Q (Qabs (rounded f (Dbl.to_Q x)))).
Proof.
  intros _ Hfin H. destruct x as [s|s| |s m e]; try discriminate Hfin.
  - cbn [Dbl.toFixed]. apply (dbl_parseFloat_toFixed_Q f 0). reflexivity.
  - unfold Dbl.toFixed.
    assert (E : Qle_bool (JS.pow10 21) (Qabs (Dbl.to_Q (S754_finite s m e)))
                = false).
    { destruct (Qle_bool _ _) eqn:E; [|reflexivity].
      apply Qle_bool_iff in E. lra. }
    rewrite E. apply dbl_parseFloat_toFixed_Q, H.
Qed.

Lemma parseFloat_toFixed_nearest_witness :
  Dbl.parseFloat (Dbl.toFixed 1 (Dbl.lit (3 # 4))) =
    Dbl.with_sign (JS.Qlt_bool (Dbl.to_Q (Dbl.lit (3 # 4))) 0)
      (Dbl.of_Q (Qabs (rounded 1 (Dbl.to_Q (Dbl.lit (3 # 4)))))).
Proof.
  apply (parseFloat_toFixed_nearest 1 (Dbl.lit (3 # 4)));
    [lia | reflexivity | reflexivity].
Defined.

(** ** Doubles: the records of a run *)

Lemma with_sign_of_Q (q : Q) : Dbl.with_sign false (Dbl.of_Q q) = Dbl.of_Q q.
Proof.
  unfold Dbl.of_Q. destruct (Qnum (Qred q)) as [|n|n]; try reflexivity.
  unfold SFdiv. destruct (SFdiv_core_binary _ _ _ _ _ _) as [[mz ez] lz].
  unfold binary_round_aux. destruct (shr_fexp _ _ _ _ _) as [mrs' e'].
  destruct (shr_fexp _ _ _ _ _) as [mrs'' e''].
  destruct (shr_m mrs''); [reflexivity | | reflexivity].
  destruct (Z.leb _ _); reflexivity.
Qed.

Lemma rounded_nonneg (f : nat) (q : Q) :
  0 <= q -> Qabs (rounded f q) == rounded f q.
Proof.
  intro H. unfold rounded. rewrite (Qlt_bool_false q 0 H).
  apply Qabs_pos, Qle_shift_div_l; [apply pow10_pos|]. rewrite Qmult_0_l.
  change 0 with (inject_Z 0). rewrite <- Zle_Qle.
  apply round_half_up_nonneg, Qmult_le_0_compat;
    [apply Qabs_nonneg | apply Qlt_le_weak, pow10_pos].
Qed.

(** What a record keeps of a value without sign bit: [NaN] and [Infinity]
    as they are, and of a value below [10^21] the double nearest to its
    rounding to [f] decimals. *)
Lemma dbl_recorded_value (f : nat) (x : Dbl.number) :
  Dbl.sign_bit x = false ->
  match x with
  | S754_nan => Dbl.parseFloat (Dbl.toFixed f x) = S754_nan
  | S754_infinity _ => Dbl.parseFloat (Dbl.toFixed f x) = S754_infinity false
  | _ =>
      Qabs (Dbl.to_Q x) < JS.pow10 21 ->
      Dbl.parseFloat (Dbl.toFixed f x) = Dbl.of_Q (rounded f (Dbl.to_Q x))
  end.
Proof.
  intro Hs.
  assert (Hq : Qabs (Dbl.to_Q x) < JS.pow10 21 ->
               Dbl.parseFloat (JS.toFixed f (Dbl.to_Q x)) =
               Dbl.of_Q (rounded f (Dbl.to_Q x))).
  { intro H. rewrite (dbl_parseFloat_toFixed_Q f _ H).
    rewrite (Qlt_bool_false _ 0 (to_Q_nonneg x Hs)), with_sign_of_Q.
    apply of_Q_compat, rounded_nonneg, to_Q_nonneg, Hs. }
  destruct x as [s|s| |s m e]; cbn [Dbl.sign_bit] in Hs.
  - exact Hq.
  - subst s. reflexivity.
  - reflexivity.
  - intro H. unfold Dbl.toFixed.
    assert (E : Qle_bool (JS.pow10 21) (Qabs (Dbl.to_Q (S754_finite s m e)))
                = false).
    { destruct (Qle_bool _ _) eqn:E; [|reflexivity].
      apply Qle_bool_iff in E. lra. }
    rewrite E. apply Hq, H.
Qed.

(** X16.  The records of a run.  Record number [m] of the history (written by
    the [m]-th tick, no earlier tick having found the ball on the ground)
    carries what [parseFloat(x.toFixed(2))] keeps of the time and the height
    that tick computed.  The recorded height has no sign bit.  It is [NaN]
    or [Infinity] when the computed height is, and for a computed height
    below [10^21] it is the double nearest to that height rounded to two
    decimals, half up. *)
Theorem records_of_a_run (s : Dbl.Component) (k m : nat) :
  Dbl.SimulationState.isRunning (Dbl.simulationState s) = false ->
  (forall j, (1 <= j < k)%nat -> Dbl.grounded s j = false) ->
  (1 <= m <= k)%nat ->
  let h :=
    Dbl.SimulationState.currentHeight
      (Dbl.simulationState (Dbl.ticks m (Dbl.startSimulation s))) in
  exists row,
    nth_error (Dbl.dataHistory (Dbl.ticks k (Dbl.startSimulation s)))
      (m - 1) = Some row /\
    Dbl.SimulationData.time row =
      Dbl.parseFloat (Dbl.toFixed 2 (Dbl.tick_time m)) /\
    Dbl.SimulationData.height row = Dbl.parseFloat (Dbl.toFixed 2 h) /\
    Dbl.sign_bit (Dbl.SimulationData.height row) = false /\
    match h with
    | S754_nan => Dbl.SimulationData.height row = S754_nan
    | S754_infinity _ => Dbl.SimulationData.height row = S754_infinity false
    | _ =>
        Qabs (Dbl.to_Q h) < JS.pow10 21 ->
        Dbl.SimulationData.height row = Dbl.of_Q (rounded 2 (Dbl.to_Q h))
    end.
Proof.
  intros idle Hair Hm h.
  set (cl := Dbl.closure_at s (Dbl.lit 0)).
  assert (Hh : h = Dbl.currentHeight_at cl (Dbl.tick_time m)).
  { subst h. destruct m as [|m]; [lia|].
    destruct (dbl_run_tick s idle m) as (Hs & _);
      [intros j Hj; apply Hair; lia|].
    rewrite Hs. reflexivity. }
  assert (Hd : Dbl.dataHistory (Dbl.ticks k (Dbl.startSimulation s)) =
               map (fun j => Dbl.newData_at cl (Dbl.tick_time j)) (seq 1 k)).
  { destruct k as [|k]; [lia|].
    apply (dbl_run_tick s idle k). intros j Hj. apply Hair. lia. }
  exists (Dbl.newData_at cl (Dbl.tick_time m)).
  split.
  - rewrite Hd.
    rewrite (nth_error_map (fun j => Dbl.newData_at cl (Dbl.tick_time j))).
    assert (E : nth_error (seq 1 k) (m - 1) = Some m).
    { rewrite nth_error_nth' with (d := O) by (rewrite length_seq; lia).
      rewrite seq_nth by lia. f_equal. lia. }
    rewrite E. reflexivity.
  - cbn [Dbl.newData_at Dbl.SimulationData.time Dbl.SimulationData.height].
    rewrite <- Hh.
    assert (Hs : Dbl.sign_bit h = false)
      by (rewrite Hh; apply sign_bit_Math_max_0).
    split; [reflexivity|]. split; [reflexivity|].
    split; [apply sign_bit_parseFloat_toFixed, Hs|].
    apply (dbl_recorded_value 2 h Hs).
Qed.

Lemma records_of_a_run_witness :
  let s := Dbl.mounted in
  let h :=
    Dbl.SimulationState.currentHeight
      (Dbl.simulationState (Dbl.ticks 30 (Dbl.startSimulation s))) in
  exists row,
    nth_error (Dbl.dataHistory (Dbl.ticks 32 (Dbl.startSimulation s)))
      (30 - 1) = Some row /\
    Dbl.SimulationData.time row =
      Dbl.parseFloat (Dbl.toFixed 2 (Dbl.tick_time 30)) /\
    Dbl.SimulationData.height row = Dbl.parseFloat (Dbl.toFixed 2 h) /\
    Dbl.sign_bit (Dbl.SimulationData.height row) = false /\
    match h with
    | S754_nan => Dbl.SimulationData.height row = S754_nan
    | S754_infinity _ => Dbl.SimulationData.height row = S754_infinity false
    | _ =>
        Qabs (Dbl.to_Q h) < JS.pow10 21 ->
        Dbl.SimulationData.height row = Dbl.of_Q (rounded 2 (Dbl.to_Q h))
    end.
Proof.
  intro s. apply (records_of_a_run s 32 30).
  - reflexivity.
  - apply dbl_airborne_before_correct. vm_compute. reflexivity.
  - lia.
Defined.
